(** * papersplease: the border inspector, embedded and verified

    A shallow embedding of [papersplease.py]: the document parser, the
    bulletin parser with the policy state it mutates, and the ordered
    inspection procedure, followed by the properties stated about them.

    Conventions of the embedding.
    - A Python [str] is a [string]; one [ascii] stands for one code point
      below 256.
    - A Python [set] of strings is a duplicate-free [list string].  Python
      leaves the iteration order of a set unspecified, so every loop over a
      set goes through [iter], a field of the class [SetOrder], of which only
      "it enumerates the same elements" is known.
    - A Python [dict] keeps insertion order: it is an association list in
      which assigning to a present key replaces the value in place and
      assigning to an absent key appends.
    - [None] is [None] of an option type.
    - Methods of [Inspector] are computations in a state-and-exception monad
      over the record [Inspector]; an exception leaves the state as it was
      when it was raised.
    - The two [print] calls of [receive_bulletin] and the method [__str__]
      they call write to the console only and are left out.
    - Library behaviour ([str], [set], [dict], [defaultdict],
      [datetime.strptime]) is that of CPython 3.7 to 3.13. *)

From Stdlib Require Import String Ascii List ZArith Lia Bool Permutation.
Import ListNotations.
Open Scope string_scope.
Open Scope list_scope.

(** ** Python strings *)

Module PyStr.

(** Code points below 256 that [str.strip] removes. *)
Definition is_space (c : ascii) : bool :=
  let n := nat_of_ascii c in
  (((9 <=? n) && (n <=? 13)) || ((28 <=? n) && (n <=? 32))
   || (n =? 133) || (n =? 160))%nat.

(** [str.lower] on one code point below 256. *)
Definition lower_char (c : ascii) : ascii :=
  let n := nat_of_ascii c in
  if (((65 <=? n) && (n <=? 90))
      || ((192 <=? n) && (n <=? 222) && negb (n =? 215)))%nat
  then ascii_of_nat (n + 32) else c.

Fixpoint lower (s : string) : string :=
  match s with
  | EmptyString => EmptyString
  | String c s' => String (lower_char c) (lower s')
  end.

Fixpoint lstrip (s : string) : string :=
  match s with
  | EmptyString => EmptyString
  | String c s' => if is_space c then lstrip s' else s
  end.

Fixpoint rstrip (s : string) : string :=
  match s with
  | EmptyString => EmptyString
  | String c s' =>
      match rstrip s' with
      | EmptyString => if is_space c then EmptyString else String c EmptyString
      | r => String c r
      end
  end.

(** [s.strip()] *)
Definition strip (s : string) : string := rstrip (lstrip s).

(** [s.startswith(p)] *)
Definition startswith (p s : string) : bool := prefix p s.

(** [sub in s] *)
Fixpoint contains (sub s : string) : bool :=
  prefix sub s
  || match s with
     | EmptyString => false
     | String _ s' => contains sub s'
     end.

Fixpoint find_from (sub s : string) (i : Z) : Z :=
  if prefix sub s then i
  else match s with
       | EmptyString => (-1)%Z
       | String _ s' => find_from sub s' (i + 1)%Z
       end.

(** [s.find(sub)]: the lowest index of [sub] in [s], or -1. *)
Definition find (sub s : string) : Z := find_from sub s 0%Z.

(** [s.split(sep)] for a non-empty [sep]: occurrences are taken from the
    left and do not overlap.  [skip] counts the characters of a separator
    still to pass over, [cur] is the piece being read. *)
Fixpoint split_aux (sep : string) (skip : nat) (cur s : string) : list string :=
  match s with
  | EmptyString => [cur]
  | String c s' =>
      match skip with
      | S k => split_aux sep k cur s'
      | O =>
          if prefix sep s
          then cur :: split_aux sep (String.length sep - 1) EmptyString s'
          else split_aux sep 0 (cur ++ String c EmptyString)%string s'
      end
  end.

Definition split (sep s : string) : list string :=
  split_aux sep 0 EmptyString s.

(** [s.count(sep)] for a non-empty [sep]. *)
Fixpoint count_aux (sep : string) (skip : nat) (s : string) : nat :=
  match s with
  | EmptyString => 0
  | String _ s' =>
      match skip with
      | S k => count_aux sep k s'
      | O =>
          if prefix sep s
          then S (count_aux sep (String.length sep - 1) s')
          else count_aux sep 0 s'
      end
  end.

Definition count (sep s : string) : nat := count_aux sep 0 s.

(** [s.replace(old, new)] for a non-empty [old]. *)
Fixpoint replace_aux (old new : string) (skip : nat) (s : string) : string :=
  match s with
  | EmptyString => EmptyString
  | String c s' =>
      match skip with
      | S k => replace_aux old new k s'
      | O =>
          if prefix old s
          then (new ++ replace_aux old new (String.length old - 1) s')%string
          else String c (replace_aux old new 0 s')
      end
  end.

Definition replace (old new s : string) : string := replace_aux old new 0 s.

(** [sep.join(l)] *)
Definition join (sep : string) (l : list string) : string := String.concat sep l.

(** A slice bound, as Python normalises it against the length. *)
Definition clamp (len i : Z) : Z :=
  if (i <? 0)%Z then Z.max 0 (len + i) else Z.min i len.

(** [s[b:e]] *)
Definition slice (s : string) (b e : Z) : string :=
  let n := Z.of_nat (String.length s) in
  let b' := clamp n b in
  let e' := clamp n e in
  substring (Z.to_nat b') (Z.to_nat (e' - b')) s.

(** [s[b:]] *)
Definition slice_from (s : string) (b : Z) : string :=
  slice s b (Z.of_nat (String.length s)).

(** [len(s)] as an index. *)
Definition len (s : string) : Z := Z.of_nat (String.length s).

(** Truth value of a string: non-empty. *)
Definition truthy (s : string) : bool :=
  match s with EmptyString => false | _ => true end.

End PyStr.

(** ** Python sets of strings *)

Module PySet.

Definition t := list string.

(** [x in s] *)
Definition mem (x : string) (s : t) : bool := existsb (String.eqb x) s.

(** [s.add(x)] *)
Definition add (x : string) (s : t) : t := if mem x s then s else s ++ [x].

(** [set(l)] *)
Definition of_list (l : list string) : t :=
  fold_left (fun acc x => add x acc) l [].

(** [a.union(b)] *)
Definition union (a b : t) : t := fold_left (fun acc x => add x acc) b a.

(** [a.difference(b)] *)
Definition difference (a b : t) : t := filter (fun x => negb (mem x b)) a.

(** The set left by [s.remove(x)] when [x] is in [s]. *)
Definition discard (x : string) (s : t) : t :=
  filter (fun y => negb (String.eqb x y)) s.

(** [a.issubset(b)] *)
Definition issubset (a b : t) : bool := forallb (fun x => mem x b) a.

(** [set().union] applied to all of [sets] at once. *)
Definition union_all (sets : list t) : t := fold_left union sets [].

(** [len(s)] *)
Definition size (s : t) : nat := List.length s.

End PySet.

(** The order in which a Python set is iterated is not specified: [iter]
    is any enumeration of the elements of its argument. *)
Class SetOrder := {
  iter : list string -> list string;
  iter_perm : forall s, Permutation (iter s) s
}.

(** One such order: the order of insertion. *)
Definition insertion_order : SetOrder :=
  {| iter := fun s => s; iter_perm := fun s => Permutation_refl s |}.

(** ** Python dicts *)

Module PyDict.
Section Dict.
Context {K V : Type} (keq : K -> K -> bool).

Definition t := list (K * V).

(** [d.get(k)] *)
Fixpoint get (k : K) (d : t) : option V :=
  match d with
  | [] => None
  | (k', v) :: d' => if keq k k' then Some v else get k d'
  end.

(** [k in d] *)
Definition has (k : K) (d : t) : bool :=
  match get k d with Some _ => true | None => false end.

(** [d[k] = v] *)
Fixpoint set (k : K) (v : V) (d : t) : t :=
  match d with
  | [] => [(k, v)]
  | (k', v') :: d' =>
      if keq k k' then (k', v) :: d' else (k', v') :: set k v d'
  end.

(** [d.keys()], [d.values()] *)
Definition keys (d : t) : list K := map fst d.
Definition values (d : t) : list V := map snd d.
End Dict.
End PyDict.

(** Keys of the policy mappings are nationalities: a string or [None]. *)
Definition key_eqb (a b : option string) : bool :=
  match a, b with
  | None, None => true
  | Some x, Some y => String.eqb x y
  | _, _ => false
  end.

(** ** Exceptions and results *)

(** The exceptions the program raises:
    - [ValueError msg], from [raise ValueError(msg)];
    - [UnpackError got], the [ValueError] of [a, b = parts] when [parts]
      has [got] elements, [got] other than 2;
    - [StrptimeError text], the [ValueError] of
      [datetime.strptime(text, ...)];
    - [KeyError key], from [d[key]] on a dict without [key] and from
      [s.remove(key)] on a set without it. *)
Inductive exn :=
| ValueError (msg : string)
| UnpackError (got : nat)
| StrptimeError (text : string)
| KeyError (key : string).

(** The message CPython gives the [ValueError] of an unpacking into two
    names: it tells how many values there were, and nothing of the values. *)
Definition unpack_message (got : nat) : string :=
  if (got <? 2)%nat
  then "not enough values to unpack (expected 2, got 1)"
  else "too many values to unpack (expected 2)".

Definition result (A : Type) : Type := (exn + A)%type.
Definition Ok {A} (a : A) : result A := inr a.
Definition Err {A} (e : exn) : result A := inl e.

(** ** Dates: [datetime.strptime(text, '%Y.%m.%d')] and [<] *)

Module PyDate.

Record date := mkdate { year : nat; month : nat; day : nat }.

(** [a < b] on datetimes at midnight. *)
Definition ltb (a b : date) : bool :=
  ((year a <? year b)
   || ((year a =? year b)
       && ((month a <? month b)
           || ((month a =? month b) && (day a <? day b)))))%nat.

Definition digit (c : ascii) : option nat :=
  let n := nat_of_ascii c in
  if ((48 <=? n) && (n <=? 57))%nat then Some (n - 48) else None.

Definition digit_in (lo hi : nat) (c : ascii) : option nat :=
  match digit c with
  | Some d => if ((lo <=? d) && (d <=? hi))%nat then Some d else None
  | None => None
  end.

(** [%Y] is [\d\d\d\d]. *)
Definition directive_Y (s : string) : option (nat * string) :=
  match s with
  | String a (String b (String c (String d rest))) =>
      match digit a, digit b, digit c, digit d with
      | Some a, Some b, Some c, Some d =>
          Some (1000 * a + 100 * b + 10 * c + d, rest)
      | _, _, _, _ => None
      end
  | _ => None
  end.

(** A two-character alternative [x y] with [x] in [lo1..hi1] and [y] in
    [lo2..hi2], and a one-character alternative. *)
Definition two (lo1 hi1 lo2 hi2 : nat) (s : string) : list (nat * string) :=
  match s with
  | String a (String b rest) =>
      match digit_in lo1 hi1 a, digit_in lo2 hi2 b with
      | Some a, Some b => [(10 * a + b, rest)]
      | _, _ => []
      end
  | _ => []
  end.

Definition one (lo hi : nat) (s : string) : list (nat * string) :=
  match s with
  | String a rest =>
      match digit_in lo hi a with
      | Some a => [(a, rest)]
      | None => []
      end
  | _ => []
  end.

(** [%m] is [1[0-2]|0[1-9]|[1-9]]: the matches, in the order the regular
    expression tries them. *)
Definition directive_m (s : string) : list (nat * string) :=
  two 1 1 0 2 s ++ two 0 0 1 9 s ++ one 1 9 s.

(** [%d] is [3[0-1]|[1-2]\d|0[1-9]|[1-9]| [1-9]]. *)
Definition directive_d (s : string) : list (nat * string) :=
  two 3 3 0 1 s ++ two 1 2 0 9 s ++ two 0 0 1 9 s ++ one 1 9 s
  ++ match s with
     | String " " rest => one 1 9 rest
     | _ => []
     end.

Definition dot (s : string) : option string :=
  match s with
  | String "." rest => Some rest
  | _ => None
  end.

(** What follows [%m] in the format: [.%d]; the first alternative of [%d]
    that matches ends the match. *)
Definition dot_d (s : string) : option (nat * string) :=
  match dot s with
  | Some s' => hd_error (directive_d s')
  | None => None
  end.

(** The first alternative of [%m] after which the rest of the format
    matches. *)
Fixpoint first_m (alts : list (nat * string)) : option (nat * nat * string) :=
  match alts with
  | [] => None
  | (m, s) :: alts' =>
      match dot_d s with
      | Some (d, rest) => Some (m, d, rest)
      | None => first_m alts'
      end
  end.

Definition is_leap (y : nat) : bool :=
  (((y mod 4 =? 0) && negb (y mod 100 =? 0)) || (y mod 400 =? 0))%nat.

Definition days_in_month (y m : nat) : nat :=
  match m with
  | 2 => if is_leap y then 29 else 28
  | 4 | 6 | 9 | 11 => 30
  | _ => 31
  end.

(** [datetime(y, m, d)]: [None] for the [ValueError] of a date that does
    not exist. *)
Definition make (y m d : nat) : option date :=
  if ((1 <=? y) && (1 <=? m) && (m <=? 12) && (1 <=? d)
      && (d <=? days_in_month y m))%nat
  then Some (mkdate y m d) else None.

(** [datetime.strptime(text, '%Y.%m.%d')]: [None] for its [ValueError]
    (no match, text left over after the match, or no such date). *)
Definition strptime (text : string) : option date :=
  match directive_Y text with
  | Some (y, s1) =>
      match dot s1 with
      | Some s2 =>
          match first_m (directive_m s2) with
          | Some (m, d, EmptyString) => make y m d
          | _ => None
          end
      | None => None
      end
  | None => None
  end.

End PyDate.

(** ** Module-level constants and functions *)

Definition NL : string := String "010"%char EmptyString.

Definition Document : Type := list (string * string).
Definition Documents : Type := list (string * Document).

Definition FIELDS_TO_STR : list (string * string) :=
  [ ("NAME", "name");
    ("DOB", "date of birth");
    ("SEX", "sex");
    ("ID#", "ID number");
    ("NATION", "nationality") ].

Definition MISMATCH_FIELDS : list string := PyDict.keys FIELDS_TO_STR.

Definition TODAY : PyDate.date := PyDate.mkdate 1982 11 22.

Definition COUNTRIES : PySet.t :=
  [ "arstotzka"; "antegria"; "impor"; "kolechia"; "obristan"; "republia";
    "united federation" ].

(** [parse_document], the loop over [entries] with the dict built so far. *)
Fixpoint parse_entries (entries : list string) (parsed : Document)
  : result Document :=
  match entries with
  | [] => Ok parsed
  | entry :: entries' =>
      match PyStr.split ": " (PyStr.strip entry) with
      | [title; data] =>
          parse_entries entries' (PyDict.set String.eqb title data parsed)
      | parts => Err (UnpackError (List.length parts))
      end
  end.

Definition parse_document (document : string) : result Document :=
  parse_entries (PyStr.split NL document) [].

(** The set comprehension of [check_mismatches]: the values of [field] in
    the documents that have it. *)
Definition field_values (documents : Documents) (field : string) : PySet.t :=
  PySet.of_list
    (flat_map
       (fun td : string * Document =>
          match PyDict.get String.eqb field (snd td) with
          | Some v => [v]
          | None => []
          end)
       documents).

Fixpoint check_mismatches (documents : Documents) (fields : list string)
  : list (string * PySet.t) :=
  match fields with
  | [] => []
  | field :: fields' =>
      let values := field_values documents field in
      if (1 <? PySet.size values)%nat
      then (field, values) :: check_mismatches documents fields'
      else check_mismatches documents fields'
  end.

Fixpoint check_expirations (documents : Documents) (check_date : PyDate.date)
  : result (list string) :=
  match documents with
  | [] => Ok []
  | (document_title, document) :: documents' =>
      let continue (expired_here : list string) :=
        match check_expirations documents' check_date with
        | inr expired => Ok (expired_here ++ expired)
        | inl e => Err e
        end in
      match PyDict.get String.eqb "EXP" document with
      | Some date =>
          if PyStr.truthy date
          then match PyDate.strptime date with
               | Some d =>
                   if PyDate.ltb d check_date
                   then continue [document_title]
                   else continue []
               | None => Err (StrptimeError date)
               end
          else continue []
      | None => continue []
      end
  end.

(** Truth value of a value that is [None] or a string. *)
Definition truthy (v : option string) : bool :=
  match v with
  | Some s => PyStr.truthy s
  | None => false
  end.

(** The loop of [get_name]; [name] is the variable as the loop left it. *)
Fixpoint get_name_loop (documents : Documents) (name : option string)
  : option string :=
  match documents with
  | [] => name
  | (_, document) :: documents' =>
      let name := PyDict.get String.eqb "NAME" document in
      if truthy name then name else get_name_loop documents' name
  end.

Definition get_name (documents : Documents) : option string :=
  get_name_loop documents None.

Fixpoint get_nationality_loop (documents : Documents) (nationality : option string)
  : option string :=
  match documents with
  | [] => nationality
  | (_, document) :: documents' =>
      let nationality := PyDict.get String.eqb "NATION" document in
      if truthy nationality then nationality
      else get_nationality_loop documents' nationality
  end.

Definition get_nationality (documents : Documents) : option string :=
  get_nationality_loop documents None.

(** ** The class [Inspector] *)

(** A [defaultdict(set)] keyed by nationality. *)
Definition PolicyMap : Type := list (option string * PySet.t).

Record Inspector := mkInspector {
  allowed_countries : PySet.t;
  required_documents : PolicyMap;
  required_vaccinations : PolicyMap;
  wanted_criminals : PySet.t;
  work_pass_required : bool
}.

(** [Inspector.__init__] *)
Definition init : Inspector :=
  {| allowed_countries := ["arstotzka"];
     required_documents := [];
     required_vaccinations := [];
     wanted_criminals := [];
     work_pass_required := false |}.

Definition set_allowed_countries (v : PySet.t) (self : Inspector) : Inspector :=
  {| allowed_countries := v;
     required_documents := required_documents self;
     required_vaccinations := required_vaccinations self;
     wanted_criminals := wanted_criminals self;
     work_pass_required := work_pass_required self |}.

Definition set_required_documents (v : PolicyMap) (self : Inspector) : Inspector :=
  {| allowed_countries := allowed_countries self;
     required_documents := v;
     required_vaccinations := required_vaccinations self;
     wanted_criminals := wanted_criminals self;
     work_pass_required := work_pass_required self |}.

Definition set_required_vaccinations (v : PolicyMap) (self : Inspector) : Inspector :=
  {| allowed_countries := allowed_countries self;
     required_documents := required_documents self;
     required_vaccinations := v;
     wanted_criminals := wanted_criminals self;
     work_pass_required := work_pass_required self |}.

Definition set_wanted_criminals (v : PySet.t) (self : Inspector) : Inspector :=
  {| allowed_countries := allowed_countries self;
     required_documents := required_documents self;
     required_vaccinations := required_vaccinations self;
     wanted_criminals := v;
     work_pass_required := work_pass_required self |}.

Definition set_work_pass_required (v : bool) (self : Inspector) : Inspector :=
  {| allowed_countries := allowed_countries self;
     required_documents := required_documents self;
     required_vaccinations := required_vaccinations self;
     wanted_criminals := wanted_criminals self;
     work_pass_required := v |}.

(** A method body: from the state of [self] to a value or an exception,
    and the state of [self] afterwards. *)
Definition M (A : Type) : Type := Inspector -> result A * Inspector.

Definition ret {A} (a : A) : M A := fun self => (Ok a, self).

Definition raise {A} (e : exn) : M A := fun self => (Err e, self).

Definition bind {A B} (m : M A) (f : A -> M B) : M B :=
  fun self =>
    match m self with
    | (inr a, self') => f a self'
    | (inl e, self') => (Err e, self')
    end.

(** A computation that does not touch [self]. *)
Definition lift {A} (r : result A) : M A := fun self => (r, self).

(** Reading and assigning an attribute of [self]. *)
Definition attr {A} (field : Inspector -> A) : M A :=
  fun self => (Ok (field self), self).

Definition assign {A} (setter : A -> Inspector -> Inspector) (v : A) : M unit :=
  fun self => (Ok tt, setter v self).

Declare Scope py_scope.
Delimit Scope py_scope with py.
Notation "x <- m ;; k" := (bind m (fun x => k))
  (at level 100, m at next level, right associativity) : py_scope.
Notation "m ;;; k" := (bind m (fun _ => k))
  (at level 100, right associativity) : py_scope.
Open Scope py_scope.

(** [d[k]] on a [defaultdict(set)]: an absent key is first inserted with
    the empty set. *)
Definition default_getitem (k : option string) (d : PolicyMap)
  : PySet.t * PolicyMap :=
  match PyDict.get key_eqb k d with
  | Some v => (v, d)
  | None => ([], PyDict.set key_eqb k [] d)
  end.

(** [self.required_documents[k]] and [self.required_vaccinations[k]]. *)
Definition required_documents_getitem (k : option string) : M PySet.t :=
  fun self =>
    let (v, d) := default_getitem k (required_documents self) in
    (Ok v, set_required_documents d self).

Definition required_vaccinations_getitem (k : option string) : M PySet.t :=
  fun self =>
    let (v, d) := default_getitem k (required_vaccinations self) in
    (Ok v, set_required_vaccinations d self).

(** [d[k]] on a plain dict. *)
Definition getitem (k : string) (d : list (string * string)) : result string :=
  match PyDict.get String.eqb k d with
  | Some v => Ok v
  | None => Err (KeyError k)
  end.

(** [x in s] for [x] a string or [None] and [s] a set of strings. *)
Definition mem_value (x : option string) (s : PySet.t) : bool :=
  match x with
  | Some x => PySet.mem x s
  | None => false
  end.

(** [d[k].add(x)] and [d[k].remove(x)] on a [defaultdict(set)]: the set is
    changed inside the mapping; [remove] raises [KeyError] when [x] is not
    in the set (after the lookup has inserted an absent [k]). *)
Definition default_add (k : option string) (x : string) (d : PolicyMap)
  : result unit * PolicyMap :=
  let (s, d') := default_getitem k d in
  (Ok tt, PyDict.set key_eqb k (PySet.add x s) d').

Definition default_remove (k : option string) (x : string) (d : PolicyMap)
  : result unit * PolicyMap :=
  let (s, d') := default_getitem k d in
  if PySet.mem x s
  then (Ok tt, PyDict.set key_eqb k (PySet.discard x s) d')
  else (Err (KeyError x), d').

Definition on_required_documents
  (f : PolicyMap -> result unit * PolicyMap) : M unit :=
  fun self =>
    let (r, d) := f (required_documents self) in
    (r, set_required_documents d self).

Definition on_required_vaccinations
  (f : PolicyMap -> result unit * PolicyMap) : M unit :=
  fun self =>
    let (r, d) := f (required_vaccinations self) in
    (r, set_required_vaccinations d self).

Section Methods.
Context {ord : SetOrder}.

(** *** [receive_bulletin] *)

(** The four [for category in categories] loops, over the categories in
    the order the set yields them. *)
Fixpoint unrequire_vaccinations (categories : list string) (disease : string)
  : M unit :=
  match categories with
  | [] => ret tt
  | category :: categories' =>
      on_required_vaccinations
        (default_remove (Some (PyStr.lower category)) disease) ;;;
      unrequire_vaccinations categories' disease
  end.

Fixpoint unrequire_documents (categories : list string) (requirement : string)
  : M unit :=
  match categories with
  | [] => ret tt
  | category :: categories' =>
      on_required_documents
        (default_remove (Some (PyStr.lower category)) requirement) ;;;
      unrequire_documents categories' requirement
  end.

Fixpoint require_vaccinations (categories : list string) (disease : string)
  : M unit :=
  match categories with
  | [] => ret tt
  | category :: categories' =>
      on_required_vaccinations
        (default_add (Some (PyStr.lower category)) disease) ;;;
      require_vaccinations categories' disease
  end.

Fixpoint require_documents (categories : list string) (requirement : string)
  : M unit :=
  match categories with
  | [] => ret tt
  | category :: categories' =>
      on_required_documents
        (default_add (Some (PyStr.lower category)) requirement) ;;;
      require_documents categories' requirement
  end.

(** The macro expansion at the head of the loop body. *)
Definition expand (entry : string) : string :=
  let entry :=
    if PyStr.contains "Foreigners" entry
    then
      let rep := ("Citizens of "
                  ++ PyStr.join ", " (iter (PySet.difference COUNTRIES ["arstotzka"])))%string in
      PyStr.replace "Foreigners" rep entry
    else entry in
  if PyStr.contains "Entrants" entry
  then
    let rep := ("Citizens of " ++ PyStr.join ", " (iter COUNTRIES))%string in
    PyStr.replace "Entrants" rep entry
  else entry.

(** [categories] of a line with [Citizens of]: [set(entry[beg:end].split(', '))]. *)
Definition categories_of (entry : string) (end_ : Z) : PySet.t :=
  let beg := (PyStr.find "of " entry + 3)%Z in
  PySet.of_list (PyStr.split ", " (PyStr.slice entry beg end_)).

(** [entry[entry.find(' require') + len(' require '):]] *)
Definition requirement_of (entry : string) : string :=
  PyStr.slice_from entry (PyStr.find " require" entry + PyStr.len " require ")%Z.

(** [" ".join(requirement.split(' ')[:-1])] *)
Definition disease_of (requirement : string) : string :=
  PyStr.join " " (removelast (PyStr.split " " requirement)).

(** The body of the loop of [receive_bulletin], for one [entry]. *)
Definition receive_entry (entry : string) : M unit :=
  let entry := PyStr.strip entry in
  let entry := expand entry in
  if PyStr.startswith "Allow citizens of " entry then
    let countries :=
      PyStr.split ", " (PyStr.slice_from entry (PyStr.len "Allow citizens of ")) in
    let countries := PySet.of_list (map PyStr.lower countries) in
    allowed <- attr allowed_countries ;;
    assign set_allowed_countries (PySet.union allowed countries)
  else if PyStr.startswith "Deny citizens of " entry then
    let countries :=
      PyStr.split ", " (PyStr.slice_from entry (PyStr.len "Deny citizens of ")) in
    let countries := PySet.of_list (map PyStr.lower countries) in
    allowed <- attr allowed_countries ;;
    assign set_allowed_countries (PySet.difference allowed countries)
  else if PyStr.startswith "Wanted by the State: " entry then
    let name := PyStr.slice_from entry (PyStr.len "Wanted by the State: ") in
    match PyStr.split " " name with
    | [first; last] =>
        wanted <- attr wanted_criminals ;;
        assign set_wanted_criminals
          (PySet.add (last ++ ", " ++ first)%string wanted)
    | parts => raise (UnpackError (List.length parts))
    end
  else if PyStr.contains "no longer require" entry then
    let end_ := PyStr.find " no longer require" entry in
    if PyStr.contains "Citizens of " entry then
      let categories := categories_of entry end_ in
      let requirement := requirement_of entry in
      if PyStr.contains "vaccination" requirement
      then unrequire_vaccinations (iter categories) (disease_of requirement)
      else unrequire_documents (iter categories) requirement
    else if PyStr.contains "Workers" entry then
      assign set_work_pass_required false
    else raise (ValueError ("Cannot parse entry " ++ entry ++ ".")%string)
  else if PyStr.contains "require" entry then
    let end_ := PyStr.find " require" entry in
    if PyStr.contains "Citizens of " entry then
      let categories := categories_of entry end_ in
      let requirement := requirement_of entry in
      if PyStr.contains "vaccination" requirement
      then require_vaccinations (iter categories) (disease_of requirement)
      else require_documents (iter categories) requirement
    else if PyStr.contains "Workers" entry then
      assign set_work_pass_required true
    else raise (ValueError ("Cannot parse entry " ++ entry ++ ".")%string)
  else raise (ValueError ("Could not parse entry : " ++ entry)%string).

Fixpoint receive_entries (entries : list string) : M unit :=
  match entries with
  | [] => ret tt
  | entry :: entries' => receive_entry entry ;;; receive_entries entries'
  end.

Definition receive_bulletin (bulletin : string) : M unit :=
  receive_entries (PyStr.split NL bulletin).

(** *** [inspect] *)

(** The dict comprehension that builds [documents]: titles normalised,
    bodies parsed, in the order of [entrant.items()]; a title met again
    keeps its place and takes the later body. *)
Fixpoint parse_entrant_loop (items : list (string * string))
  (documents : Documents) : result Documents :=
  match items with
  | [] => Ok documents
  | (document_title, document) :: items' =>
      let title := PyStr.lower (PyStr.replace "_" " " document_title) in
      match parse_document document with
      | inr parsed =>
          parse_entrant_loop items' (PyDict.set String.eqb title parsed documents)
      | inl e => Err e
      end
  end.

Definition parse_entrant (entrant : list (string * string)) : result Documents :=
  parse_entrant_loop entrant [].

(** The loop [for required_document in required_documents]: the document
    type the loop returns for, if it returns. *)
Fixpoint missing_document (required_documents : list string)
  (documents : Documents) : option string :=
  match required_documents with
  | [] => None
  | required_document :: required_documents' =>
      if String.eqb required_document "access permit"
      then missing_document required_documents' documents
      else if negb (PyDict.has String.eqb (PyStr.lower required_document) documents)
      then Some required_document
      else missing_document required_documents' documents
  end.

(** The block under [# Check access permits]: [Some] decision when it
    returns, [None] when control falls through to the next check. *)
Definition check_access_permits (documents : Documents)
  (nationality : option string) : M (option string) :=
  if negb (key_eqb nationality (Some "arstotzka")) then
    required <- required_documents_getitem nationality ;;
    if PySet.mem "access permit" required then
      match PyDict.get String.eqb "access permit" documents with
      | None =>
          if PyDict.has String.eqb "grant of asylum" documents then ret None
          else
            match PyDict.get String.eqb "diplomatic authorization" documents with
            | Some document =>
                access <- lift (getitem "ACCESS" document) ;;
                let authorized_countries :=
                  PySet.of_list (PyStr.split ", " access) in
                if negb (PySet.mem "Arstotzka" authorized_countries)
                then ret (Some "Entry denied: invalid diplomatic authorization.")
                else ret None
            | None =>
                ret (Some "Entry denied: missing required access permit.")
            end
      | Some permit =>
          work_pass <- attr work_pass_required ;;
          if work_pass : bool then
            visit_purpose <- lift (getitem "PURPOSE" permit) ;;
            if String.eqb visit_purpose "WORK" then
              if negb (PyDict.has String.eqb "work pass" documents)
              then ret (Some "Entry denied: missing required work pass.")
              else ret None
            else ret None
          else ret None
      end
    else ret None
  else ret None.

(** The blocks under [# Check vaccinations] and [# Farewell]. *)
Definition check_vaccinations (documents : Documents)
  (nationality : option string) : M string :=
  let farewell :=
    if key_eqb nationality (Some "arstotzka")
    then "Glory to Arstotzka." else "Cause no trouble." in
  required_vaccinations <- required_vaccinations_getitem nationality ;;
  match required_vaccinations with
  | _ :: _ =>
      match PyDict.get String.eqb "certificate of vaccination" documents with
      | None =>
          ret "Entry denied: missing required certificate of vaccination."
      | Some certificate =>
          vaccines <- lift (getitem "VACCINES" certificate) ;;
          let vaccinations := PySet.of_list (PyStr.split ", " vaccines) in
          if negb (PySet.issubset required_vaccinations vaccinations)
          then ret "Entry denied: missing required vaccination."
          else ret farewell
      end
  | [] => ret farewell
  end.

(** [Inspector.inspect], on the documents already parsed. *)
Definition inspect_documents (documents : Documents) : M string :=
  match check_mismatches documents MISMATCH_FIELDS with
  | mismatch :: _ =>
      label <- lift (getitem (fst mismatch) FIELDS_TO_STR) ;;
      ret ("Detainment: " ++ label ++ " mismatch.")%string
  | [] =>
  let name := get_name documents in
  wanted <- attr wanted_criminals ;;
  if mem_value name wanted
  then ret "Detainment: Entrant is a wanted criminal."
  else
  let nationality := get_nationality documents in
  let nationality :=
    if truthy nationality then option_map PyStr.lower nationality
    else nationality in
  required_documents <-
    match nationality with
    | None =>
        d <- attr required_documents ;;
        ret (PySet.union_all (PyDict.values d))
    | Some _ => required_documents_getitem nationality
    end ;;
  match missing_document (iter required_documents) documents with
  | Some required_document =>
      ret ("Entry denied: missing required " ++ required_document ++ ".")%string
  | None =>
  expirations <- lift (check_expirations documents TODAY) ;;
  match expirations with
  | expired :: _ =>
      let document_title := PyStr.replace "_" " " expired in
      ret ("Entry denied: " ++ document_title ++ " expired.")%string
  | [] =>
  denial <- check_access_permits documents nationality ;;
  match denial with
  | Some decision => ret decision
  | None =>
  allowed <- attr allowed_countries ;;
  if negb (mem_value nationality allowed)
  then ret "Entry denied: citizen of banned nation."
  else check_vaccinations documents nationality
  end end end end.

Definition inspect (entrant : list (string * string)) : M string :=
  documents <- lift (parse_entrant entrant) ;;
  inspect_documents documents.

End Methods.

(** * Vocabulary of the properties *)

(** The set a policy mapping gives for a category: what [d[k]] returns,
    an absent category standing for the empty set. *)
Definition lookup (k : option string) (d : PolicyMap) : PySet.t :=
  match PyDict.get key_eqb k d with
  | Some s => s
  | None => []
  end.

(** [s[n:]] for a natural [n]. *)
Fixpoint drop (n : nat) (s : string) : string :=
  match n, s with
  | O, _ => s
  | S n', String _ s' => drop n' s'
  | S _, EmptyString => EmptyString
  end.

(** What the loops over categories leave alone. *)
Definition same_but_documents (a b : Inspector) : Prop :=
  allowed_countries b = allowed_countries a
  /\ required_vaccinations b = required_vaccinations a
  /\ wanted_criminals b = wanted_criminals a
  /\ work_pass_required b = work_pass_required a.

Definition same_but_vaccinations (a b : Inspector) : Prop :=
  allowed_countries b = allowed_countries a
  /\ required_documents b = required_documents a
  /\ wanted_criminals b = wanted_criminals a
  /\ work_pass_required b = work_pass_required a.

(** Every value of every document is a non-empty string. *)
Definition well_parsed (documents : Documents) : Prop :=
  forall title document key value,
    In (title, document) documents ->
    PyDict.get String.eqb key document = Some value ->
    value <> EmptyString.

(** The value of [field] in the first document that has the field. *)
Fixpoint first_value (field : string) (documents : Documents) : option string :=
  match documents with
  | [] => None
  | (_, document) :: documents' =>
      match PyDict.get String.eqb field document with
      | Some v => Some v
      | None => first_value field documents'
      end
  end.

(** Some document has [value] for [field]. *)
Definition carries (documents : Documents) (field value : string) : Prop :=
  exists title document,
    In (title, document) documents
    /\ PyDict.get String.eqb field document = Some value.

(** The documents that have [field] all give it the same value. *)
Definition agree (documents : Documents) (field : string) : Prop :=
  forall v1 v2,
    carries documents field v1 -> carries documents field v2 -> v1 = v2.

(** Two documents give [field] different values. *)
Definition disagree (documents : Documents) (field : string) : Prop :=
  exists v1 v2,
    carries documents field v1 /\ carries documents field v2 /\ v1 <> v2.

(** The decisions of the checks that follow the wanted check. *)
Inductive later_decision : string -> Prop :=
| missing_required (type : string) :
    later_decision ("Entry denied: missing required " ++ type ++ ".")
| expired (title : string) :
    later_decision ("Entry denied: " ++ title ++ " expired.")
| invalid_authorization :
    later_decision "Entry denied: invalid diplomatic authorization."
| banned_nation :
    later_decision "Entry denied: citizen of banned nation."
| missing_vaccination :
    later_decision "Entry denied: missing required vaccination."
| glory : later_decision "Glory to Arstotzka."
| no_trouble : later_decision "Cause no trouble.".

(** The decision templates: a detainment, a denial with its reason, an
    admission. *)
Inductive decision : string -> Prop :=
| mismatch (field label : string) :
    In (field, label) FIELDS_TO_STR ->
    decision ("Detainment: " ++ label ++ " mismatch.")
| wanted_criminal : decision "Detainment: Entrant is a wanted criminal."
| later (s : string) : later_decision s -> decision s.

(** The exceptions [inspect] can raise on documents that were parsed, each
    with the document that causes it. *)
Inductive inspect_error (documents : Documents) : exn -> Prop :=
| bad_date (title : string) (document : Document) (text : string) :
    In (title, document) documents ->
    PyDict.get String.eqb "EXP" document = Some text ->
    PyDate.strptime text = None ->
    inspect_error documents (StrptimeError text)
| no_access (document : Document) :
    PyDict.get String.eqb "diplomatic authorization" documents = Some document ->
    PyDict.get String.eqb "ACCESS" document = None ->
    inspect_error documents (KeyError "ACCESS")
| no_purpose (document : Document) :
    PyDict.get String.eqb "access permit" documents = Some document ->
    PyDict.get String.eqb "PURPOSE" document = None ->
    inspect_error documents (KeyError "PURPOSE")
| no_vaccines (document : Document) :
    PyDict.get String.eqb "certificate of vaccination" documents = Some document ->
    PyDict.get String.eqb "VACCINES" document = None ->
    inspect_error documents (KeyError "VACCINES").

(** What a method body gives from [self]: [Q] of the value it returns,
    [E] of the exception it raises. *)
Definition post {A} (m : M A) (self : Inspector)
  (Q : A -> Prop) (E : exn -> Prop) : Prop :=
  match fst (m self) with
  | inr a => Q a
  | inl e => E e
  end.

(** [d'] is [d] followed by categories, absent from [d], bound to the empty
    set. *)
Definition grows (d d' : PolicyMap) : Prop :=
  exists categories : list (option string),
    d' = d ++ map (fun k => (k, @nil string)) categories
    /\ forall k, In k categories -> PyDict.get key_eqb k d = None.

(** [b] has the policy of [a], up to such categories. *)
Definition same_policy (a b : Inspector) : Prop :=
  allowed_countries b = allowed_countries a
  /\ wanted_criminals b = wanted_criminals a
  /\ work_pass_required b = work_pass_required a
  /\ grows (required_documents a) (required_documents b)
  /\ grows (required_vaccinations a) (required_vaccinations b).

(** A method body that leaves the policy as it found it, up to such
    categories, whether it returns or raises. *)
Definition frame {A} (m : M A) : Prop :=
  forall self, same_policy self (snd (m self)).

(** Concrete runs, with sets iterated in insertion order. *)
Module Examples.

(** The inspector after the bulletin [lines], from a new inspector; sets
    are iterated in insertion order. *)
Definition after_bulletin (lines : string) : Inspector :=
  snd (receive_bulletin (ord := insertion_order) lines init).

Definition run_inspect (entrant : list (string * string)) (self : Inspector)
  : result string :=
  fst (inspect (ord := insertion_order) entrant self).

End Examples.

(** A field and its value as a line of a document, and the text of a
    document that has these fields, one per line. *)
Definition render_line (kv : string * string) : string :=
  (fst kv ++ ": " ++ snd kv)%string.

Definition render (pairs : list (string * string)) : string :=
  PyStr.join NL (map render_line pairs).

(** A field that a line can carry: no separator and no newline in the key or
    in the value, and no white space around the line. *)
Definition clean_pair (kv : string * string) : Prop :=
  PyStr.contains ": " (fst kv) = false
  /\ PyStr.contains ": " (snd kv) = false
  /\ PyStr.contains NL (fst kv) = false
  /\ PyStr.contains NL (snd kv) = false
  /\ PyStr.strip (render_line kv) = render_line kv.

(** The dict after the assignments [d[k] = v] for the pairs in turn. *)
Definition assign_all (pairs : list (string * string)) (d : Document) : Document :=
  fold_left (fun acc kv => PyDict.set String.eqb (fst kv) (snd kv) acc) pairs d.

(** A separator [sep] after which a split starts afresh: the piece before
    the first [sep] is what precedes it, whenever that has no [sep]. *)
Definition clean_sep (sep : string) : Prop :=
  forall cur x rest,
    PyStr.contains sep x = false ->
    PyStr.split_aux sep 0 cur (x ++ sep ++ rest)%string
    = (cur ++ x)%string :: PyStr.split_aux sep 0 "" rest.

(** The title under which [inspect] files a document. *)
Definition normalise (document_title : string) : string :=
  PyStr.lower (PyStr.replace "_" " " document_title).

(** The nationality [inspect] resolves: the value [get_nationality] finds,
    in lower case. *)
Definition resolved_nationality (documents : Documents) : option string :=
  if truthy (get_nationality documents)
  then option_map PyStr.lower (get_nationality documents)
  else get_nationality documents.

(** [d'] is [d], or [d] followed by the category [k], absent from [d],
    bound to the empty set. *)
Definition grows_by (k : option string) (d d' : PolicyMap) : Prop :=
  d' = d \/ (PyDict.get key_eqb k d = None /\ d' = d ++ [(k, [])]).

(** [b] has the policy of [a], up to the category [k] in the two
    mappings. *)
Definition same_policy_but (k : option string) (a b : Inspector) : Prop :=
  allowed_countries b = allowed_countries a
  /\ wanted_criminals b = wanted_criminals a
  /\ work_pass_required b = work_pass_required a
  /\ grows_by k (required_documents a) (required_documents b)
  /\ grows_by k (required_vaccinations a) (required_vaccinations b).

Definition frame_but {A} (k : option string) (m : M A) : Prop :=
  forall self, same_policy_but k self (snd (m self)).

(** A nationality, or [None], as the program stores one: in lower case. *)
Definition lowered_key (k : option string) : Prop :=
  match k with
  | Some c => PyStr.lower c = c
  | None => True
  end.

(** Every stored country and category name is in lower case. *)
Definition lowered (self : Inspector) : Prop :=
  (forall c, In c (allowed_countries self) -> PyStr.lower c = c)
  /\ (forall k s, In (k, s) (required_documents self) -> lowered_key k)
  /\ (forall k s, In (k, s) (required_vaccinations self) -> lowered_key k).

(** The categories of a mapping are in lower case. *)
Definition lowered_map (d : PolicyMap) : Prop :=
  forall k s, In (k, s) d -> lowered_key k.

(** A method body that keeps [P] of the state, whether it returns or
    raises. *)
Definition keeps {A} (P : Inspector -> Prop) (m : M A) : Prop :=
  forall self, P self -> P (snd (m self)).

(** The policy states an inspector goes through: the state of a new
    inspector, and the state any bulletin or any inspection leaves, whether
    it returns or raises. *)
Section Reachable.
Context {ord : SetOrder}.

Inductive reachable : Inspector -> Prop :=
| reachable_init : reachable init
| reachable_bulletin (bulletin : string) (self : Inspector) :
    reachable self -> reachable (snd (receive_bulletin bulletin self))
| reachable_inspect (entrant : list (string * string)) (self : Inspector) :
    reachable self -> reachable (snd (inspect entrant self)).

End Reachable.

(** What the loops over categories do to the mapping they work on: [x]
    added to, or removed from, the set of each category in turn, a removal
    stopping at the first category whose set does not have [x]. *)
Fixpoint add_all (keys : list (option string)) (x : string) (d : PolicyMap)
  : PolicyMap :=
  match keys with
  | [] => d
  | k :: keys' => add_all keys' x (snd (default_add k x d))
  end.

Fixpoint remove_all (keys : list (option string)) (x : string) (d : PolicyMap)
  : result unit * PolicyMap :=
  match keys with
  | [] => (Ok tt, d)
  | k :: keys' =>
      match default_remove k x d with
      | (inr _, d') => remove_all keys' x d'
      | (inl e, d') => (Err e, d')
      end
  end.

(** The keys of the categories of a line. *)
Definition category_keys (categories : list string) : list (option string) :=
  map (fun c => Some (PyStr.lower c)) categories.

(** The two admissions. *)
Definition admission (s : string) : Prop :=
  s = "Glory to Arstotzka." \/ s = "Cause no trouble.".

(** What lets pass an entrant of [nationality] for whom an access permit is
    required: the permit, with a work pass if work passes are required and
    the permit is for work; or, without permit, a grant of asylum or a
    diplomatic authorization that gives access to Arstotzka. *)
Definition access_granted (documents : Documents) (self : Inspector) : Prop :=
  match PyDict.get String.eqb "access permit" documents with
  | Some permit =>
      work_pass_required self = true ->
      PyDict.get String.eqb "PURPOSE" permit = Some "WORK" ->
      PyDict.has String.eqb "work pass" documents = true
  | None =>
      PyDict.has String.eqb "grant of asylum" documents = true
      \/ exists authorization access,
          PyDict.get String.eqb "diplomatic authorization" documents
          = Some authorization
          /\ PyDict.get String.eqb "ACCESS" authorization = Some access
          /\ In "Arstotzka" (PyStr.split ", " access)
  end.

(** The entrant has a certificate that lists every disease of
    [required]. *)
Definition vaccinated (documents : Documents) (required : PySet.t) : Prop :=
  required = []
  \/ exists certificate vaccines,
      PyDict.get String.eqb "certificate of vaccination" documents = Some certificate
      /\ PyDict.get String.eqb "VACCINES" certificate = Some vaccines
      /\ forall disease, In disease required ->
                         In disease (PyStr.split ", " vaccines).

(** What an entrant of nationality [n] who is let in has passed. *)
Definition passed_checks (documents : Documents) (self : Inspector)
  (n : string) (s : string) : Prop :=
  check_mismatches documents MISMATCH_FIELDS = []
  /\ mem_value (get_name documents) (wanted_criminals self) = false
  /\ (forall type,
         In type (lookup (Some n) (required_documents self)) ->
         type = "access permit"
         \/ PyDict.has String.eqb (PyStr.lower type) documents = true)
  /\ check_expirations documents TODAY = Ok []
  /\ (n <> "arstotzka" ->
      In "access permit" (lookup (Some n) (required_documents self)) ->
      access_granted documents self)
  /\ In n (allowed_countries self)
  /\ vaccinated documents (lookup (Some n) (required_vaccinations self))
  /\ (s = "Glory to Arstotzka." <-> n = "arstotzka").

(** What a method body gives when it returns: [Q] of the value and of the
    state it leaves. *)
Definition returns {A} (m : M A) (self : Inspector)
  (Q : A -> Inspector -> Prop) : Prop :=
  match m self with
  | (inr a, self') => Q a self'
  | (inl _, _) => True
  end.

(** An Obristani worker at the border, under a policy that asks Obristan
    for a passport, an access permit and a polio vaccination, and workers
    for a work pass. *)
Module Crossing.

Definition policy : Inspector :=
  Examples.after_bulletin
    "Allow citizens of Obristan
Citizens of Obristan require access permit
Citizens of Obristan require passport
Citizens of Obristan require polio vaccination
Workers require work pass".

Definition entrant : list (string * string) :=
  [("passport", "NAME: Doe, John
NATION: Obristan
EXP: 1983.01.01");
   ("access_permit", "NAME: Doe, John
NATION: Obristan
PURPOSE: WORK
EXP: 1983.01.01");
   ("work_pass", "NAME: Doe, John");
   ("certificate_of_vaccination", "NAME: Doe, John
VACCINES: polio, tetanus")].

Definition documents : Documents :=
  [("passport",
    [("NAME", "Doe, John"); ("NATION", "Obristan"); ("EXP", "1983.01.01")]);
   ("access permit",
    [("NAME", "Doe, John"); ("NATION", "Obristan"); ("PURPOSE", "WORK");
     ("EXP", "1983.01.01")]);
   ("work pass", [("NAME", "Doe, John")]);
   ("certificate of vaccination",
    [("NAME", "Doe, John"); ("VACCINES", "polio, tetanus")])].

End Crossing.

(** The document types [inspect] asks of an entrant: those of the
    nationality, or of every category when no nationality was found. *)
Definition required_of (self : Inspector) (nationality : option string) : PySet.t :=
  match nationality with
  | Some _ => lookup nationality (required_documents self)
  | None => PySet.union_all (PyDict.values (required_documents self))
  end.

(** When work passes are required, an access permit of the entrant states
    its purpose. *)
Definition purpose_stated (documents : Documents) (self : Inspector) : Prop :=
  work_pass_required self = true ->
  forall permit,
    PyDict.get String.eqb "access permit" documents = Some permit ->
    PyDict.get String.eqb "PURPOSE" permit <> None.

(** [m] returns [a] from [self], and leaves the policy as it was, up to
    categories bound to the empty set. *)
Definition runs {A} (m : M A) (self : Inspector) (a : A) : Prop :=
  exists self', m self = (Ok a, self') /\ same_policy self self'.

(** * Properties *)

(** ** Sets *)

Lemma mem_In (x : string) (s : PySet.t) : PySet.mem x s = true <-> In x s.
Proof.
  unfold PySet.mem. rewrite existsb_exists. split.
  - intros [y [Hy He]]. apply String.eqb_eq in He. now subst.
  - intros H. exists x. split; [exact H | apply String.eqb_refl].
Qed.

Lemma mem_not_In (x : string) (s : PySet.t) : PySet.mem x s = false <-> ~ In x s.
Proof.
  rewrite <- mem_In. destruct (PySet.mem x s); split; congruence.
Qed.

Lemma add_In (x y : string) (s : PySet.t) :
  In y (PySet.add x s) <-> y = x \/ In y s.
Proof.
  unfold PySet.add. destruct (PySet.mem x s) eqn:E.
  - apply mem_In in E. split; [auto | intros [-> | H]; auto].
  - rewrite in_app_iff. simpl. intuition.
Qed.

Lemma add_NoDup (x : string) (s : PySet.t) : NoDup s -> NoDup (PySet.add x s).
Proof.
  intros H. unfold PySet.add. destruct (PySet.mem x s) eqn:E; [exact H |].
  apply mem_not_In in E. apply NoDup_app; [exact H | repeat constructor; simpl; tauto |].
  intros a Ha [<- | []]. exact (E Ha).
Qed.

Lemma add_idem (x : string) (s : PySet.t) :
  PySet.add x (PySet.add x s) = PySet.add x s.
Proof.
  unfold PySet.add at 1.
  replace (PySet.mem x (PySet.add x s)) with true; [reflexivity |].
  symmetry. apply mem_In, add_In. now left.
Qed.

Lemma fold_add_In (l : list string) (a : PySet.t) (y : string) :
  In y (fold_left (fun acc x => PySet.add x acc) l a) <-> In y a \/ In y l.
Proof.
  revert a. induction l as [| x l IH]; intros a; simpl.
  - tauto.
  - rewrite IH, add_In. intuition.
Qed.

Lemma fold_add_NoDup (l : list string) (a : PySet.t) :
  NoDup a -> NoDup (fold_left (fun acc x => PySet.add x acc) l a).
Proof.
  revert a. induction l as [| x l IH]; intros a H; simpl; [exact H |].
  apply IH, add_NoDup, H.
Qed.

Lemma of_list_In (l : list string) (y : string) : In y (PySet.of_list l) <-> In y l.
Proof. unfold PySet.of_list. rewrite fold_add_In. simpl. tauto. Qed.

Lemma of_list_NoDup (l : list string) : NoDup (PySet.of_list l).
Proof. apply fold_add_NoDup. constructor. Qed.

Lemma union_In (a b : PySet.t) (y : string) :
  In y (PySet.union a b) <-> In y a \/ In y b.
Proof. apply fold_add_In. Qed.

Lemma union_all_In_from (sets : list PySet.t) (a : PySet.t) (y : string) :
  In y (fold_left PySet.union sets a) <-> In y a \/ exists s, In s sets /\ In y s.
Proof.
  revert a. induction sets as [| s sets IH]; intros a; simpl.
  - split; [auto | intros [H | [s [[] _]]]; exact H].
  - rewrite IH, union_In. split.
    + intros [[H | H] | [s' [H1 H2]]]; eauto.
    + intros [H | [s' [[<- | H1] H2]]]; eauto.
Qed.

Lemma union_all_In (sets : list PySet.t) (y : string) :
  In y (PySet.union_all sets) <-> exists s, In s sets /\ In y s.
Proof.
  unfold PySet.union_all. rewrite union_all_In_from. simpl. tauto.
Qed.

Lemma difference_disjoint (a b : PySet.t) :
  (forall x, In x b -> ~ In x a) -> PySet.difference a b = a.
Proof.
  intros H. unfold PySet.difference.
  induction a as [| x a IH]; simpl; [reflexivity |].
  destruct (PySet.mem x b) eqn:E.
  - apply mem_In in E. exfalso. apply (H x E). now left.
  - simpl. f_equal. apply IH. intros y Hy Hin. apply (H y Hy). now right.
Qed.

Lemma discard_In (x y : string) (s : PySet.t) :
  In y (PySet.discard x s) <-> In y s /\ y <> x.
Proof.
  unfold PySet.discard. rewrite filter_In. rewrite negb_true_iff.
  rewrite String.eqb_neq. intuition congruence.
Qed.

(** ** Dicts *)

Section DictFacts.
Context {K V : Type} (keq : K -> K -> bool).
Hypothesis keq_eq : forall a b, keq a b = true <-> a = b.

Lemma keq_refl (k : K) : keq k k = true.
Proof. now apply keq_eq. Qed.

Lemma keq_neq (a b : K) : a <> b -> keq a b = false.
Proof.
  intros H. destruct (keq a b) eqn:E; [| reflexivity].
  apply keq_eq in E. contradiction.
Qed.

Lemma get_set_same (k : K) (v : V) (d : list (K * V)) :
  PyDict.get keq k (PyDict.set keq k v d) = Some v.
Proof.
  induction d as [| [k' v'] d IH]; simpl.
  - now rewrite keq_refl.
  - destruct (keq k k') eqn:E; simpl; rewrite E; [reflexivity | exact IH].
Qed.

Lemma get_set_other (k k0 : K) (v : V) (d : list (K * V)) :
  k0 <> k -> PyDict.get keq k0 (PyDict.set keq k v d) = PyDict.get keq k0 d.
Proof.
  intros Hne. induction d as [| [k' v'] d IH]; simpl.
  - now rewrite (keq_neq _ _ Hne).
  - destruct (keq k k') eqn:E; simpl.
    + apply keq_eq in E. subst k'. now rewrite (keq_neq _ _ Hne).
    + destruct (keq k0 k'); [reflexivity | exact IH].
Qed.

Lemma set_absent (k : K) (v : V) (d : list (K * V)) :
  PyDict.get keq k d = None -> PyDict.set keq k v d = d ++ [(k, v)].
Proof.
  induction d as [| [k' v'] d IH]; simpl; [reflexivity |].
  destruct (keq k k'); [discriminate |].
  intros H. now rewrite IH.
Qed.

Lemma get_app (k : K) (d d' : list (K * V)) :
  PyDict.get keq k (d ++ d') =
  match PyDict.get keq k d with
  | Some v => Some v
  | None => PyDict.get keq k d'
  end.
Proof.
  induction d as [| [k' v'] d IH]; simpl; [reflexivity |].
  destruct (keq k k'); [reflexivity | exact IH].
Qed.

End DictFacts.

Lemma key_eqb_eq (a b : option string) : key_eqb a b = true <-> a = b.
Proof.
  destruct a as [x |], b as [y |]; simpl; try (split; congruence).
  rewrite String.eqb_eq. split; congruence.
Qed.

Lemma default_getitem_value (k : option string) (d : PolicyMap) :
  fst (default_getitem k d) = lookup k d.
Proof. unfold default_getitem, lookup. now destruct (PyDict.get key_eqb k d). Qed.

Lemma default_getitem_lookup (k k0 : option string) (d : PolicyMap) :
  lookup k0 (snd (default_getitem k d)) = lookup k0 d.
Proof.
  unfold default_getitem, lookup.
  destruct (PyDict.get key_eqb k d) eqn:E; simpl; [reflexivity |].
  destruct (key_eqb k0 k) eqn:Ek.
  - apply key_eqb_eq in Ek. subst k0.
    now rewrite (get_set_same key_eqb key_eqb_eq), E.
  - rewrite (get_set_other key_eqb key_eqb_eq); [reflexivity |].
    intros ->. now rewrite (keq_refl key_eqb key_eqb_eq) in Ek.
Qed.

Lemma default_remove_ok (k : option string) (x : string) (d : PolicyMap) :
  PySet.mem x (lookup k d) = true ->
  fst (default_remove k x d) = Ok tt
  /\ forall k0, lookup k0 (snd (default_remove k x d))
                = if key_eqb k0 k then PySet.discard x (lookup k d)
                  else lookup k0 d.
Proof.
  intros H. unfold default_remove.
  pose proof (default_getitem_value k d) as Hv.
  pose proof (fun k0 => default_getitem_lookup k k0 d) as Hl.
  destruct (default_getitem k d) as [s d']. simpl in Hv, Hl. subst s.
  rewrite H. simpl. split; [reflexivity |].
  intros k0. unfold lookup at 1.
  destruct (key_eqb k0 k) eqn:Ek.
  - apply key_eqb_eq in Ek. subst k0.
    now rewrite (get_set_same key_eqb key_eqb_eq).
  - rewrite (get_set_other key_eqb key_eqb_eq).
    + apply Hl.
    + intros ->. now rewrite (keq_refl key_eqb key_eqb_eq) in Ek.
Qed.

Lemma default_remove_absent (k : option string) (x : string) (d : PolicyMap) :
  PySet.mem x (lookup k d) = false ->
  fst (default_remove k x d) = Err (KeyError x).
Proof.
  intros H. unfold default_remove.
  pose proof (default_getitem_value k d) as Hv.
  destruct (default_getitem k d) as [s d']. simpl in Hv. subst s.
  now rewrite H.
Qed.

(** ** Strings *)

Lemma string_length_append (p c : string) :
  String.length (p ++ c)%string = String.length p + String.length c.
Proof. induction p as [| a p IH]; simpl; [reflexivity | now rewrite IH]. Qed.

Lemma substring_whole (s : string) : substring 0 (String.length s) s = s.
Proof. induction s as [| a s IH]; simpl; [reflexivity | now rewrite IH]. Qed.

Lemma substring_after (p c : string) :
  substring (String.length p) (String.length c) (p ++ c)%string = c.
Proof. induction p as [| a p IH]; simpl; [apply substring_whole | exact IH]. Qed.

(** [(p + c)[len(p):]] is [c]. *)
Lemma slice_from_append (p c : string) :
  PyStr.slice_from (p ++ c)%string (PyStr.len p) = c.
Proof.
  unfold PyStr.slice_from, PyStr.slice, PyStr.clamp, PyStr.len.
  rewrite string_length_append.
  destruct (Z.ltb_spec (Z.of_nat (String.length p)) 0); [lia |].
  destruct (Z.ltb_spec (Z.of_nat (String.length p + String.length c)) 0); [lia |].
  rewrite Z.min_l by lia. rewrite Z.min_id.
  rewrite Nat2Z.id.
  replace (Z.to_nat (Z.of_nat (String.length p + String.length c)
                     - Z.of_nat (String.length p)))
    with (String.length c) by lia.
  apply substring_after.
Qed.

Lemma prefix_empty (s : string) : prefix "" s = true.
Proof. now destruct s. Qed.

Lemma string_append_nil_r (s : string) : (s ++ "")%string = s.
Proof. induction s as [| a s IH]; simpl; [reflexivity | now rewrite IH]. Qed.

Lemma string_append_assoc (a b c : string) :
  ((a ++ b) ++ c)%string = (a ++ (b ++ c))%string.
Proof. induction a as [| x a IH]; simpl; [reflexivity | now rewrite IH]. Qed.

Lemma drop_append (p r : string) : drop (String.length p) (p ++ r)%string = r.
Proof. induction p as [| a p IH]; simpl; [reflexivity | exact IH]. Qed.

Lemma prefix_append (p s : string) :
  prefix p s = true -> exists r, s = (p ++ r)%string.
Proof.
  revert s. induction p as [| a p IH]; intros s H.
  - exists s. reflexivity.
  - destruct s as [| b s]; [discriminate |]. simpl in H.
    destruct (ascii_dec a b) as [<- | _]; [| discriminate].
    destruct (IH s H) as [r ->]. exists r. reflexivity.
Qed.

Lemma split_aux_nonempty (sep : string) (skip : nat) (cur s : string) :
  PyStr.split_aux sep skip cur s <> [].
Proof.
  revert skip cur. induction s as [| c s IH]; intros skip cur;
    cbn [PyStr.split_aux].
  - discriminate.
  - destruct skip; [| apply IH].
    destruct (prefix sep (String c s)); [discriminate | apply IH].
Qed.

Lemma join_cons (sep x : string) (l : list string) :
  l <> [] -> PyStr.join sep (x :: l) = (x ++ sep ++ PyStr.join sep l)%string.
Proof. destruct l; [congruence | reflexivity]. Qed.

(** Joining the pieces of a split with the separator gives the string
    back. *)
Lemma split_aux_join (sep : string) (skip : nat) (cur s : string) :
  sep <> EmptyString ->
  PyStr.join sep (PyStr.split_aux sep skip cur s) = (cur ++ drop skip s)%string.
Proof.
  intros Hsep. revert skip cur. induction s as [| c s IH]; intros skip cur;
    cbn [PyStr.split_aux].
  - destruct skip; simpl; now rewrite string_append_nil_r.
  - destruct skip as [| k]; [| apply IH].
    destruct (prefix sep (String c s)) eqn:E.
    + rewrite join_cons by apply split_aux_nonempty.
      rewrite IH. simpl.
      apply prefix_append in E. destruct E as [r Hr].
      destruct sep as [| a sep']; [congruence |].
      simpl in Hr. injection Hr as -> ->.
      simpl. rewrite Nat.sub_0_r, drop_append. reflexivity.
    + rewrite IH. simpl. rewrite string_append_assoc. reflexivity.
Qed.

Lemma split_join (sep s : string) :
  sep <> EmptyString -> PyStr.join sep (PyStr.split sep s) = s.
Proof. intros H. unfold PyStr.split. now rewrite split_aux_join. Qed.

Lemma rstrip_last (s r : string) (c : ascii) :
  PyStr.rstrip s = (r ++ String c "")%string -> PyStr.is_space c = false.
Proof.
  revert r. induction s as [| a s IH]; intros r; simpl.
  - destruct r; discriminate.
  - destruct (PyStr.rstrip s) as [| b t] eqn:E.
    + destruct (PyStr.is_space a) eqn:Ea.
      * destruct r; discriminate.
      * destruct r as [| x r]; simpl.
        -- intros [= ->]. exact Ea.
        -- intros [= _ H]. destruct r; discriminate.
    + destruct r as [| x r]; simpl.
      * discriminate.
      * intros [= _ H]. now apply (IH r).
Qed.

(** A stripped line that splits in two at [": "] has a non-empty second
    part. *)
Lemma split_strip_data (entry title data : string) :
  PyStr.split ": " (PyStr.strip entry) = [title; data] -> data <> EmptyString.
Proof.
  intros H ->.
  pose proof (split_join ": " (PyStr.strip entry)) as J.
  rewrite H in J. simpl in J.
  assert (Hs : PyStr.strip entry = ((title ++ ":") ++ String " " "")%string).
  { rewrite <- J by discriminate. rewrite string_append_assoc. reflexivity. }
  apply rstrip_last in Hs. discriminate.
Qed.

(** ** Bulletins *)

Section BulletinFacts.
Context {ord : SetOrder}.

Lemma bind_ok {A B} (m : M A) (f : A -> M B) (self : Inspector) (a : A) :
  fst (m self) = Ok a -> bind m f self = f a (snd (m self)).
Proof.
  unfold bind, Ok. destruct (m self) as [[e | a'] self']; simpl; congruence.
Qed.

Lemma bind_err {A B} (m : M A) (f : A -> M B) (self : Inspector) (e : exn) :
  fst (m self) = Err e -> bind m f self = (Err e, snd (m self)).
Proof.
  unfold bind, Err. destruct (m self) as [[e' | a'] self']; simpl; congruence.
Qed.

(** The lines before a failing line are applied, the failing line leaves
    what it leaves, and no later line is looked at. *)
Lemma receive_entries_failing (pre rest : list string) (bad : string)
  (self : Inspector) (e : exn) :
  fst (receive_entries pre self) = Ok tt ->
  fst (receive_entry bad (snd (receive_entries pre self))) = Err e ->
  receive_entries (pre ++ bad :: rest) self
  = (Err e, snd (receive_entry bad (snd (receive_entries pre self)))).
Proof.
  revert self. induction pre as [| entry pre IH]; intros self Hpre Hbad; simpl in *.
  - unfold ret in Hbad. simpl in Hbad. now apply bind_err.
  - unfold bind in *.
    destruct (receive_entry entry self) as [[e' | []] self']; simpl in *.
    + discriminate.
    + now apply IH.
Qed.

Lemma unrequire_documents_frame (categories : list string) (x : string)
  (self : Inspector) :
  same_but_documents self (snd (unrequire_documents categories x self))
  /\ (forall e, fst (unrequire_documents categories x self) = Err e
                -> e = KeyError x).
Proof.
  revert self. induction categories as [| c categories IH]; intros self; simpl.
  - split; [repeat split | discriminate].
  - unfold bind, on_required_documents, default_remove.
    destruct (default_getitem (Some (PyStr.lower c)) (required_documents self))
      as [s d].
    destruct (PySet.mem x s); simpl.
    + match goal with |- context [unrequire_documents _ _ ?st] =>
        destruct (IH st) as [[H1 [H2 [H3 H4]]] H5] end.
      split; [| exact H5].
      repeat split; simpl in *; congruence.
    + split; [repeat split | intros e [= <-]; reflexivity].
Qed.

Lemma unrequire_vaccinations_frame (categories : list string) (x : string)
  (self : Inspector) :
  same_but_vaccinations self (snd (unrequire_vaccinations categories x self))
  /\ (forall e, fst (unrequire_vaccinations categories x self) = Err e
                -> e = KeyError x).
Proof.
  revert self. induction categories as [| c categories IH]; intros self; simpl.
  - split; [repeat split | discriminate].
  - unfold bind, on_required_vaccinations, default_remove.
    destruct (default_getitem (Some (PyStr.lower c)) (required_vaccinations self))
      as [s d].
    destruct (PySet.mem x s); simpl.
    + match goal with |- context [unrequire_vaccinations _ _ ?st] =>
        destruct (IH st) as [[H1 [H2 [H3 H4]]] H5] end.
      split; [| exact H5].
      repeat split; simpl in *; congruence.
    + split; [repeat split | intros e [= <-]; reflexivity].
Qed.

Lemma require_documents_ok (categories : list string) (x : string)
  (self : Inspector) :
  fst (require_documents categories x self) = Ok tt.
Proof.
  revert self. induction categories as [| c categories IH]; intros self; simpl.
  - reflexivity.
  - unfold bind, on_required_documents, default_add.
    destruct (default_getitem (Some (PyStr.lower c)) (required_documents self))
      as [s d].
    apply IH.
Qed.

Lemma require_vaccinations_ok (categories : list string) (x : string)
  (self : Inspector) :
  fst (require_vaccinations categories x self) = Ok tt.
Proof.
  revert self. induction categories as [| c categories IH]; intros self; simpl.
  - reflexivity.
  - unfold bind, on_required_vaccinations, default_add.
    destruct (default_getitem (Some (PyStr.lower c)) (required_vaccinations self))
      as [s d].
    apply IH.
Qed.

(** A line that fails either fails on a [remove], having touched one of
    the two mappings only, or fails before it has changed anything. *)
Lemma receive_entry_failing (entry : string) (self : Inspector) (e : exn) :
  fst (receive_entry entry self) = Err e ->
  ((exists k, e = KeyError k)
   /\ allowed_countries (snd (receive_entry entry self)) = allowed_countries self
   /\ wanted_criminals (snd (receive_entry entry self)) = wanted_criminals self
   /\ work_pass_required (snd (receive_entry entry self)) = work_pass_required self)
  \/ ((forall k, e <> KeyError k) /\ snd (receive_entry entry self) = self).
Proof.
  unfold receive_entry.
  generalize (expand (PyStr.strip entry)). intros s.
  repeat match goal with
         | |- context [if ?c then _ else _] => destruct c
         end;
    try (unfold bind, attr, assign, raise; simpl; discriminate);
    try (unfold raise; simpl; intros [= <-]; right; split;
         [intros k; discriminate | reflexivity]).
  - destruct (PyStr.split " " _) as [| a [| b [| c l]]];
      try (unfold raise; simpl; intros [= <-]; right; split;
           [intros k; discriminate | reflexivity]).
    unfold bind, attr, assign; simpl; discriminate.
  - intros H. left.
    destruct (unrequire_vaccinations_frame
                (iter (categories_of s (PyStr.find " no longer require" s)))
                (disease_of (requirement_of s)) self) as [[H1 [H2 [H3 H4]]] H5].
    split; [eexists; apply H5, H | auto].
  - intros H. left.
    destruct (unrequire_documents_frame
                (iter (categories_of s (PyStr.find " no longer require" s)))
                (requirement_of s) self) as [[H1 [H2 [H3 H4]]] H5].
    split; [eexists; apply H5, H | auto].
  - rewrite require_vaccinations_ok. discriminate.
  - rewrite require_documents_ok. discriminate.
Qed.

Lemma on_required_documents_run (f : PolicyMap -> result unit * PolicyMap)
  (self : Inspector) :
  on_required_documents f self
  = (fst (f (required_documents self)),
     set_required_documents (snd (f (required_documents self))) self).
Proof.
  unfold on_required_documents. now destruct (f (required_documents self)).
Qed.

Lemma on_required_vaccinations_run (f : PolicyMap -> result unit * PolicyMap)
  (self : Inspector) :
  on_required_vaccinations f self
  = (fst (f (required_vaccinations self)),
     set_required_vaccinations (snd (f (required_vaccinations self))) self).
Proof.
  unfold on_required_vaccinations. now destruct (f (required_vaccinations self)).
Qed.

Lemma mem_discard (x : string) (s : PySet.t) :
  PySet.mem x (PySet.discard x s) = false.
Proof. apply mem_not_In. rewrite discard_In. tauto. Qed.

(** Removing [x] for a list of categories one of which does not have it
    raises [KeyError], whatever the order of the list. *)
Lemma unrequire_documents_absent (categories : list string) (x c : string)
  (self : Inspector) :
  In c categories ->
  PySet.mem x (lookup (Some (PyStr.lower c)) (required_documents self)) = false ->
  fst (unrequire_documents categories x self) = Err (KeyError x).
Proof.
  revert self. induction categories as [| h categories IH]; intros self Hin Habs.
  - destruct Hin.
  - simpl.
    destruct (PySet.mem x (lookup (Some (PyStr.lower h)) (required_documents self)))
      eqn:Eh.
    + destruct (default_remove_ok _ _ _ Eh) as [Hok Hlk].
      rewrite (bind_ok _ _ _ tt)
        by (rewrite on_required_documents_run; exact Hok).
      rewrite on_required_documents_run. simpl snd.
      apply IH.
      * destruct Hin as [-> | Hin]; [congruence | exact Hin].
      * simpl. rewrite Hlk.
        destruct (key_eqb _ _); [apply mem_discard | exact Habs].
    + rewrite (bind_err _ _ _ (KeyError x)); [reflexivity |].
      rewrite on_required_documents_run. simpl.
      now apply default_remove_absent.
Qed.

Lemma unrequire_vaccinations_absent (categories : list string) (x c : string)
  (self : Inspector) :
  In c categories ->
  PySet.mem x (lookup (Some (PyStr.lower c)) (required_vaccinations self)) = false ->
  fst (unrequire_vaccinations categories x self) = Err (KeyError x).
Proof.
  revert self. induction categories as [| h categories IH]; intros self Hin Habs.
  - destruct Hin.
  - simpl.
    destruct (PySet.mem x (lookup (Some (PyStr.lower h)) (required_vaccinations self)))
      eqn:Eh.
    + destruct (default_remove_ok _ _ _ Eh) as [Hok Hlk].
      rewrite (bind_ok _ _ _ tt)
        by (rewrite on_required_vaccinations_run; exact Hok).
      rewrite on_required_vaccinations_run. simpl snd.
      apply IH.
      * destruct Hin as [-> | Hin]; [congruence | exact Hin].
      * simpl. rewrite Hlk.
        destruct (key_eqb _ _); [apply mem_discard | exact Habs].
    + rewrite (bind_err _ _ _ (KeyError x)); [reflexivity |].
      rewrite on_required_vaccinations_run. simpl.
      now apply default_remove_absent.
Qed.

(** A line [Deny citizens of c] takes the set difference. *)
Lemma receive_entry_deny (line c : string) (self : Inspector) :
  PyStr.strip line = ("Deny citizens of " ++ c)%string ->
  PyStr.contains "Foreigners" c = false ->
  PyStr.contains "Entrants" c = false ->
  receive_entry line self
  = (Ok tt,
     set_allowed_countries
       (PySet.difference (allowed_countries self)
          (PySet.of_list (map PyStr.lower (PyStr.split ", " c))))
       self).
Proof.
  intros Hs Hf He. unfold receive_entry. rewrite Hs.
  assert (Hx : expand ("Deny citizens of " ++ c)%string
               = ("Deny citizens of " ++ c)%string).
  { unfold expand.
    change (PyStr.contains "Foreigners" ("Deny citizens of " ++ c)%string)
      with (PyStr.contains "Foreigners" c).
    rewrite Hf.
    change (PyStr.contains "Entrants" ("Deny citizens of " ++ c)%string)
      with (PyStr.contains "Entrants" c).
    now rewrite He. }
  rewrite Hx.
  change (PyStr.startswith "Allow citizens of " ("Deny citizens of " ++ c)%string)
    with false.
  change (PyStr.startswith "Deny citizens of " ("Deny citizens of " ++ c)%string)
    with (prefix "" c).
  rewrite prefix_empty.
  rewrite (slice_from_append "Deny citizens of " c).
  reflexivity.
Qed.

(** C8. Applying the bulletin line [Allow citizens of Obristan] twice, as
    two bulletins or as two lines of one bulletin, gives the same set
    [allowed_countries] as applying it once, from every policy state; the
    line is accepted each time. *)
Theorem allow_obristan_twice (self : Inspector) :
  let line := "Allow citizens of Obristan" in
  let once := receive_bulletin line self in
  let again := receive_bulletin line (snd once) in
  let two_lines := receive_bulletin (line ++ NL ++ line)%string self in
  fst once = Ok tt /\ fst again = Ok tt /\ fst two_lines = Ok tt
  /\ allowed_countries (snd again) = allowed_countries (snd once)
  /\ allowed_countries (snd two_lines) = allowed_countries (snd once).
Proof.
  cbv zeta.
  assert (Hrun : forall st,
             receive_bulletin "Allow citizens of Obristan" st
             = (Ok tt,
                set_allowed_countries
                  (PySet.add "obristan" (allowed_countries st)) st))
    by reflexivity.
  assert (Htwo : forall st,
             receive_bulletin
               ("Allow citizens of Obristan" ++ NL
                ++ "Allow citizens of Obristan")%string st
             = (Ok tt,
                set_allowed_countries
                  (PySet.add "obristan"
                     (PySet.add "obristan" (allowed_countries st))) st))
    by reflexivity.
  rewrite Htwo, !Hrun. simpl.
  rewrite add_idem. repeat split; reflexivity.
Qed.

(** C4, as amended.  [UnrequireDocument] and [UnrequireVaccination]: when
    one of the categories of the line does not have the entry in its set,
    the removal raises [KeyError] of that entry, in whatever order the
    categories are visited.  [DenyCountries] is a set difference: a line
    [Deny citizens of ...] naming only countries that are not in
    [allowed_countries] raises nothing and leaves the policy state as it
    was. *)
Theorem removal_of_absent_entry (self : Inspector) :
  (forall (categories : PySet.t) (category requirement : string),
      In category categories ->
      PySet.mem requirement
        (lookup (Some (PyStr.lower category)) (required_documents self)) = false ->
      fst (unrequire_documents (iter categories) requirement self)
      = Err (KeyError requirement))
  /\ (forall (categories : PySet.t) (category disease : string),
      In category categories ->
      PySet.mem disease
        (lookup (Some (PyStr.lower category)) (required_vaccinations self)) = false ->
      fst (unrequire_vaccinations (iter categories) disease self)
      = Err (KeyError disease))
  /\ (forall (line countries : string),
      PyStr.strip line = ("Deny citizens of " ++ countries)%string ->
      PyStr.contains "Foreigners" countries = false ->
      PyStr.contains "Entrants" countries = false ->
      (forall country, In country (PyStr.split ", " countries) ->
                       PySet.mem (PyStr.lower country) (allowed_countries self) = false) ->
      receive_entry line self = (Ok tt, self)).
Proof.
  split; [| split].
  - intros categories category requirement Hin Habs.
    apply unrequire_documents_absent with (c := category); [| exact Habs].
    apply Permutation_in with (l := categories);
      [apply Permutation_sym, iter_perm | exact Hin].
  - intros categories category disease Hin Habs.
    apply unrequire_vaccinations_absent with (c := category); [| exact Habs].
    apply Permutation_in with (l := categories);
      [apply Permutation_sym, iter_perm | exact Hin].
  - intros line countries Hs Hf He Habs.
    rewrite (receive_entry_deny line countries self Hs Hf He).
    rewrite difference_disjoint.
    + now destruct self.
    + intros x Hx. apply of_list_In, in_map_iff in Hx.
      destruct Hx as [country [<- Hc]].
      apply mem_not_In, Habs, Hc.
Qed.

(** C5. When a line of a bulletin fails, the lines before it having been
    accepted, [receive_bulletin] fails with that line's exception and
    leaves the state that the failing line left, started from the state
    with every earlier line applied: no later line is processed and
    nothing is rolled back.  A line that fails otherwise than on a
    [remove] leaves that state exactly; one that fails on a [remove]
    leaves [allowed_countries], [wanted_criminals] and
    [work_pass_required] as the earlier lines made them. *)
Theorem bulletin_partial_application (bulletin : string)
  (pre rest : list string) (bad : string) (self : Inspector) (e : exn) :
  PyStr.split NL bulletin = pre ++ bad :: rest ->
  fst (receive_entries pre self) = Ok tt ->
  fst (receive_entry bad (snd (receive_entries pre self))) = Err e ->
  let applied := snd (receive_entries pre self) in
  let final := snd (receive_bulletin bulletin self) in
  fst (receive_bulletin bulletin self) = Err e
  /\ final = snd (receive_entry bad applied)
  /\ ((forall k, e <> KeyError k) -> final = applied)
  /\ allowed_countries final = allowed_countries applied
  /\ wanted_criminals final = wanted_criminals applied
  /\ work_pass_required final = work_pass_required applied.
Proof.
  intros Hsplit Hpre Hbad applied final.
  unfold final, receive_bulletin. rewrite Hsplit.
  rewrite (receive_entries_failing pre rest bad self e Hpre Hbad).
  simpl. fold applied.
  destruct (receive_entry_failing bad applied e Hbad)
    as [[[k Hk] [H1 [H2 H3]]] | [Hne Hsame]].
  - repeat split; try assumption.
    intros Hno. exfalso. exact (Hno k Hk).
  - rewrite Hsame. repeat split.
Qed.

End BulletinFacts.

(** ** Documents *)

Lemma split_aux_length (sep : string) (skip : nat) (cur s : string) :
  List.length (PyStr.split_aux sep skip cur s) = S (PyStr.count_aux sep skip s).
Proof.
  revert skip cur. induction s as [| c s IH]; intros skip cur;
    cbn [PyStr.split_aux PyStr.count_aux].
  - reflexivity.
  - destruct skip as [| k]; [| apply IH].
    destruct (prefix sep (String c s)); cbn [List.length]; now rewrite IH.
Qed.

(** [len(s.split(sep))] is [s.count(sep) + 1]. *)
Lemma split_length (sep s : string) :
  List.length (PyStr.split sep s) = S (PyStr.count sep s).
Proof. apply split_aux_length. Qed.

Lemma parse_entries_unpack (entries : list string) (parsed : Document) (line : string) :
  In line entries ->
  PyStr.count ": " (PyStr.strip line) <> 1 ->
  exists got, got <> 2 /\ parse_entries entries parsed = Err (UnpackError got).
Proof.
  revert parsed. induction entries as [| entry entries IH]; intros parsed Hin Hbad.
  - destruct Hin.
  - simpl.
    pose proof (split_length ": " (PyStr.strip entry)) as Hlen.
    destruct (PyStr.split ": " (PyStr.strip entry)) as [| a [| b [| c l]]] eqn:E;
      simpl in Hlen.
    + exists 0. split; [lia | reflexivity].
    + exists 1. split; [lia | reflexivity].
    + destruct Hin as [-> | Hin].
      * exfalso. apply Hbad. lia.
      * now apply IH.
    + exists (S (S (S (List.length l)))). split; [lia | reflexivity].
Qed.

(** C9, as amended.  When a line of the document text, once stripped of the
    white space around it, does not hold exactly one separator [": "],
    [parse_document] raises the [ValueError] of the unpacking, which carries
    the number of parts found (not 2) and not the line, and no field map
    is produced. *)
Theorem parse_document_bad_line (document line : string) :
  In line (PyStr.split NL document) ->
  PyStr.count ": " (PyStr.strip line) <> 1 ->
  (exists got, got <> 2 /\ parse_document document = Err (UnpackError got))
  /\ (forall parsed, parse_document document <> Ok parsed).
Proof.
  intros Hin Hbad.
  destruct (parse_entries_unpack _ [] line Hin Hbad) as [got [Hgot Hp]].
  split.
  - exists got. split; [exact Hgot | exact Hp].
  - intros parsed. unfold parse_document. rewrite Hp. discriminate.
Qed.

Lemma parse_document_bad_line_witness :
  In "oops" (PyStr.split NL ("NAME: Doe, John" ++ NL ++ "oops")%string)
  /\ PyStr.count ": " (PyStr.strip "oops") <> 1
  /\ (exists got,
         got <> 2
         /\ parse_document ("NAME: Doe, John" ++ NL ++ "oops")%string
            = Err (UnpackError got))
  /\ (forall parsed,
         parse_document ("NAME: Doe, John" ++ NL ++ "oops")%string <> Ok parsed).
Proof.
  assert (Hin : In "oops" (PyStr.split NL ("NAME: Doe, John" ++ NL ++ "oops")%string))
    by (vm_compute; tauto).
  assert (Hbad : PyStr.count ": " (PyStr.strip "oops") <> 1)
    by (vm_compute; discriminate).
  split; [exact Hin | split; [exact Hbad |]].
  exact (parse_document_bad_line _ _ Hin Hbad).
Defined.

(** The claim C9 as it was stated fails twice.  The exception of a line
    without separator does not name the line: it is the unpacking error,
    whose message counts the parts.  And a line is stripped before it is
    split, so a raw line with two separators, the second one at its end,
    is accepted. *)
Lemma parse_document_error_is_anonymous :
  parse_document "oops" = Err (UnpackError 1)
  /\ unpack_message 1 = "not enough values to unpack (expected 2, got 1)"
  /\ PyStr.contains "oops" (unpack_message 1) = false
  /\ PyStr.count ": " "A: B: " = 2
  /\ parse_document "A: B: " = Ok [("A", "B:")].
Proof. repeat split. Qed.

(** ** Expiration *)

Lemma strptime_truthy (text : string) (d : PyDate.date) :
  PyDate.strptime text = Some d -> PyStr.truthy text = true.
Proof. destruct text; [discriminate | reflexivity]. Qed.

Lemma check_expirations_skip (pre post : Documents) (title : string)
  (document : Document) (date : string) :
  PyDict.get String.eqb "EXP" document = Some date ->
  PyDate.strptime date = Some TODAY ->
  check_expirations (pre ++ (title, document) :: post) TODAY
  = check_expirations (pre ++ post) TODAY.
Proof.
  intros Hexp Hdate. induction pre as [| [t d] pre IH].
  - simpl. rewrite Hexp, (strptime_truthy _ _ Hdate), Hdate.
    change (PyDate.ltb TODAY TODAY) with false.
    now destruct (check_expirations post TODAY).
  - simpl. now rewrite IH.
Qed.

Lemma check_expirations_sound (documents : Documents) (expired : list string)
  (title : string) :
  check_expirations documents TODAY = Ok expired ->
  In title expired ->
  exists document text d,
    In (title, document) documents
    /\ PyDict.get String.eqb "EXP" document = Some text
    /\ PyDate.strptime text = Some d
    /\ PyDate.ltb d TODAY = true.
Proof.
  revert expired. induction documents as [| [t doc] documents IH]; intros expired.
  - simpl. intros [= <-] [].
  - simpl.
    assert (Hrest : forall here,
               match check_expirations documents TODAY with
               | inl e => Err e
               | inr expired0 => Ok (here ++ expired0)
               end = Ok expired ->
               In title expired ->
               In title here
               \/ exists document text d,
                   In (title, document) documents
                   /\ PyDict.get String.eqb "EXP" document = Some text
                   /\ PyDate.strptime text = Some d
                   /\ PyDate.ltb d TODAY = true).
    { intros here. destruct (check_expirations documents TODAY) as [e | ex];
        [discriminate |].
      intros [= <-] Hin. apply in_app_or in Hin. destruct Hin as [Hin | Hin].
      - now left.
      - right. now apply (IH ex). }
    assert (Hlift : (exists document text d,
                        In (title, document) documents
                        /\ PyDict.get String.eqb "EXP" document = Some text
                        /\ PyDate.strptime text = Some d
                        /\ PyDate.ltb d TODAY = true) ->
                    exists document text d,
                      ((t, doc) = (title, document) \/ In (title, document) documents)
                      /\ PyDict.get String.eqb "EXP" document = Some text
                      /\ PyDate.strptime text = Some d
                      /\ PyDate.ltb d TODAY = true).
    { intros [document [text [d [H1 H2]]]]. exists document, text, d. tauto. }
    destruct (PyDict.get String.eqb "EXP" doc) as [text |] eqn:Eexp.
    + destruct (PyStr.truthy text).
      * destruct (PyDate.strptime text) as [d |] eqn:Ed; [| discriminate].
        destruct (PyDate.ltb d TODAY) eqn:Elt.
        -- intros H Hin. destruct (Hrest [t] H Hin) as [[<- | []] | Hex].
           ++ exists doc, text, d. auto.
           ++ now apply Hlift.
        -- intros H Hin. destruct (Hrest [] H Hin) as [[] | Hex]. now apply Hlift.
      * intros H Hin. destruct (Hrest [] H Hin) as [[] | Hex]. now apply Hlift.
    + intros H Hin. destruct (Hrest [] H Hin) as [[] | Hex]. now apply Hlift.
Qed.

(** C10. A document whose [EXP] field parses to the reference date itself,
    1982.11.22, adds nothing to the list of expired documents: the check
    gives what it gives without that document, and for an entrant with
    that document alone it reports nothing.  A title is reported as
    expired only for an [EXP] date strictly earlier than the reference
    date. *)
Theorem expiration_on_reference_date (pre post : Documents) (title : string)
  (document : Document) (date : string) :
  PyDict.get String.eqb "EXP" document = Some date ->
  PyDate.strptime date = Some TODAY ->
  check_expirations (pre ++ (title, document) :: post) TODAY
  = check_expirations (pre ++ post) TODAY
  /\ check_expirations [(title, document)] TODAY = Ok []
  /\ PyDate.ltb TODAY TODAY = false
  /\ forall documents expired t,
      check_expirations documents TODAY = Ok expired ->
      In t expired ->
      exists doc text d,
        In (t, doc) documents
        /\ PyDict.get String.eqb "EXP" doc = Some text
        /\ PyDate.strptime text = Some d
        /\ PyDate.ltb d TODAY = true.
Proof.
  intros Hexp Hdate. split; [| split; [| split]].
  - exact (check_expirations_skip pre post title document date Hexp Hdate).
  - exact (check_expirations_skip [] [] title document date Hexp Hdate).
  - reflexivity.
  - exact check_expirations_sound.
Qed.

Lemma expiration_on_reference_date_witness :
  PyDict.get String.eqb "EXP" [("NATION", "Arstotzka"); ("EXP", "1982.11.22")]
  = Some "1982.11.22"
  /\ PyDate.strptime "1982.11.22" = Some TODAY
  /\ check_expirations
       [("passport", [("NATION", "Arstotzka"); ("EXP", "1982.11.22")])] TODAY
     = Ok []
  /\ fst (inspect (ord := insertion_order)
            [("passport", ("NATION: Arstotzka" ++ NL ++ "EXP: 1982.11.22")%string)]
            init)
     = Ok "Glory to Arstotzka.".
Proof.
  assert (Hexp : PyDict.get String.eqb "EXP"
                   [("NATION", "Arstotzka"); ("EXP", "1982.11.22")]
                 = Some "1982.11.22") by reflexivity.
  assert (Hdate : PyDate.strptime "1982.11.22" = Some TODAY) by reflexivity.
  split; [exact Hexp | split; [exact Hdate | split]].
  - exact (proj1 (expiration_on_reference_date [] [] "passport"
                    [("NATION", "Arstotzka"); ("EXP", "1982.11.22")]
                    "1982.11.22" Hexp Hdate)).
  - reflexivity.
Defined.

(** ** Parsed entrants *)

Lemma string_eqb_eq (a b : string) : String.eqb a b = true <-> a = b.
Proof. apply String.eqb_eq. Qed.

Lemma In_set {V : Type} (k : string) (v : V) (d : list (string * V))
  (k0 : string) (v0 : V) :
  In (k0, v0) (PyDict.set String.eqb k v d) ->
  (k0, v0) = (k, v) \/ In (k0, v0) d.
Proof.
  induction d as [| [k' v'] d IH]; simpl.
  - intros [H | []]. left. now symmetry.
  - destruct (String.eqb k k') eqn:E; simpl.
    + apply String.eqb_eq in E. subst k'.
      intros [H | H]; [left; now symmetry | right; right; exact H].
    + intros [H | H]; [right; left; exact H |].
      destruct (IH H) as [H' | H']; [left | right; right]; assumption.
Qed.

Lemma parse_entries_values (entries : list string) (parsed result : Document) :
  parse_entries entries parsed = Ok result ->
  (forall k v, PyDict.get String.eqb k parsed = Some v -> v <> EmptyString) ->
  forall k v, PyDict.get String.eqb k result = Some v -> v <> EmptyString.
Proof.
  revert parsed. induction entries as [| entry entries IH]; intros parsed; simpl.
  - intros [= ->] H. exact H.
  - destruct (PyStr.split ": " (PyStr.strip entry)) as [| a [| b [| c l]]] eqn:E;
      try discriminate.
    intros Hp Hparsed. apply (IH _ Hp).
    intros k v Hk.
    destruct (String.eqb k a) eqn:Eka.
    + apply String.eqb_eq in Eka. subst k.
      rewrite (get_set_same String.eqb string_eqb_eq) in Hk.
      injection Hk as <-. exact (split_strip_data _ _ _ E).
    + rewrite (get_set_other String.eqb string_eqb_eq) in Hk.
      * exact (Hparsed k v Hk).
      * intros ->. now rewrite String.eqb_refl in Eka.
Qed.

Lemma parse_entrant_loop_well_parsed (items : list (string * string))
  (documents result : Documents) :
  parse_entrant_loop items documents = Ok result ->
  well_parsed documents -> well_parsed result.
Proof.
  revert documents. induction items as [| [t body] items IH]; intros documents; simpl.
  - intros [= ->] H. exact H.
  - destruct (parse_document body) as [e | parsed] eqn:E; [discriminate |].
    intros Hp Hw. apply (IH _ Hp).
    intros title document key value Hin Hget.
    apply In_set in Hin. destruct Hin as [[= -> ->] | Hin].
    + refine (parse_entries_values _ [] parsed E _ key value Hget).
      intros k v. discriminate.
    + exact (Hw title document key value Hin Hget).
Qed.

Lemma parse_entrant_well_parsed (entrant : list (string * string))
  (documents : Documents) :
  parse_entrant entrant = Ok documents -> well_parsed documents.
Proof.
  intros H. apply (parse_entrant_loop_well_parsed entrant [] documents H).
  intros title document key value [].
Qed.

Lemma well_parsed_tail (td : string * Document) (documents : Documents) :
  well_parsed (td :: documents) -> well_parsed documents.
Proof.
  intros H title document key value Hin. apply (H title document key value).
  now right.
Qed.

Lemma truthy_value (v : string) : v <> EmptyString -> PyStr.truthy v = true.
Proof. destruct v; [congruence | reflexivity]. Qed.

Lemma get_name_first (documents : Documents) :
  well_parsed documents -> get_name documents = first_value "NAME" documents.
Proof.
  unfold get_name. induction documents as [| [t d] documents IH]; intros Hw; simpl.
  - reflexivity.
  - destruct (PyDict.get String.eqb "NAME" d) as [v |] eqn:E; simpl.
    + rewrite truthy_value; [reflexivity |].
      apply (Hw t d "NAME" v); [now left | exact E].
    + apply IH. exact (well_parsed_tail _ _ Hw).
Qed.

Lemma get_nationality_first (documents : Documents) :
  well_parsed documents ->
  get_nationality documents = first_value "NATION" documents.
Proof.
  unfold get_nationality.
  induction documents as [| [t d] documents IH]; intros Hw; simpl.
  - reflexivity.
  - destruct (PyDict.get String.eqb "NATION" d) as [v |] eqn:E; simpl.
    + rewrite truthy_value; [reflexivity |].
      apply (Hw t d "NATION" v); [now left | exact E].
    + apply IH. exact (well_parsed_tail _ _ Hw).
Qed.

Lemma first_value_split (field : string) (pre post : Documents) (title : string)
  (document : Document) (value : string) :
  (forall t d, In (t, d) pre -> PyDict.get String.eqb field d = None) ->
  PyDict.get String.eqb field document = Some value ->
  first_value field (pre ++ (title, document) :: post) = Some value.
Proof.
  intros Hpre Hdoc. induction pre as [| [t d] pre IH]; simpl.
  - now rewrite Hdoc.
  - rewrite (Hpre t d) by now left.
    apply IH. intros t' d' Hin. apply (Hpre t' d'). now right.
Qed.

Lemma first_value_none (field : string) (documents : Documents) :
  (forall t d, In (t, d) documents -> PyDict.get String.eqb field d = None) ->
  first_value field documents = None.
Proof.
  induction documents as [| [t d] documents IH]; intros H; simpl.
  - reflexivity.
  - rewrite (H t d) by now left.
    apply IH. intros t' d' Hin. apply (H t' d'). now right.
Qed.

(** ** Field consistency *)

Lemma field_values_In (documents : Documents) (field value : string) :
  In value (field_values documents field) <-> carries documents field value.
Proof.
  unfold field_values, carries. rewrite of_list_In, in_flat_map. split.
  - intros [[t d] [Hin Hv]]. simpl in Hv.
    destruct (PyDict.get String.eqb field d) as [v |] eqn:E; [| destruct Hv].
    destruct Hv as [<- | []]. now exists t, d.
  - intros [t [d [Hin Hget]]]. exists (t, d). split; [exact Hin |].
    simpl. rewrite Hget. now left.
Qed.

Lemma size_agree (documents : Documents) (field : string) :
  agree documents field ->
  (1 <? PySet.size (field_values documents field))%nat = false.
Proof.
  intros H. apply Nat.ltb_ge. unfold PySet.size.
  pose proof (of_list_NoDup
                (flat_map
                   (fun td : string * Document =>
                      match PyDict.get String.eqb field (snd td) with
                      | Some v => [v]
                      | None => []
                      end) documents)) as Hnd.
  fold (field_values documents field) in Hnd.
  pose proof (field_values_In documents field) as Hin.
  destruct (field_values documents field) as [| a [| b l]]; simpl; try lia.
  exfalso.
  assert (a = b) by (apply H; apply Hin; simpl; auto).
  subst b. inversion Hnd as [| ? ? Hna _]. apply Hna. now left.
Qed.

Lemma size_disagree (documents : Documents) (field : string) :
  disagree documents field ->
  (1 <? PySet.size (field_values documents field))%nat = true.
Proof.
  intros [v1 [v2 [H1 [H2 Hne]]]]. apply Nat.ltb_lt. unfold PySet.size.
  apply field_values_In in H1, H2.
  destruct (field_values documents field) as [| a [| b l]]; simpl in *.
  - destruct H1.
  - destruct H1 as [<- | []], H2 as [<- | []]. congruence.
  - lia.
Qed.

(** The first field of the list on which documents disagree heads the
    list of mismatches. *)
Lemma check_mismatches_first (documents : Documents)
  (pre post : list string) (field : string) :
  (forall g, In g pre -> agree documents g) ->
  disagree documents field ->
  exists values rest,
    check_mismatches documents (pre ++ field :: post) = (field, values) :: rest.
Proof.
  intros Hpre Hf. induction pre as [| g pre IH]; simpl.
  - rewrite (size_disagree _ _ Hf). eauto.
  - rewrite (size_agree documents g) by (apply Hpre; now left).
    apply IH. intros g' Hg'. apply Hpre. now right.
Qed.

Lemma agree_of_size (documents : Documents) (field : string) :
  (1 <? PySet.size (field_values documents field))%nat = false ->
  agree documents field.
Proof.
  intros H v1 v2 H1 H2. apply Nat.ltb_ge in H. unfold PySet.size in H.
  apply field_values_In in H1, H2.
  destruct (field_values documents field) as [| a [| b l]]; simpl in *.
  - destruct H1.
  - destruct H1 as [<- | []], H2 as [<- | []]. reflexivity.
  - lia.
Qed.

Lemma disagree_of_size (documents : Documents) (field : string) :
  (1 <? PySet.size (field_values documents field))%nat = true ->
  disagree documents field.
Proof.
  intros H. apply Nat.ltb_lt in H. unfold PySet.size in H.
  pose proof (of_list_NoDup
                (flat_map
                   (fun td : string * Document =>
                      match PyDict.get String.eqb field (snd td) with
                      | Some v => [v]
                      | None => []
                      end) documents)) as Hnd.
  fold (field_values documents field) in Hnd.
  pose proof (field_values_In documents field) as Hin.
  destruct (field_values documents field) as [| a [| b l]]; simpl in H; try lia.
  exists a, b. repeat split.
  - apply Hin. now left.
  - apply Hin. right. now left.
  - intros ->. inversion Hnd as [| ? ? Hna _]. apply Hna. now left.
Qed.

Lemma check_mismatches_fields (documents : Documents) (fields : list string)
  (field : string) (values : PySet.t) (rest : list (string * PySet.t)) :
  check_mismatches documents fields = (field, values) :: rest ->
  In field fields /\ disagree documents field.
Proof.
  induction fields as [| g fields IH]; simpl; [discriminate |].
  destruct (1 <? PySet.size (field_values documents g))%nat eqn:E.
  - intros [= <- _ _]. split; [now left | now apply disagree_of_size].
  - intros H. destruct (IH H) as [H1 H2]. split; [now right | exact H2].
Qed.

(** ** Decisions *)

Lemma check_expirations_error (documents : Documents) (e : exn) :
  check_expirations documents TODAY = Err e ->
  exists title document text,
    In (title, document) documents
    /\ PyDict.get String.eqb "EXP" document = Some text
    /\ PyDate.strptime text = None
    /\ e = StrptimeError text.
Proof.
  induction documents as [| [t doc] documents IH]; simpl; [discriminate |].
  assert (Hrest : forall here,
             match check_expirations documents TODAY with
             | inl e0 => Err e0
             | inr expired0 => Ok (here ++ expired0)
             end = Err e ->
             exists title document text,
               ((t, doc) = (title, document) \/ In (title, document) documents)
               /\ PyDict.get String.eqb "EXP" document = Some text
               /\ PyDate.strptime text = None
               /\ e = StrptimeError text).
  { intros here. destruct (check_expirations documents TODAY) as [e0 | ex];
      [| discriminate].
    intros [= <-]. destruct (IH eq_refl) as [t' [d' [text [Hin H]]]].
    exists t', d', text. tauto. }
  destruct (PyDict.get String.eqb "EXP" doc) as [text |] eqn:Eexp;
    [| exact (Hrest [])].
  destruct (PyStr.truthy text); [| exact (Hrest [])].
  destruct (PyDate.strptime text) as [d |] eqn:Ed.
  - destruct (PyDate.ltb d TODAY); [exact (Hrest [t]) | exact (Hrest [])].
  - intros [= <-]. exists t, doc, text. auto.
Qed.

Section InspectFacts.
Context {ord : SetOrder}.

Lemma post_bind {A B} (m : M A) (f : A -> M B) (self : Inspector)
  (P : A -> Prop) (Q : B -> Prop) (E : exn -> Prop) :
  post m self P E ->
  (forall a self', P a -> post (f a) self' Q E) ->
  post (bind m f) self Q E.
Proof.
  intros Hm Hf. unfold post in *. unfold bind.
  destruct (m self) as [[e | a] self']; simpl in *;
    [exact Hm | exact (Hf a self' Hm)].
Qed.

Lemma post_getitem_documents (k : option string) (self : Inspector)
  (E : exn -> Prop) :
  post (required_documents_getitem k) self
    (fun v => v = lookup k (required_documents self)) E.
Proof.
  unfold post, required_documents_getitem.
  pose proof (default_getitem_value k (required_documents self)) as H.
  destruct (default_getitem k (required_documents self)). exact H.
Qed.

Lemma post_getitem_vaccinations (k : option string) (self : Inspector)
  (E : exn -> Prop) :
  post (required_vaccinations_getitem k) self
    (fun v => v = lookup k (required_vaccinations self)) E.
Proof.
  unfold post, required_vaccinations_getitem.
  pose proof (default_getitem_value k (required_vaccinations self)) as H.
  destruct (default_getitem k (required_vaccinations self)). exact H.
Qed.

Lemma post_weaken {A} (m : M A) (self : Inspector)
  (P Q : A -> Prop) (E : exn -> Prop) :
  post m self P E -> (forall a, P a -> Q a) -> post m self Q E.
Proof. unfold post. destruct (fst (m self)); auto. Qed.

Lemma check_access_permits_post (documents : Documents)
  (nationality : option string) (self : Inspector) :
  post (check_access_permits documents nationality) self
    (fun denial =>
       match denial with
       | Some s => later_decision s
       | None => True
       end)
    (inspect_error documents).
Proof.
  unfold check_access_permits.
  destruct (negb (key_eqb nationality (Some "arstotzka"))); [| exact I].
  eapply post_bind; [apply post_getitem_documents with (E := inspect_error documents) |].
  intros required self' _.
  destruct (PySet.mem "access permit" required); [| exact I].
  destruct (PyDict.get String.eqb "access permit" documents) as [permit |] eqn:Ep.
  - unfold post, bind, attr, lift, getitem. simpl.
    destruct (work_pass_required self'); [| exact I].
    destruct (PyDict.get String.eqb "PURPOSE" permit) as [purpose |] eqn:Eq; simpl.
    + destruct (String.eqb purpose "WORK"); [| exact I].
      destruct (negb (PyDict.has String.eqb "work pass" documents)); simpl.
      * apply (missing_required "work pass").
      * exact I.
    + exact (no_purpose documents permit Ep Eq).
  - destruct (PyDict.has String.eqb "grant of asylum" documents); [exact I |].
    destruct (PyDict.get String.eqb "diplomatic authorization" documents)
      as [document |] eqn:Ed.
    + unfold post, bind, lift, getitem. simpl.
      destruct (PyDict.get String.eqb "ACCESS" document) as [access |] eqn:Ea; simpl.
      * destruct (negb (PySet.mem "Arstotzka" (PySet.of_list (PyStr.split ", " access))));
          simpl.
        -- exact invalid_authorization.
        -- exact I.
      * exact (no_access documents document Ed Ea).
    + apply (missing_required "access permit").
Qed.

Lemma check_vaccinations_post (documents : Documents)
  (nationality : option string) (self : Inspector) :
  post (check_vaccinations documents nationality) self
    later_decision (inspect_error documents).
Proof.
  unfold check_vaccinations.
  assert (Hf : later_decision
                 (if key_eqb nationality (Some "arstotzka")
                  then "Glory to Arstotzka." else "Cause no trouble."))
    by (destruct (key_eqb nationality (Some "arstotzka")); constructor).
  eapply post_bind;
    [apply post_getitem_vaccinations with (E := inspect_error documents) |].
  intros required self' _.
  destruct required as [| r required]; [exact Hf |].
  destruct (PyDict.get String.eqb "certificate of vaccination" documents)
    as [certificate |] eqn:Ec.
  - unfold post, bind, lift, getitem. simpl.
    destruct (PyDict.get String.eqb "VACCINES" certificate) as [vaccines |] eqn:Ev;
      simpl.
    + match goal with
      | |- context [if ?c then _ else _] => destruct c
      end; simpl.
      * exact missing_vaccination.
      * exact Hf.
    + exact (no_vaccines documents certificate Ec Ev).
  - apply (missing_required "certificate of vaccination").
Qed.

Lemma fields_to_str_label (field : string) :
  In field MISMATCH_FIELDS ->
  exists label,
    PyDict.get String.eqb field FIELDS_TO_STR = Some label
    /\ In (field, label) FIELDS_TO_STR.
Proof.
  simpl. intros [<- | [<- | [<- | [<- | [<- | []]]]]];
    eexists; (split; [reflexivity | simpl; tauto]).
Qed.

(** The result of [inspect] on parsed documents, by the check that gives
    it. *)
Lemma inspect_documents_outcome (documents : Documents) (self : Inspector) :
  post (inspect_documents documents) self
    (fun s =>
       (exists field label,
           In (field, label) FIELDS_TO_STR
           /\ disagree documents field
           /\ s = ("Detainment: " ++ label ++ " mismatch.")%string)
       \/ (check_mismatches documents MISMATCH_FIELDS = []
           /\ mem_value (get_name documents) (wanted_criminals self) = true
           /\ s = "Detainment: Entrant is a wanted criminal.")
       \/ (check_mismatches documents MISMATCH_FIELDS = []
           /\ mem_value (get_name documents) (wanted_criminals self) = false
           /\ later_decision s))
    (inspect_error documents).
Proof.
  unfold inspect_documents.
  destruct (check_mismatches documents MISMATCH_FIELDS) as [| [f vs] rest] eqn:Em.
  - unfold post, bind at 1, attr at 1. simpl fst. simpl snd. cbv beta iota.
    destruct (mem_value (get_name documents) (wanted_criminals self)) eqn:Ew.
    + right. left. auto.
    + match goal with
      | |- match fst (?m self) with _ => _ end => change (post m self
          (fun s => (exists field label,
                        In (field, label) FIELDS_TO_STR
                        /\ disagree documents field
                        /\ s = ("Detainment: " ++ label ++ " mismatch.")%string)
                    \/ ([] = @nil (string * PySet.t) /\ false = true
                        /\ s = "Detainment: Entrant is a wanted criminal.")
                    \/ ([] = @nil (string * PySet.t) /\ false = false
                        /\ later_decision s))
          (inspect_error documents))
      end.
      apply post_weaken with (P := later_decision); [| intros a Ha; auto].
      eapply post_bind with (P := fun _ => True).
      { destruct (if truthy (get_nationality documents)
                  then option_map PyStr.lower (get_nationality documents)
                  else get_nationality documents).
        - eapply post_weaken; [apply post_getitem_documents | auto].
        - exact I. }
      intros required self1 _.
      destruct (missing_document (iter required) documents) as [t |].
      { apply missing_required. }
      unfold bind at 1, lift at 1, post.
      destruct (check_expirations documents TODAY) as [e | [| t ex]] eqn:Ee;
        simpl fst; simpl snd; cbv beta iota.
      { simpl. apply check_expirations_error in Ee.
        destruct Ee as [t [d [text [H1 [H2 [H3 ->]]]]]].
        exact (bad_date documents t d text H1 H2 H3). }
      2: { simpl. apply expired. }
      match goal with
      | |- match fst (?m self1) with _ => _ end =>
          change (post m self1 later_decision (inspect_error documents))
      end.
      eapply post_bind; [apply check_access_permits_post |].
      intros [s |] self2 Hs; [exact Hs |].
      unfold bind at 1, attr at 1, post. simpl fst. simpl snd. cbv beta iota.
      match goal with
      | |- context [if ?c then _ else _] => destruct c
      end.
      { apply banned_nation. }
      apply check_vaccinations_post.
  - destruct (check_mismatches_fields _ _ _ _ _ Em) as [Hin Hdis].
    destruct (fields_to_str_label f Hin) as [label [Hget HIn]].
    unfold post, bind, lift, getitem. cbn [fst]. rewrite Hget. simpl.
    left. exists f, label. auto.
Qed.

End InspectFacts.

(** ** The policy state across an inspection *)

Lemma grows_refl (d : PolicyMap) : grows d d.
Proof. exists []. simpl. rewrite app_nil_r. split; [reflexivity | intros k []]. Qed.

Lemma grows_trans (a b c : PolicyMap) : grows a b -> grows b c -> grows a c.
Proof.
  intros [k1 [-> H1]] [k2 [-> H2]]. exists (k1 ++ k2). split.
  - now rewrite map_app, app_assoc.
  - intros k Hk. apply in_app_or in Hk. destruct Hk as [Hk | Hk]; [now apply H1 |].
    specialize (H2 k Hk). rewrite get_app in H2.
    destruct (PyDict.get key_eqb k a); [discriminate | reflexivity].
Qed.

Lemma grows_getitem (k : option string) (d : PolicyMap) :
  grows d (snd (default_getitem k d)).
Proof.
  unfold default_getitem. destruct (PyDict.get key_eqb k d) eqn:E; simpl.
  - apply grows_refl.
  - exists [k]. split.
    + now apply set_absent.
    + intros k' [<- | []]. exact E.
Qed.

Lemma get_empties (k : option string) (categories : list (option string)) :
  PyDict.get (V := PySet.t) key_eqb k (map (fun k => (k, @nil string)) categories)
  = None
  \/ PyDict.get (V := PySet.t) key_eqb k (map (fun k => (k, @nil string)) categories)
     = Some [].
Proof.
  induction categories as [| c categories IH]; simpl; [now left |].
  destruct (key_eqb k c); [now right | exact IH].
Qed.

(** Such categories do not show in what the mapping gives for a
    category. *)
Lemma grows_lookup (d d' : PolicyMap) (k : option string) :
  grows d d' -> lookup k d' = lookup k d.
Proof.
  intros [categories [-> _]]. unfold lookup. rewrite get_app.
  destruct (PyDict.get key_eqb k d); [reflexivity |].
  destruct (get_empties k categories) as [-> | ->]; reflexivity.
Qed.

Lemma same_policy_refl (a : Inspector) : same_policy a a.
Proof. repeat split; apply grows_refl. Qed.

Lemma same_policy_trans (a b c : Inspector) :
  same_policy a b -> same_policy b c -> same_policy a c.
Proof.
  intros [A1 [A2 [A3 [A4 A5]]]] [B1 [B2 [B3 [B4 B5]]]].
  repeat split; try congruence; eapply grows_trans; eassumption.
Qed.

Lemma frame_ret {A} (a : A) : frame (ret a).
Proof. intros self. apply same_policy_refl. Qed.

Lemma frame_lift {A} (r : result A) : frame (lift r).
Proof. intros self. apply same_policy_refl. Qed.

Lemma frame_attr {A} (field : Inspector -> A) : frame (attr field).
Proof. intros self. apply same_policy_refl. Qed.

Lemma frame_bind {A B} (m : M A) (f : A -> M B) :
  frame m -> (forall a, frame (f a)) -> frame (bind m f).
Proof.
  intros Hm Hf self. specialize (Hm self). unfold bind.
  destruct (m self) as [[e | a] self']; simpl in *; [exact Hm |].
  eapply same_policy_trans; [exact Hm | apply Hf].
Qed.

Lemma frame_getitem_documents (k : option string) :
  frame (required_documents_getitem k).
Proof.
  intros self. unfold required_documents_getitem.
  pose proof (grows_getitem k (required_documents self)) as H.
  destruct (default_getitem k (required_documents self)) as [v d]. simpl in *.
  repeat split; [exact H | apply grows_refl].
Qed.

Lemma frame_getitem_vaccinations (k : option string) :
  frame (required_vaccinations_getitem k).
Proof.
  intros self. unfold required_vaccinations_getitem.
  pose proof (grows_getitem k (required_vaccinations self)) as H.
  destruct (default_getitem k (required_vaccinations self)) as [v d]. simpl in *.
  repeat split; [apply grows_refl | exact H].
Qed.

Ltac frame_step :=
  first
    [ apply frame_ret
    | apply frame_lift
    | apply frame_attr
    | apply frame_getitem_documents
    | apply frame_getitem_vaccinations
    | apply frame_bind; [| intros ?]
    | match goal with
      | |- frame (match ?x with _ => _ end) => destruct x
      end ].

Section FrameFacts.
Context {ord : SetOrder}.

Lemma frame_inspect (entrant : list (string * string)) : frame (inspect entrant).
Proof.
  unfold inspect, inspect_documents, check_access_permits, check_vaccinations.
  cbv zeta. repeat frame_step.
Qed.

(** C3, as amended.  A call to [inspect], whether it returns or raises,
    leaves [allowed_countries], [wanted_criminals] and
    [work_pass_required] as they were, and leaves in
    [required_documents] and [required_vaccinations] every entry as it
    was and in its place; it may append to either mapping categories that
    were absent, bound to the empty set, so that the set either mapping
    gives for any category is the same before and after. *)
Theorem inspect_leaves_policy (entrant : list (string * string))
  (self : Inspector) :
  let after := snd (inspect entrant self) in
  allowed_countries after = allowed_countries self
  /\ wanted_criminals after = wanted_criminals self
  /\ work_pass_required after = work_pass_required self
  /\ grows (required_documents self) (required_documents after)
  /\ grows (required_vaccinations self) (required_vaccinations after)
  /\ (forall category,
         lookup category (required_documents after)
         = lookup category (required_documents self))
  /\ (forall category,
         lookup category (required_vaccinations after)
         = lookup category (required_vaccinations self)).
Proof.
  destruct (frame_inspect entrant self) as [H1 [H2 [H3 [H4 H5]]]].
  cbv zeta. repeat split; try assumption.
  - intros category. now apply grows_lookup.
  - intros category. now apply grows_lookup.
Qed.

End FrameFacts.

(** The claim C3 as it was stated fails: the lookup of the nationality in
    the [defaultdict] inserts it.  After one inspection of a citizen of
    Arstotzka by a new inspector, [required_documents] and
    [required_vaccinations] have the key [arstotzka]. *)
Lemma inspect_inserts_category :
  let entrant := [("passport", "NATION: Arstotzka")] in
  let after := snd (inspect (ord := insertion_order) entrant init) in
  fst (inspect (ord := insertion_order) entrant init) = Ok "Glory to Arstotzka."
  /\ PyDict.keys (required_documents init) = []
  /\ PyDict.keys (required_documents after) = [Some "arstotzka"]
  /\ PyDict.keys (required_vaccinations init) = []
  /\ PyDict.keys (required_vaccinations after) = [Some "arstotzka"]
  /\ after <> init.
Proof. cbv zeta. repeat split. discriminate. Qed.

(** ** The checks of [inspect] *)

Section InspectChecks.
Context {ord : SetOrder}.

Lemma inspect_parsed (entrant : list (string * string))
  (documents : Documents) (self : Inspector) :
  parse_entrant entrant = Ok documents ->
  inspect entrant self = inspect_documents documents self.
Proof. intros H. unfold inspect, bind, lift. now rewrite H. Qed.

Lemma inspect_documents_mismatch (documents : Documents) (self : Inspector)
  (pre post : list string) (field label : string) :
  MISMATCH_FIELDS = pre ++ field :: post ->
  (forall g, In g pre -> agree documents g) ->
  disagree documents field ->
  PyDict.get String.eqb field FIELDS_TO_STR = Some label ->
  inspect_documents documents self
  = (Ok ("Detainment: " ++ label ++ " mismatch.")%string, self).
Proof.
  intros Hf Hpre Hdis Hlabel. unfold inspect_documents. rewrite Hf.
  destruct (check_mismatches_first documents pre post field Hpre Hdis)
    as [values [rest ->]].
  unfold bind, lift, getitem, ret. cbn [fst]. now rewrite Hlabel.
Qed.

(** C6. For an entrant whose documents disagree on [NATION] and agree on
    each of [NAME], [DOB], [SEX] and [ID#], [inspect] returns
    [Detainment: nationality mismatch.]; in general the fields are
    checked in the order [NAME], [DOB], [SEX], [ID#], [NATION] and the
    decision names the first of them on which documents disagree. *)
Theorem nationality_mismatch (entrant : list (string * string))
  (documents : Documents) (self : Inspector) :
  parse_entrant entrant = Ok documents ->
  MISMATCH_FIELDS = ["NAME"; "DOB"; "SEX"; "ID#"; "NATION"]
  /\ (agree documents "NAME" -> agree documents "DOB" ->
      agree documents "SEX" -> agree documents "ID#" ->
      disagree documents "NATION" ->
      inspect entrant self = (Ok "Detainment: nationality mismatch.", self))
  /\ (forall pre field post label,
         MISMATCH_FIELDS = pre ++ field :: post ->
         (forall g, In g pre -> agree documents g) ->
         disagree documents field ->
         PyDict.get String.eqb field FIELDS_TO_STR = Some label ->
         inspect entrant self
         = (Ok ("Detainment: " ++ label ++ " mismatch.")%string, self)).
Proof.
  intros Hp. split; [reflexivity | split].
  - intros H1 H2 H3 H4 H5. rewrite (inspect_parsed _ _ _ Hp).
    apply (inspect_documents_mismatch documents self
             ["NAME"; "DOB"; "SEX"; "ID#"] [] "NATION" "nationality");
      [reflexivity | | exact H5 | reflexivity].
    intros g [<- | [<- | [<- | [<- | []]]]]; assumption.
  - intros pre field post label Hf Hpre Hdis Hl.
    rewrite (inspect_parsed _ _ _ Hp).
    now apply (inspect_documents_mismatch documents self pre post field label).
Qed.

Lemma later_decision_not_wanted (s : string) :
  later_decision s -> s <> "Detainment: Entrant is a wanted criminal.".
Proof. intros H. destruct H; discriminate. Qed.

Lemma mismatch_not_wanted (field label : string) :
  In (field, label) FIELDS_TO_STR ->
  ("Detainment: " ++ label ++ " mismatch.")%string
  <> "Detainment: Entrant is a wanted criminal.".
Proof.
  simpl. intros [[= <- <-] | [[= <- <-] | [[= <- <-] | [[= <- <-] | [[= <- <-] | []]]]]];
    discriminate.
Qed.

Lemma inspect_documents_wanted (documents : Documents) (self : Inspector) :
  check_mismatches documents MISMATCH_FIELDS = [] ->
  (mem_value (get_name documents) (wanted_criminals self) = true ->
   inspect_documents documents self
   = (Ok "Detainment: Entrant is a wanted criminal.", self))
  /\ (mem_value (get_name documents) (wanted_criminals self) = false ->
      fst (inspect_documents documents self)
      <> Ok "Detainment: Entrant is a wanted criminal.").
Proof.
  intros Hm. split; intros Hw.
  - unfold inspect_documents. rewrite Hm.
    unfold bind at 1, attr at 1, Ok at 1. cbv beta iota. now rewrite Hw.
  - pose proof (inspect_documents_outcome documents self) as H.
    unfold post in H.
    destruct (fst (inspect_documents documents self)) as [e | s];
      [discriminate |].
    destruct H as [[f [l [Hin [_ ->]]]] | [[_ [Hw' _]] | [_ [_ Hl]]]].
    + intros H. apply (mismatch_not_wanted f l Hin).
      unfold Ok in H. congruence.
    + congruence.
    + intros [= ->]. exact (later_decision_not_wanted _ Hl eq_refl).
Qed.

(** C1, as amended.  For an entrant whose documents show no mismatch, the
    wanted check takes the [NAME] value of the first document that has
    one and tests that value, as it stands, for membership in
    [wanted_criminals]: the entrant is detained as a wanted criminal when
    the value is in the set, and not when it is not, nor when no document
    has a [NAME]. *)
Theorem wanted_check (entrant : list (string * string))
  (documents : Documents) (self : Inspector) :
  parse_entrant entrant = Ok documents ->
  check_mismatches documents MISMATCH_FIELDS = [] ->
  (forall pre title document post name,
      documents = pre ++ (title, document) :: post ->
      (forall t d, In (t, d) pre -> PyDict.get String.eqb "NAME" d = None) ->
      PyDict.get String.eqb "NAME" document = Some name ->
      get_name documents = Some name
      /\ (PySet.mem name (wanted_criminals self) = true ->
          inspect entrant self
          = (Ok "Detainment: Entrant is a wanted criminal.", self))
      /\ (PySet.mem name (wanted_criminals self) = false ->
          fst (inspect entrant self)
          <> Ok "Detainment: Entrant is a wanted criminal."))
  /\ ((forall t d, In (t, d) documents -> PyDict.get String.eqb "NAME" d = None) ->
      get_name documents = None
      /\ fst (inspect entrant self)
         <> Ok "Detainment: Entrant is a wanted criminal.").
Proof.
  intros Hp Hm.
  pose proof (parse_entrant_well_parsed _ _ Hp) as Hw.
  rewrite (inspect_parsed _ _ _ Hp).
  destruct (inspect_documents_wanted documents self Hm) as [Hyes Hno].
  split.
  - intros pre title document post name Hd Hpre Hname.
    assert (Hn : get_name documents = Some name).
    { rewrite (get_name_first _ Hw), Hd.
      now apply first_value_split. }
    rewrite Hn in Hyes, Hno. simpl in Hyes, Hno. auto.
  - intros Hnone.
    assert (Hn : get_name documents = None).
    { rewrite (get_name_first _ Hw). now apply first_value_none. }
    rewrite Hn in Hno. simpl in Hno. auto.
Qed.

Lemma missing_document_some (required : list string) (documents : Documents)
  (type : string) :
  missing_document required documents = Some type ->
  In type required /\ type <> "access permit"
  /\ PyDict.has String.eqb (PyStr.lower type) documents = false.
Proof.
  induction required as [| r required IH]; simpl; [discriminate |].
  destruct (String.eqb r "access permit") eqn:Ea.
  - intros H. destruct (IH H) as [H1 H2]. split; [now right | exact H2].
  - destruct (PyDict.has String.eqb (PyStr.lower r) documents) eqn:Eh; simpl.
    + intros H. destruct (IH H) as [H1 H2]. split; [now right | exact H2].
    + intros [= <-]. apply String.eqb_neq in Ea. auto.
Qed.

Lemma missing_document_none (required : list string) (documents : Documents) :
  missing_document required documents = None ->
  forall type, In type required ->
               type = "access permit"
               \/ PyDict.has String.eqb (PyStr.lower type) documents = true.
Proof.
  induction required as [| r required IH]; simpl; [intros _ type [] |].
  destruct (String.eqb r "access permit") eqn:Ea.
  - intros H type [<- | Hin]; [left; now apply String.eqb_eq | now apply IH].
  - destruct (PyDict.has String.eqb (PyStr.lower r) documents) eqn:Eh; simpl.
    + intros H type [<- | Hin]; [now right | now apply IH].
    + discriminate.
Qed.

(** C7, as amended.  When no document has a [NATION] field, the set of
    required documents is the union of [required_documents] over all
    categories.  [access permit] is passed over, and a required type
    counts as missing when its lower-case form is not the normalised
    title of a document.  If some required type is missing, [inspect]
    returns [Entry denied: missing required <type>.] for one such type
    (the first the iteration of the set meets); if none is, no required
    type makes this check return. *)
Theorem required_documents_unknown_nationality
  (entrant : list (string * string)) (documents : Documents) (self : Inspector) :
  parse_entrant entrant = Ok documents ->
  check_mismatches documents MISMATCH_FIELDS = [] ->
  mem_value (get_name documents) (wanted_criminals self) = false ->
  (forall t d, In (t, d) documents -> PyDict.get String.eqb "NATION" d = None) ->
  let required := PySet.union_all (PyDict.values (required_documents self)) in
  let missing type :=
    In type required /\ type <> "access permit"
    /\ PyDict.has String.eqb (PyStr.lower type) documents = false in
  (forall type,
      In type required <->
      exists category types,
        In (category, types) (required_documents self) /\ In type types)
  /\ ((exists type, missing type) ->
      exists type,
        missing type
        /\ inspect entrant self
           = (Ok ("Entry denied: missing required " ++ type ++ ".")%string, self))
  /\ ((forall type, ~ missing type) ->
      missing_document (iter required) documents = None).
Proof.
  intros Hp Hm Hw Hnat required missing.
  pose proof (parse_entrant_well_parsed _ _ Hp) as Hwp.
  assert (Hn : get_nationality documents = None).
  { rewrite (get_nationality_first _ Hwp). now apply first_value_none. }
  split; [| split].
  - intros type. unfold required. rewrite union_all_In. unfold PyDict.values.
    split.
    + intros [s [Hs Ht]]. apply in_map_iff in Hs.
      destruct Hs as [[c s'] [<- Hin]]. now exists c, s'.
    + intros [c [s [Hin Ht]]]. exists s. split; [| exact Ht].
      apply in_map_iff. now exists (c, s).
  - intros [type [H1 [H2 H3]]].
    destruct (missing_document (iter required) documents) as [t |] eqn:E.
    + exists t. split.
      * destruct (missing_document_some _ _ _ E) as [G1 G2].
        split; [| exact G2].
        apply Permutation_in with (l := iter required);
          [apply iter_perm | exact G1].
      * rewrite (inspect_parsed _ _ _ Hp). unfold inspect_documents.
        rewrite Hm.
        unfold bind at 1, attr at 1, Ok at 1. cbv beta iota. rewrite Hw.
        rewrite Hn. cbn [truthy].
        unfold bind at 1, bind at 1, attr at 1, ret at 1, Ok at 1.
        unfold Ok at 1. cbv beta iota. fold required. now rewrite E.
    + exfalso.
      assert (Hin : In type (iter required))
        by (apply Permutation_in with (l := required);
            [apply Permutation_sym, iter_perm | exact H1]).
      destruct (missing_document_none _ _ E type Hin); congruence.
  - intros Hnone.
    destruct (missing_document (iter required) documents) as [t |] eqn:E;
      [| reflexivity].
    exfalso. apply (Hnone t).
    destruct (missing_document_some _ _ _ E) as [G1 G2].
    split; [| exact G2].
    apply Permutation_in with (l := iter required); [apply iter_perm | exact G1].
Qed.

(** C2, as amended.  For an entrant submission that parses, [inspect]
    either returns one string of the decision templates or raises one of
    four exceptions: the [ValueError] of an [EXP] value that is not a
    date, or the [KeyError] of [ACCESS], [PURPOSE] or [VACCINES] for a
    diplomatic authorization, access permit or certificate of vaccination
    that lacks the field.  When every [EXP] value is a date and those
    three documents, where present, have their field, it returns a
    decision. *)
Theorem inspect_decision (entrant : list (string * string))
  (documents : Documents) (self : Inspector) :
  parse_entrant entrant = Ok documents ->
  match fst (inspect entrant self) with
  | inr s => decision s
  | inl e => inspect_error documents e
  end
  /\ ((forall title document text,
          In (title, document) documents ->
          PyDict.get String.eqb "EXP" document = Some text ->
          PyDate.strptime text <> None) ->
      (forall document,
          PyDict.get String.eqb "diplomatic authorization" documents = Some document ->
          PyDict.get String.eqb "ACCESS" document <> None) ->
      (forall document,
          PyDict.get String.eqb "access permit" documents = Some document ->
          PyDict.get String.eqb "PURPOSE" document <> None) ->
      (forall document,
          PyDict.get String.eqb "certificate of vaccination" documents = Some document ->
          PyDict.get String.eqb "VACCINES" document <> None) ->
      exists s, fst (inspect entrant self) = Ok s /\ decision s).
Proof.
  intros Hp. rewrite (inspect_parsed _ _ _ Hp).
  pose proof (inspect_documents_outcome documents self) as H. unfold post in H.
  assert (Hd : match fst (inspect_documents documents self) with
               | inl e => inspect_error documents e
               | inr s => decision s
               end).
  { destruct (fst (inspect_documents documents self)) as [e | s]; [exact H |].
    destruct H as [[f [l [Hin [_ ->]]]] | [[_ [_ ->]] | [_ [_ Hl]]]].
    - exact (mismatch f l Hin).
    - exact wanted_criminal.
    - exact (later s Hl). }
  split; [exact Hd |].
  intros Hexp Hacc Hpur Hvac.
  destruct (fst (inspect_documents documents self)) as [e | s].
  - exfalso. destruct Hd as [t d text H1 H2 H3 | d H1 H2 | d H1 H2 | d H1 H2].
    + exact (Hexp t d text H1 H2 H3).
    + exact (Hacc d H1 H2).
    + exact (Hpur d H1 H2).
    + exact (Hvac d H1 H2).
  - exists s. split; [reflexivity | exact Hd].
Qed.

End InspectChecks.

(** ** The properties at concrete inputs *)

(** The claim C1 as it was stated fails: the name is not reformatted.  With
    John Doe wanted, the bearer of [NAME: John Doe] is not detained as a
    wanted criminal. *)
Lemma wanted_name_is_not_reformatted :
  let policy := Examples.after_bulletin "Wanted by the State: John Doe" in
  let entrant := [("passport", "NAME: John Doe")] in
  wanted_criminals policy = ["Doe, John"]
  /\ parse_entrant entrant = Ok [("passport", [("NAME", "John Doe")])]
  /\ check_mismatches [("passport", [("NAME", "John Doe")])] MISMATCH_FIELDS = []
  /\ Examples.run_inspect entrant policy
     = Ok "Entry denied: citizen of banned nation."
  /\ Examples.run_inspect entrant policy
     <> Ok "Detainment: Entrant is a wanted criminal.".
Proof. cbv zeta. repeat split. discriminate. Qed.

Lemma wanted_check_witness :
  let policy := Examples.after_bulletin "Wanted by the State: John Doe" in
  let entrant := [("passport", "NAME: Doe, John")] in
  let documents := [("passport", [("NAME", "Doe, John")])] in
  parse_entrant entrant = Ok documents
  /\ check_mismatches documents MISMATCH_FIELDS = []
  /\ PySet.mem "Doe, John" (wanted_criminals policy) = true
  /\ inspect (ord := insertion_order) entrant policy
     = (Ok "Detainment: Entrant is a wanted criminal.", policy).
Proof.
  cbv zeta.
  assert (Hp : parse_entrant [("passport", "NAME: Doe, John")]
               = Ok [("passport", [("NAME", "Doe, John")])]) by reflexivity.
  assert (Hm : check_mismatches [("passport", [("NAME", "Doe, John")])]
                 MISMATCH_FIELDS = []) by reflexivity.
  assert (Hw : PySet.mem "Doe, John"
                 (wanted_criminals
                    (Examples.after_bulletin "Wanted by the State: John Doe"))
               = true) by reflexivity.
  split; [exact Hp | split; [exact Hm | split; [exact Hw |]]].
  destruct (wanted_check (ord := insertion_order) _ _
              (Examples.after_bulletin "Wanted by the State: John Doe") Hp Hm)
    as [H _].
  destruct (H [] "passport" [("NAME", "Doe, John")] [] "Doe, John" eq_refl)
    as [_ [Hyes _]].
  - intros t d [].
  - reflexivity.
  - exact (Hyes Hw).
Defined.

(** The claim C2 as it was stated fails: [inspect] indexes the
    authorization, the permit and the certificate without a test, and
    raises [KeyError] when the field is not there. *)
Lemma inspect_raises_key_error :
  parse_entrant [("diplomatic_authorization", "NATION: Impor")]
  = Ok [("diplomatic authorization", [("NATION", "Impor")])]
  /\ Examples.run_inspect
       [("diplomatic_authorization", "NATION: Impor")]
       (Examples.after_bulletin "Citizens of Impor require access permit")
     = Err (KeyError "ACCESS")
  /\ Examples.run_inspect
       [("access_permit", "NATION: Impor")]
       (Examples.after_bulletin
          ("Citizens of Impor require access permit" ++ NL
           ++ "Workers require work pass")%string)
     = Err (KeyError "PURPOSE")
  /\ Examples.run_inspect
       [("certificate_of_vaccination", "NATION: Impor")]
       (Examples.after_bulletin
          ("Allow citizens of Impor" ++ NL
           ++ "Citizens of Impor require polio vaccination")%string)
     = Err (KeyError "VACCINES").
Proof. repeat split. Qed.

Lemma inspect_decision_witness :
  let entrant :=
    [("passport", ("NATION: Arstotzka" ++ NL ++ "EXP: 1983.01.01")%string)] in
  let documents := [("passport", [("NATION", "Arstotzka"); ("EXP", "1983.01.01")])] in
  parse_entrant entrant = Ok documents
  /\ exists s, Examples.run_inspect entrant init = Ok s /\ decision s.
Proof.
  cbv zeta.
  assert (Hp : parse_entrant
                 [("passport", ("NATION: Arstotzka" ++ NL ++ "EXP: 1983.01.01")%string)]
               = Ok [("passport", [("NATION", "Arstotzka"); ("EXP", "1983.01.01")])])
    by reflexivity.
  split; [exact Hp |].
  apply (proj2 (inspect_decision (ord := insertion_order) _ _ init Hp)).
  - intros title document text [[= <- <-] | []]. simpl.
    intros [= <-]. discriminate.
  - intros document. discriminate.
  - intros document. discriminate.
  - intros document. discriminate.
Defined.

(** The claim C4 as it was stated fails for [DenyCountries]: denying a
    country that is not allowed is accepted and changes nothing. *)
Lemma deny_of_absent_country_is_silent :
  PySet.mem "impor" (allowed_countries init) = false
  /\ receive_bulletin (ord := insertion_order) "Deny citizens of Impor" init
     = (Ok tt, init).
Proof. split; reflexivity. Qed.

Lemma removal_of_absent_entry_witness :
  fst (unrequire_documents
         (iter (SetOrder := insertion_order) ["Impor"]) "passport" init)
  = Err (KeyError "passport")
  /\ fst (unrequire_vaccinations
            (iter (SetOrder := insertion_order) ["Impor"]) "polio" init)
     = Err (KeyError "polio")
  /\ receive_entry (ord := insertion_order) "Deny citizens of Impor" init
     = (Ok tt, init)
  /\ fst (receive_bulletin (ord := insertion_order)
            "Citizens of Impor no longer require passport" init)
     = Err (KeyError "passport")
  /\ fst (receive_bulletin (ord := insertion_order)
            "Citizens of Impor no longer require polio vaccination" init)
     = Err (KeyError "polio").
Proof.
  destruct (removal_of_absent_entry (ord := insertion_order) init)
    as [H1 [H2 H3]].
  split; [| split; [| split; [| split]]].
  - apply (H1 ["Impor"] "Impor" "passport"); [simpl; auto | reflexivity].
  - apply (H2 ["Impor"] "Impor" "polio"); [simpl; auto | reflexivity].
  - apply (H3 "Deny citizens of Impor" "Impor");
      [reflexivity | reflexivity | reflexivity |].
    intros country [<- | []]. reflexivity.
  - reflexivity.
  - reflexivity.
Defined.

Lemma bulletin_partial_application_witness :
  let bulletin :=
    ("Allow citizens of Obristan" ++ NL ++ "nonsense" ++ NL
     ++ "Deny citizens of Obristan")%string in
  let e := ValueError "Could not parse entry : nonsense" in
  PyStr.split NL bulletin
  = ["Allow citizens of Obristan"] ++ "nonsense" :: ["Deny citizens of Obristan"]
  /\ fst (receive_bulletin (ord := insertion_order) bulletin init) = Err e
  /\ allowed_countries (snd (receive_bulletin (ord := insertion_order) bulletin init))
     = ["arstotzka"; "obristan"].
Proof.
  cbv zeta.
  assert (Hs : PyStr.split NL
                 ("Allow citizens of Obristan" ++ NL ++ "nonsense" ++ NL
                  ++ "Deny citizens of Obristan")%string
               = ["Allow citizens of Obristan"] ++ "nonsense"
                 :: ["Deny citizens of Obristan"]) by reflexivity.
  destruct (bulletin_partial_application (ord := insertion_order)
              _ _ _ _ init (ValueError "Could not parse entry : nonsense")
              Hs eq_refl eq_refl)
    as [H1 [H2 [H3 [H4 _]]]].
  split; [exact Hs | split; [exact H1 |]].
  rewrite H4. reflexivity.
Defined.

Lemma nationality_mismatch_witness :
  let entrant :=
    [("passport", ("NAME: Doe, John" ++ NL ++ "NATION: Obristan")%string);
     ("access_permit", ("NAME: Doe, John" ++ NL ++ "NATION: Impor")%string)] in
  let documents :=
    [("passport", [("NAME", "Doe, John"); ("NATION", "Obristan")]);
     ("access permit", [("NAME", "Doe, John"); ("NATION", "Impor")])] in
  parse_entrant entrant = Ok documents
  /\ agree documents "NAME"
  /\ disagree documents "NATION"
  /\ inspect (ord := insertion_order) entrant init
     = (Ok "Detainment: nationality mismatch.", init).
Proof.
  cbv zeta.
  assert (Hp : parse_entrant
                 [("passport", ("NAME: Doe, John" ++ NL ++ "NATION: Obristan")%string);
                  ("access_permit", ("NAME: Doe, John" ++ NL ++ "NATION: Impor")%string)]
               = Ok [("passport", [("NAME", "Doe, John"); ("NATION", "Obristan")]);
                     ("access permit", [("NAME", "Doe, John"); ("NATION", "Impor")])])
    by reflexivity.
  split; [exact Hp |].
  split; [apply agree_of_size; reflexivity |].
  split; [apply disagree_of_size; reflexivity |].
  apply (proj1 (proj2 (nationality_mismatch (ord := insertion_order) _ _ init Hp)));
    first [apply agree_of_size; reflexivity | apply disagree_of_size; reflexivity].
Defined.

(** The claim C7 as it was stated fails: the required type is put in lower
    case before it is looked up among the titles.  No title equals
    [ID card], yet the bearer of an [ID_card] is not denied for it.  And of
    two required types that are both missing, the decision names one
    only. *)
Lemma required_type_is_lowered :
  let policy := Examples.after_bulletin "Citizens of Arstotzka require ID card" in
  let entrant := [("ID_card", "NAME: Doe, John")] in
  let policy2 :=
    Examples.after_bulletin
      ("Citizens of Arstotzka require passport" ++ NL
       ++ "Citizens of Impor require visa")%string in
  (required_documents policy = [(Some "arstotzka", ["ID card"])]
   /\ parse_entrant entrant = Ok [("id card", [("NAME", "Doe, John")])]
   /\ PyDict.has String.eqb "ID card" [("id card", [("NAME", "Doe, John")])] = false
   /\ Examples.run_inspect entrant policy
      = Ok "Entry denied: citizen of banned nation."
   /\ Examples.run_inspect entrant policy
      <> Ok "Entry denied: missing required ID card.")
  /\ (required_documents policy2
      = [(Some "arstotzka", ["passport"]); (Some "impor", ["visa"])]
      /\ PyDict.has String.eqb "visa" [("id card", [("NAME", "Doe, John")])] = false
      /\ Examples.run_inspect entrant policy2
         = Ok "Entry denied: missing required passport."
      /\ Examples.run_inspect entrant policy2
         <> Ok "Entry denied: missing required visa.").
Proof. cbv zeta. repeat split; discriminate. Qed.

Lemma required_documents_unknown_nationality_witness :
  let policy := Examples.after_bulletin "Citizens of Arstotzka require passport" in
  let entrant := [("ID_card", "NAME: Doe, John")] in
  let documents := [("id card", [("NAME", "Doe, John")])] in
  parse_entrant entrant = Ok documents
  /\ check_mismatches documents MISMATCH_FIELDS = []
  /\ mem_value (get_name documents) (wanted_criminals policy) = false
  /\ exists type,
      PyDict.has String.eqb (PyStr.lower type) documents = false
      /\ inspect (ord := insertion_order) entrant policy
         = (Ok ("Entry denied: missing required " ++ type ++ ".")%string, policy).
Proof.
  cbv zeta.
  assert (Hp : parse_entrant [("ID_card", "NAME: Doe, John")]
               = Ok [("id card", [("NAME", "Doe, John")])]) by reflexivity.
  split; [exact Hp | split; [reflexivity | split; [reflexivity |]]].
  destruct (required_documents_unknown_nationality (ord := insertion_order) _ _
              (Examples.after_bulletin "Citizens of Arstotzka require passport")
              Hp eq_refl eq_refl) as [_ [H _]].
  - intros t d [[= <- <-] | []]. reflexivity.
  - destruct H as [type [[_ [_ Hmiss]] Hrun]].
    + exists "passport".
      split; [simpl; auto | split; [discriminate | reflexivity]].
    + exists type. split; [exact Hmiss | exact Hrun].
Defined.

(** * Further properties *)

(** ** Splitting and joining *)

Lemma split_aux_no_sep (sep cur s : string) :
  PyStr.contains sep s = false ->
  PyStr.split_aux sep 0 cur s = [(cur ++ s)%string].
Proof.
  revert cur. induction s as [| c s IH]; intros cur H;
    cbn [PyStr.split_aux PyStr.contains] in *.
  - now rewrite string_append_nil_r.
  - apply orb_false_iff in H. destruct H as [Hp Hc].
    rewrite Hp, (IH _ Hc), string_append_assoc. reflexivity.
Qed.

Lemma clean_sep_one (a : ascii) : clean_sep (String a "").
Proof.
  intros cur x. revert cur. induction x as [| c x IH]; intros cur rest H.
  - cbn [append PyStr.split_aux prefix String.length Nat.sub].
    destruct (ascii_dec a a) as [_ | N]; [| congruence].
    rewrite prefix_empty, string_append_nil_r. reflexivity.
  - cbn [PyStr.contains] in H. apply orb_false_iff in H. destruct H as [Hp Hc].
    cbn [append PyStr.split_aux].
    assert (Hq : prefix (String a "") (String c (x ++ String a "" ++ rest)) = false).
    { cbn [prefix] in *. destruct (ascii_dec a c); [| reflexivity].
      now rewrite prefix_empty in Hp. }
    cbn [append] in Hq. rewrite Hq.
    rewrite (IH _ rest Hc), string_append_assoc. reflexivity.
Qed.

Lemma clean_sep_two (a b : ascii) : a <> b -> clean_sep (String a (String b "")).
Proof.
  intros Hab cur x. revert cur. induction x as [| c x IH]; intros cur rest H.
  - cbn [append PyStr.split_aux prefix String.length Nat.sub].
    destruct (ascii_dec a a) as [_ | N]; [| congruence].
    destruct (ascii_dec b b) as [_ | N]; [| congruence].
    rewrite prefix_empty, string_append_nil_r. reflexivity.
  - cbn [PyStr.contains] in H. apply orb_false_iff in H. destruct H as [Hp Hc].
    cbn [append PyStr.split_aux].
    assert (Hq : prefix (String a (String b ""))
                   (String c (x ++ String a (String b "") ++ rest)) = false).
    { cbn [prefix] in *. destruct (ascii_dec a c); [| reflexivity].
      destruct x as [| d x]; cbn [append prefix] in *.
      - destruct (ascii_dec b a); [congruence | reflexivity].
      - destruct (ascii_dec b d); [| reflexivity].
        now rewrite prefix_empty in Hp. }
    cbn [append] in Hq. rewrite Hq.
    rewrite (IH _ rest Hc), string_append_assoc. reflexivity.
Qed.

Lemma clean_sep_NL : clean_sep NL.
Proof. apply clean_sep_one. Qed.

Lemma clean_sep_space : clean_sep " ".
Proof. apply clean_sep_one. Qed.

Lemma clean_sep_colon : clean_sep ": ".
Proof. apply clean_sep_two. discriminate. Qed.

Lemma clean_sep_comma : clean_sep ", ".
Proof. apply clean_sep_two. discriminate. Qed.

(** Splitting what was joined gives the pieces back. *)
Lemma split_of_join (sep : string) (l : list string) :
  clean_sep sep -> l <> [] ->
  (forall x, In x l -> PyStr.contains sep x = false) ->
  PyStr.split sep (PyStr.join sep l) = l.
Proof.
  intros Hsep Hne Hl. unfold PyStr.split.
  induction l as [| x l IH]; [congruence |].
  destruct l as [| y l].
  - simpl. rewrite split_aux_no_sep by (apply Hl; now left). reflexivity.
  - rewrite join_cons by discriminate.
    rewrite Hsep by (apply Hl; now left).
    rewrite IH; [reflexivity | discriminate |].
    intros z Hz. apply Hl. now right.
Qed.

(** A text that ends with a one-character separator has an empty last
    piece. *)
Lemma split_trailing (a : ascii) (cur s : string) :
  PyStr.split_aux (String a "") 0 cur (s ++ String a "")%string
  = PyStr.split_aux (String a "") 0 cur s ++ [EmptyString].
Proof.
  revert cur. induction s as [| c s IH]; intros cur.
  - cbn [append PyStr.split_aux prefix String.length Nat.sub].
    destruct (ascii_dec a a) as [_ | N]; [| congruence]. reflexivity.
  - cbn [append PyStr.split_aux String.length Nat.sub].
    assert (Hq : prefix (String a "") (String c (s ++ String a ""))
                 = prefix (String a "") (String c s)).
    { cbn [prefix]. destruct (ascii_dec a c); [| reflexivity].
      now rewrite !prefix_empty. }
    rewrite Hq. destruct (prefix (String a "") (String c s)).
    + rewrite IH. reflexivity.
    + apply IH.
Qed.

Lemma contains_append_one (a : ascii) (x y : string) :
  PyStr.contains (String a "") x = false ->
  PyStr.contains (String a "") y = false ->
  PyStr.contains (String a "") (x ++ y)%string = false.
Proof.
  intros Hx Hy. induction x as [| c x IH]; [exact Hy |].
  cbn [PyStr.contains append] in *.
  apply orb_false_iff in Hx. destruct Hx as [Hp Hc].
  apply orb_false_iff. split; [| now apply IH].
  cbn [prefix] in *. destruct (ascii_dec a c); [| reflexivity].
  now rewrite prefix_empty in Hp.
Qed.

(** ** [parse_document] on the text of a field map *)

Lemma split_render_line (kv : string * string) :
  clean_pair kv ->
  PyStr.split ": " (PyStr.strip (render_line kv)) = [fst kv; snd kv].
Proof.
  intros [Hk [Hv [_ [_ Hs]]]]. rewrite Hs. unfold render_line, PyStr.split.
  rewrite clean_sep_colon by exact Hk.
  rewrite split_aux_no_sep by exact Hv. reflexivity.
Qed.

Lemma parse_entries_render (pairs : list (string * string)) (parsed : Document) :
  Forall clean_pair pairs ->
  parse_entries (map render_line pairs) parsed = Ok (assign_all pairs parsed).
Proof.
  intros H. revert parsed. induction H as [| kv pairs Hkv _ IH]; intros parsed.
  - reflexivity.
  - cbn [map parse_entries]. rewrite (split_render_line kv Hkv). apply IH.
Qed.

Lemma render_line_no_newline (kv : string * string) :
  clean_pair kv -> PyStr.contains NL (render_line kv) = false.
Proof.
  intros [_ [_ [Hk [Hv _]]]]. unfold render_line.
  apply contains_append_one; [exact Hk |].
  apply contains_append_one; [reflexivity | exact Hv].
Qed.

Lemma lines_of_render (pairs : list (string * string)) :
  pairs <> [] -> Forall clean_pair pairs ->
  PyStr.split NL (render pairs) = map render_line pairs.
Proof.
  intros Hne H. unfold render. apply split_of_join.
  - exact clean_sep_NL.
  - destruct pairs; [congruence | discriminate].
  - intros x Hx. apply in_map_iff in Hx. destruct Hx as [kv [<- Hin]].
    apply render_line_no_newline. rewrite Forall_forall in H. now apply H.
Qed.

Lemma get_absent {V : Type} (k : string) (d : list (string * V)) :
  ~ In k (map fst d) -> PyDict.get String.eqb k d = None.
Proof.
  induction d as [| [k' v] d IH]; simpl; [reflexivity |].
  intros H. destruct (String.eqb k k') eqn:E.
  - apply String.eqb_eq in E. exfalso. apply H. now left.
  - apply IH. intros Hin. apply H. now right.
Qed.

Lemma assign_all_fresh (pairs : list (string * string)) (d : Document) :
  NoDup (map fst (d ++ pairs)) -> assign_all pairs d = d ++ pairs.
Proof.
  revert d. induction pairs as [| [k v] pairs IH]; intros d H.
  - simpl. now rewrite app_nil_r.
  - cbn [assign_all fold_left fst snd].
    assert (Hk : PyDict.get String.eqb k d = None).
    { apply get_absent. rewrite map_app in H. apply NoDup_remove_2 in H.
      intros Hin. apply H. apply in_or_app. now left. }
    rewrite (set_absent String.eqb k v d Hk).
    fold (assign_all pairs (d ++ [(k, v)])).
    rewrite IH; rewrite <- app_assoc; [reflexivity | exact H].
Qed.

Lemma get_assign_all (k : string) (pairs : list (string * string)) (d : Document) :
  PyDict.get String.eqb k (assign_all pairs d)
  = match PyDict.get String.eqb k (rev pairs) with
    | Some v => Some v
    | None => PyDict.get String.eqb k d
    end.
Proof.
  revert d. induction pairs as [| [k0 v0] pairs IH]; intros d.
  - reflexivity.
  - cbn [assign_all fold_left fst snd].
    fold (assign_all pairs (PyDict.set String.eqb k0 v0 d)).
    rewrite IH. cbn [rev]. rewrite get_app.
    destruct (PyDict.get String.eqb k (rev pairs)); [reflexivity |].
    simpl. destruct (String.eqb k k0) eqn:E.
    + apply String.eqb_eq in E. subst k0.
      apply (get_set_same String.eqb string_eqb_eq).
    + apply (get_set_other String.eqb string_eqb_eq).
      intros ->. now rewrite String.eqb_refl in E.
Qed.

(** X1. Round trip: the text that writes each field of a non-empty field
    map with distinct keys as a line [KEY: value] parses back to that field
    map, fields in the order of the lines. *)
Theorem parse_document_round_trip (pairs : list (string * string)) :
  pairs <> [] ->
  Forall clean_pair pairs ->
  NoDup (map fst pairs) ->
  parse_document (render pairs) = Ok pairs.
Proof.
  intros Hne Hc Hnd. unfold parse_document.
  rewrite (lines_of_render pairs Hne Hc), (parse_entries_render pairs [] Hc).
  now rewrite (assign_all_fresh pairs []).
Qed.

Lemma parse_document_round_trip_witness :
  let pairs := [("NAME", "Doe, John"); ("DOB", "1933.11.28"); ("EXP", "1983.07.10")] in
  pairs <> []
  /\ Forall clean_pair pairs
  /\ NoDup (map fst pairs)
  /\ parse_document
       ("NAME: Doe, John" ++ NL ++ "DOB: 1933.11.28" ++ NL ++ "EXP: 1983.07.10")%string
     = Ok pairs.
Proof.
  cbv zeta.
  assert (Hne : [("NAME", "Doe, John"); ("DOB", "1933.11.28"); ("EXP", "1983.07.10")]
                <> @nil (string * string)) by discriminate.
  assert (Hc : Forall clean_pair
                 [("NAME", "Doe, John"); ("DOB", "1933.11.28"); ("EXP", "1983.07.10")])
    by (repeat constructor).
  assert (Hnd : NoDup (map fst
                  [("NAME", "Doe, John"); ("DOB", "1933.11.28"); ("EXP", "1983.07.10")])).
  { simpl. repeat constructor; simpl; intuition discriminate. }
  split; [exact Hne | split; [exact Hc | split; [exact Hnd |]]].
  exact (parse_document_round_trip _ Hne Hc Hnd).
Defined.

(** X2. When the lines of a document repeat a key, the document parses and
    the key has the value of its last line: the field map gives for every
    key what the lines, read from the last to the first, give first. *)
Theorem parse_document_last_line_wins (pairs : list (string * string)) :
  pairs <> [] ->
  Forall clean_pair pairs ->
  exists parsed,
    parse_document (render pairs) = Ok parsed
    /\ forall key,
        PyDict.get String.eqb key parsed = PyDict.get String.eqb key (rev pairs).
Proof.
  intros Hne Hc. exists (assign_all pairs []). split.
  - unfold parse_document.
    now rewrite (lines_of_render pairs Hne Hc), (parse_entries_render pairs [] Hc).
  - intros key. rewrite get_assign_all.
    now destruct (PyDict.get String.eqb key (rev pairs)).
Qed.

Lemma parse_document_last_line_wins_witness :
  let pairs := [("SEX", "M"); ("ID#", "A1"); ("SEX", "F")] in
  pairs <> []
  /\ Forall clean_pair pairs
  /\ exists parsed,
      parse_document ("SEX: M" ++ NL ++ "ID#: A1" ++ NL ++ "SEX: F")%string = Ok parsed
      /\ PyDict.get String.eqb "SEX" parsed = Some "F".
Proof.
  cbv zeta.
  assert (Hne : [("SEX", "M"); ("ID#", "A1"); ("SEX", "F")]
                <> @nil (string * string)) by discriminate.
  assert (Hc : Forall clean_pair [("SEX", "M"); ("ID#", "A1"); ("SEX", "F")])
    by (repeat constructor).
  split; [exact Hne | split; [exact Hc |]].
  destruct (parse_document_last_line_wins _ Hne Hc) as [parsed [Hp Hg]].
  exists parsed. split; [exact Hp |]. rewrite Hg. reflexivity.
Defined.


(** ** The documents of a parsed entrant *)

Lemma lower_char_idempotent (c : ascii) :
  PyStr.lower_char (PyStr.lower_char c) = PyStr.lower_char c.
Proof. destruct c as [[] [] [] [] [] [] [] []]; reflexivity. Qed.

Lemma lower_idempotent (s : string) : PyStr.lower (PyStr.lower s) = PyStr.lower s.
Proof.
  induction s as [| c s IH]; simpl; [reflexivity |].
  now rewrite lower_char_idempotent, IH.
Qed.

Lemma lower_char_underscore (c : ascii) :
  PyStr.lower_char c = "_"%char -> c = "_"%char.
Proof.
  destruct c as [[] [] [] [] [] [] [] []]; vm_compute; intros H;
    first [reflexivity | discriminate H].
Qed.

Lemma prefix_one (a c : ascii) (s : string) :
  prefix (String a "") (String c s) = if ascii_dec a c then true else false.
Proof. cbn [prefix]. destruct (ascii_dec a c); [apply prefix_empty | reflexivity]. Qed.

Lemma replace_no_underscore (s : string) :
  PyStr.contains "_" (PyStr.replace "_" " " s) = false.
Proof.
  unfold PyStr.replace. induction s as [| c s IH]; [reflexivity |].
  cbn [PyStr.replace_aux String.length Nat.sub]. rewrite prefix_one.
  destruct (ascii_dec "_" c) as [E | N].
  - cbn [append PyStr.contains]. rewrite prefix_one, IH. reflexivity.
  - cbn [PyStr.contains]. rewrite prefix_one, IH.
    destruct (ascii_dec "_" c); [contradiction | reflexivity].
Qed.

Lemma lower_no_underscore (s : string) :
  PyStr.contains "_" s = false -> PyStr.contains "_" (PyStr.lower s) = false.
Proof.
  induction s as [| c s IH]; [reflexivity |].
  cbn [PyStr.contains PyStr.lower]. rewrite !prefix_one.
  intros H. apply orb_false_iff in H. destruct H as [Hp Hc].
  rewrite (IH Hc).
  destruct (ascii_dec "_" (PyStr.lower_char c)) as [E | N]; [| reflexivity].
  symmetry in E. apply lower_char_underscore in E. subst c.
  destruct (ascii_dec "_" "_"); [discriminate | contradiction].
Qed.

Lemma replace_absent (s : string) :
  PyStr.contains "_" s = false -> PyStr.replace "_" " " s = s.
Proof.
  unfold PyStr.replace. induction s as [| c s IH]; [reflexivity |].
  cbn [PyStr.contains PyStr.replace_aux String.length Nat.sub].
  intros H. apply orb_false_iff in H. destruct H as [Hp Hc].
  rewrite Hp, (IH Hc). reflexivity.
Qed.

Lemma normalise_normal (title : string) :
  PyStr.contains "_" (normalise title) = false
  /\ PyStr.lower (normalise title) = normalise title
  /\ PyStr.replace "_" " " (normalise title) = normalise title.
Proof.
  assert (H : PyStr.contains "_" (normalise title) = false)
    by (apply lower_no_underscore, replace_no_underscore).
  split; [exact H | split].
  - apply lower_idempotent.
  - now apply replace_absent.
Qed.

Lemma keys_set {V : Type} (k : string) (v : V) (d : list (string * V)) :
  PyDict.keys (PyDict.set String.eqb k v d)
  = if PyDict.has String.eqb k d then PyDict.keys d else PyDict.keys d ++ [k].
Proof.
  unfold PyDict.keys, PyDict.has.
  induction d as [| [k' v'] d IH]; simpl; [reflexivity |].
  destruct (String.eqb k k'); simpl; [reflexivity |].
  rewrite IH. now destruct (PyDict.get String.eqb k d).
Qed.

Lemma has_keys {V : Type} (k : string) (d : list (string * V)) :
  PyDict.has String.eqb k d = true <-> In k (PyDict.keys d).
Proof.
  unfold PyDict.has, PyDict.keys.
  induction d as [| [k' v'] d IH]; simpl; [split; [discriminate | tauto] |].
  destruct (String.eqb k k') eqn:E.
  - apply String.eqb_eq in E. subst k'. split; auto.
  - rewrite IH. split; [auto | intros [H | H]; [| exact H]].
    subst k'. now rewrite String.eqb_refl in E.
Qed.

Lemma parse_entrant_loop_titles (items : list (string * string))
  (documents result : Documents) :
  parse_entrant_loop items documents = Ok result ->
  (NoDup (PyDict.keys documents) -> NoDup (PyDict.keys result))
  /\ (forall title,
         In title (PyDict.keys result) <->
         In title (PyDict.keys documents)
         \/ exists t, In t (PyDict.keys items) /\ title = normalise t).
Proof.
  revert documents. induction items as [| [t body] items IH]; intros documents; simpl.
  - intros [= ->]. split; [auto |]. intros title. split; [auto |].
    intros [H | [t [[] _]]]. exact H.
  - destruct (parse_document body) as [e | parsed]; [discriminate |].
    intros Hp. destruct (IH _ Hp) as [Hnd Hin]. fold (normalise t) in *.
    rewrite keys_set in Hnd, Hin.
    destruct (PyDict.has String.eqb (normalise t) documents) eqn:Eh.
    + split; [exact Hnd |]. intros title. rewrite Hin. split.
      * intros [H | [t' [H1 H2]]]; [now left | right; exists t'; auto].
      * intros [H | [t' [[<- | H1] H2]]].
        -- now left.
        -- left. subst title. now apply has_keys.
        -- right. exists t'. auto.
    + split.
      * intros H. apply Hnd. apply NoDup_app; [exact H | repeat constructor; simpl; tauto |].
        intros a Ha [<- | []].
        apply has_keys in Ha. congruence.
      * intros title. rewrite Hin, in_app_iff. simpl. split.
        -- intros [[H | [<- | []]] | [t' [H1 H2]]].
           ++ now left.
           ++ right. exists t. auto.
           ++ right. exists t'. auto.
        -- intros [H | [t' [[<- | H1] H2]]].
           ++ left. now left.
           ++ left. right. left. now symmetry.
           ++ right. exists t'. auto.
Qed.

(** X4. The documents of an entrant that parses are filed under normalised
    titles: each title of the entrant, with [_] turned into a space and in
    lower case, and no other; a normalised title has no [_] and is in lower
    case, so that the [replace] applied to an expired title changes
    nothing; and no title is filed twice. *)
Theorem parse_entrant_titles (entrant : list (string * string))
  (documents : Documents) :
  parse_entrant entrant = Ok documents ->
  NoDup (PyDict.keys documents)
  /\ (forall title,
         In title (PyDict.keys documents) <->
         exists t, In t (PyDict.keys entrant) /\ title = normalise t)
  /\ (forall title,
         In title (PyDict.keys documents) ->
         PyStr.contains "_" title = false
         /\ PyStr.lower title = title
         /\ PyStr.replace "_" " " title = title).
Proof.
  intros Hp. destruct (parse_entrant_loop_titles entrant [] documents Hp) as [Hnd Hin].
  assert (Hk : forall title,
             In title (PyDict.keys documents) <->
             exists t, In t (PyDict.keys entrant) /\ title = normalise t).
  { intros title. rewrite Hin. simpl. tauto. }
  split; [apply Hnd; constructor | split; [exact Hk |]].
  intros title Ht. apply Hk in Ht. destruct Ht as [t [_ ->]].
  apply normalise_normal.
Qed.

Lemma parse_entrant_titles_witness :
  let entrant := [("ID_card", "NAME: Doe, John"); ("Work_Pass", "NAME: Doe, John")] in
  let documents :=
    [("id card", [("NAME", "Doe, John")]); ("work pass", [("NAME", "Doe, John")])] in
  parse_entrant entrant = Ok documents
  /\ NoDup (PyDict.keys documents)
  /\ (In "work pass" (PyDict.keys documents) ->
      PyStr.replace "_" " " "work pass" = "work pass").
Proof.
  cbv zeta.
  assert (Hp : parse_entrant
                 [("ID_card", "NAME: Doe, John"); ("Work_Pass", "NAME: Doe, John")]
               = Ok [("id card", [("NAME", "Doe, John")]);
                     ("work pass", [("NAME", "Doe, John")])]) by reflexivity.
  destruct (parse_entrant_titles _ _ Hp) as [Hnd [_ Hn]].
  split; [exact Hp | split; [exact Hnd |]].
  intros Hin. exact (proj2 (proj2 (Hn "work pass" Hin))).
Defined.

(** X5. In the documents of an entrant that parses no field has the empty
    string for value.  So the truth tests on [NAME] and [NATION] values
    never pass over a field that is there: [get_name] and
    [get_nationality] return the value of the first document that has the
    field, and [None] only when no document has it. *)
Theorem parsed_fields_are_first_values (entrant : list (string * string))
  (documents : Documents) :
  parse_entrant entrant = Ok documents ->
  (forall title document key value,
      In (title, document) documents ->
      PyDict.get String.eqb key document = Some value ->
      value <> EmptyString)
  /\ get_name documents = first_value "NAME" documents
  /\ get_nationality documents = first_value "NATION" documents
  /\ (get_nationality documents = None <->
      forall title document,
        In (title, document) documents ->
        PyDict.get String.eqb "NATION" document = None).
Proof.
  intros Hp. pose proof (parse_entrant_well_parsed _ _ Hp) as Hw.
  split; [exact Hw | split; [now apply get_name_first | split]].
  - now apply get_nationality_first.
  - rewrite (get_nationality_first _ Hw). split.
    + intros Hn title document Hin.
      clear Hp Hw. induction documents as [| [t d] documents IH]; [destruct Hin |].
      simpl in Hn. destruct (PyDict.get String.eqb "NATION" d) eqn:E; [discriminate |].
      destruct Hin as [[= <- <-] | Hin]; [exact E | now apply IH].
    + apply first_value_none.
Qed.

Lemma parsed_fields_are_first_values_witness :
  let entrant :=
    [("passport", "NAME: Doe, John");
     ("access_permit", ("NAME: Doe, John" ++ NL ++ "NATION: Impor")%string)] in
  (exists documents, parse_entrant entrant = Ok documents
                     /\ get_nationality documents = Some "Impor").
Proof.
  cbv zeta.
  exists [("passport", [("NAME", "Doe, John")]);
          ("access permit", [("NAME", "Doe, John"); ("NATION", "Impor")])].
  assert (Hp : parse_entrant
                 [("passport", "NAME: Doe, John");
                  ("access_permit", ("NAME: Doe, John" ++ NL ++ "NATION: Impor")%string)]
               = Ok [("passport", [("NAME", "Doe, John")]);
                     ("access permit", [("NAME", "Doe, John"); ("NATION", "Impor")])])
    by reflexivity.
  split; [exact Hp |].
  destruct (parsed_fields_are_first_values _ _ Hp) as [_ [_ [Hn _]]].
  rewrite Hn. reflexivity.
Defined.

(** ** [check_mismatches] *)

Lemma check_mismatches_agree (documents : Documents) (fields : list string) :
  (forall g, In g fields -> agree documents g) ->
  check_mismatches documents fields = [].
Proof.
  induction fields as [| g fields IH]; intros H; simpl; [reflexivity |].
  rewrite (size_agree documents g) by (apply H; now left).
  apply IH. intros g' Hg'. apply H. now right.
Qed.

Lemma check_mismatches_In (documents : Documents) (fields : list string)
  (field : string) (values : PySet.t) :
  In (field, values) (check_mismatches documents fields) <->
  In field fields /\ disagree documents field
  /\ values = field_values documents field.
Proof.
  induction fields as [| g fields IH]; simpl; [tauto |].
  destruct (1 <? PySet.size (field_values documents g))%nat eqn:E.
  - simpl. rewrite IH. split.
    + intros [[= <- <-] | [H1 H2]]; [| tauto].
      split; [now left | split; [now apply disagree_of_size | reflexivity]].
    + intros [[<- | H1] [H2 ->]]; [now left | right; tauto].
  - rewrite IH. split; [tauto |].
    intros [[<- | H1] [H2 H3]]; [| tauto].
    rewrite (size_disagree _ _ H2) in E. discriminate.
Qed.

(** X6. [check_mismatches] reports a field exactly when it is one of the
    fields asked for and two documents give it different values, with
    the set of the values the documents give it; an entrant with no
    document or with one document has no mismatch. *)
Theorem check_mismatches_reports (documents : Documents) (fields : list string) :
  (forall field values,
      In (field, values) (check_mismatches documents fields) <->
      In field fields /\ disagree documents field
      /\ values = field_values documents field)
  /\ (forall field value,
         In value (field_values documents field) <-> carries documents field value)
  /\ (List.length documents <= 1 -> check_mismatches documents fields = []).
Proof.
  split; [apply check_mismatches_In | split; [apply field_values_In |]].
  intros Hlen. apply check_mismatches_agree. intros g _ v1 v2 H1 H2.
  destruct documents as [| [t d] [| td documents]]; simpl in Hlen; [| | lia].
  - destruct H1 as [t1 [d1 [[] _]]].
  - destruct H1 as [t1 [d1 [[[= <- <-] | []] G1]]].
    destruct H2 as [t2 [d2 [[[= <- <-] | []] G2]]]. congruence.
Qed.

(** ** The category an inspection inserts *)

Lemma grows_by_refl (k : option string) (d : PolicyMap) : grows_by k d d.
Proof. now left. Qed.

Lemma grows_by_trans (k : option string) (a b c : PolicyMap) :
  grows_by k a b -> grows_by k b c -> grows_by k a c.
Proof.
  intros [-> | [Ha ->]] [-> | [Hb ->]].
  - now left.
  - right. auto.
  - right. auto.
  - exfalso. rewrite get_app, Ha in Hb. simpl in Hb.
    rewrite (keq_refl key_eqb key_eqb_eq) in Hb. discriminate.
Qed.

Lemma grows_by_getitem (k : option string) (d : PolicyMap) :
  grows_by k d (snd (default_getitem k d)).
Proof.
  unfold default_getitem. destruct (PyDict.get key_eqb k d) eqn:E; simpl.
  - now left.
  - right. split; [exact E | now apply set_absent].
Qed.

Lemma same_policy_but_refl (k : option string) (a : Inspector) :
  same_policy_but k a a.
Proof. repeat split; apply grows_by_refl. Qed.

Lemma same_policy_but_trans (k : option string) (a b c : Inspector) :
  same_policy_but k a b -> same_policy_but k b c -> same_policy_but k a c.
Proof.
  intros [A1 [A2 [A3 [A4 A5]]]] [B1 [B2 [B3 [B4 B5]]]].
  repeat split; try congruence; eapply grows_by_trans; eassumption.
Qed.

Lemma frame_but_ret {A} (k : option string) (a : A) : frame_but k (ret a).
Proof. intros self. apply same_policy_but_refl. Qed.

Lemma frame_but_lift {A} (k : option string) (r : result A) : frame_but k (lift r).
Proof. intros self. apply same_policy_but_refl. Qed.

Lemma frame_but_attr {A} (k : option string) (field : Inspector -> A) :
  frame_but k (attr field).
Proof. intros self. apply same_policy_but_refl. Qed.

Lemma frame_but_bind {A B} (k : option string) (m : M A) (f : A -> M B) :
  frame_but k m -> (forall a, frame_but k (f a)) -> frame_but k (bind m f).
Proof.
  intros Hm Hf self. specialize (Hm self). unfold bind.
  destruct (m self) as [[e | a] self']; simpl in *; [exact Hm |].
  eapply same_policy_but_trans; [exact Hm | apply Hf].
Qed.

Lemma frame_but_getitem_documents (k : option string) :
  frame_but k (required_documents_getitem k).
Proof.
  intros self. unfold required_documents_getitem.
  pose proof (grows_by_getitem k (required_documents self)) as H.
  destruct (default_getitem k (required_documents self)) as [v d]. simpl in *.
  repeat split; [exact H | apply grows_by_refl].
Qed.

Lemma frame_but_getitem_vaccinations (k : option string) :
  frame_but k (required_vaccinations_getitem k).
Proof.
  intros self. unfold required_vaccinations_getitem.
  pose proof (grows_by_getitem k (required_vaccinations self)) as H.
  destruct (default_getitem k (required_vaccinations self)) as [v d]. simpl in *.
  repeat split; [apply grows_by_refl | exact H].
Qed.

Ltac frame_but_step :=
  first
    [ apply frame_but_ret
    | apply frame_but_lift
    | apply frame_but_attr
    | apply frame_but_getitem_documents
    | apply frame_but_getitem_vaccinations
    | apply frame_but_bind; [| intros ?]
    | match goal with
      | |- frame_but _ (match ?x with _ => _ end) => destruct x
      end ].

Section InsertedCategory.
Context {ord : SetOrder}.

Lemma frame_but_inspect_documents (documents : Documents) :
  frame_but (resolved_nationality documents) (inspect_documents documents).
Proof.
  unfold inspect_documents, resolved_nationality. cbv zeta.
  generalize (if truthy (get_nationality documents)
              then option_map PyStr.lower (get_nationality documents)
              else get_nationality documents).
  intros nationality.
  unfold check_access_permits, check_vaccinations. cbv zeta.
  destruct (check_mismatches documents MISMATCH_FIELDS); [| repeat frame_but_step].
  apply frame_but_bind; [apply frame_but_attr | intros wanted].
  destruct (mem_value (get_name documents) wanted); [apply frame_but_ret |].
  apply frame_but_bind.
  { destruct nationality; [apply frame_but_getitem_documents | repeat frame_but_step]. }
  intros required. repeat frame_but_step.
Qed.

Lemma frame_but_inspect (entrant : list (string * string)) (self : Inspector) :
  match parse_entrant entrant with
  | inr documents =>
      same_policy_but (resolved_nationality documents) self
        (snd (inspect entrant self))
  | inl e => inspect entrant self = (Err e, self)
  end.
Proof.
  destruct (parse_entrant entrant) as [e | documents] eqn:Hp.
  - unfold inspect, bind, lift. now rewrite Hp.
  - rewrite (inspect_parsed _ _ _ Hp). apply frame_but_inspect_documents.
Qed.

(** X7. An inspection changes the policy state in one way at most: to each
    of [required_documents] and [required_vaccinations] it may append the
    nationality it resolved for the entrant (the first [NATION] value in
    lower case, or [None]), absent before, with the empty set.  An
    inspection of an entrant that does not parse changes nothing. *)
Theorem inspect_inserts_nationality (entrant : list (string * string))
  (self : Inspector) :
  match parse_entrant entrant with
  | inr documents =>
      same_policy_but (resolved_nationality documents) self
        (snd (inspect entrant self))
  | inl e => inspect entrant self = (Err e, self)
  end.
Proof. exact (frame_but_inspect entrant self). Qed.

End InsertedCategory.

(** ** Names are stored in lower case *)

Lemma In_set_key {V : Type} (k : option string) (v : V)
  (d : list (option string * V)) (k0 : option string) (v0 : V) :
  In (k0, v0) (PyDict.set key_eqb k v d) -> k0 = k \/ In (k0, v0) d.
Proof.
  induction d as [| [k' v'] d IH]; simpl.
  - intros [[= <- <-] | []]. now left.
  - destruct (key_eqb k k') eqn:E; simpl.
    + apply key_eqb_eq in E. subst k'.
      intros [[= <- <-] | H]; [now left | right; now right].
    + intros [H | H]; [right; now left |].
      destruct (IH H) as [H' | H']; [now left | right; now right].
Qed.

Lemma lowered_map_set (k : option string) (v : PySet.t) (d : PolicyMap) :
  lowered_key k -> lowered_map d -> lowered_map (PyDict.set key_eqb k v d).
Proof.
  intros Hk Hd k0 s0 Hin. apply In_set_key in Hin.
  destruct Hin as [-> | Hin]; [exact Hk | exact (Hd _ _ Hin)].
Qed.

Lemma lowered_map_getitem (k : option string) (d : PolicyMap) :
  lowered_key k -> lowered_map d -> lowered_map (snd (default_getitem k d)).
Proof.
  intros Hk Hd. unfold default_getitem.
  destruct (PyDict.get key_eqb k d); simpl; [exact Hd | now apply lowered_map_set].
Qed.

Lemma lowered_map_add (k : option string) (x : string) (d : PolicyMap) :
  lowered_key k -> lowered_map d -> lowered_map (snd (default_add k x d)).
Proof.
  intros Hk Hd. unfold default_add.
  pose proof (lowered_map_getitem k d Hk Hd) as H.
  destruct (default_getitem k d) as [s d']. simpl in *.
  now apply lowered_map_set.
Qed.

Lemma lowered_map_remove (k : option string) (x : string) (d : PolicyMap) :
  lowered_key k -> lowered_map d -> lowered_map (snd (default_remove k x d)).
Proof.
  intros Hk Hd. unfold default_remove.
  pose proof (lowered_map_getitem k d Hk Hd) as H.
  destruct (default_getitem k d) as [s d']. simpl in *.
  destruct (PySet.mem x s); simpl; [now apply lowered_map_set | exact H].
Qed.

Lemma lowered_key_lower (c : string) : lowered_key (Some (PyStr.lower c)).
Proof. apply lower_idempotent. Qed.

Lemma lowered_resolved_nationality (documents : Documents) :
  lowered_key (resolved_nationality documents).
Proof.
  unfold resolved_nationality.
  destruct (get_nationality documents) as [n |]; simpl; [| exact I].
  destruct n as [| a n]; [reflexivity | exact (lower_idempotent (String a n))].
Qed.

Lemma lowered_map_grows_by (k : option string) (d d' : PolicyMap) :
  lowered_key k -> grows_by k d d' -> lowered_map d -> lowered_map d'.
Proof.
  intros Hk [-> | [_ ->]] Hd; [exact Hd |].
  intros k0 s0 Hin. apply in_app_or in Hin.
  destruct Hin as [Hin | [[= <- <-] | []]]; [exact (Hd _ _ Hin) | exact Hk].
Qed.

Section LoweredFacts.
Context {ord : SetOrder}.

Lemma keeps_bind {A B} (P : Inspector -> Prop) (m : M A) (f : A -> M B) :
  keeps P m -> (forall a, keeps P (f a)) -> keeps P (bind m f).
Proof.
  intros Hm Hf self H. specialize (Hm self H). unfold bind.
  destruct (m self) as [[e | a] self']; simpl in *; [exact Hm | now apply Hf].
Qed.

Lemma keeps_ret {A} (P : Inspector -> Prop) (a : A) : keeps P (ret a).
Proof. intros self H. exact H. Qed.

Lemma keeps_raise {A} (P : Inspector -> Prop) (e : exn) : keeps P (@raise A e).
Proof. intros self H. exact H. Qed.

Lemma keeps_attr {A} (P : Inspector -> Prop) (field : Inspector -> A) :
  keeps P (attr field).
Proof. intros self H. exact H. Qed.

Lemma keeps_lowered_on_documents (f : PolicyMap -> result unit * PolicyMap) :
  (forall d, lowered_map d -> lowered_map (snd (f d))) ->
  keeps lowered (on_required_documents f).
Proof.
  intros Hf self [H1 [H2 H3]]. rewrite on_required_documents_run. simpl.
  split; [exact H1 | split; [now apply Hf | exact H3]].
Qed.

Lemma keeps_lowered_on_vaccinations (f : PolicyMap -> result unit * PolicyMap) :
  (forall d, lowered_map d -> lowered_map (snd (f d))) ->
  keeps lowered (on_required_vaccinations f).
Proof.
  intros Hf self [H1 [H2 H3]]. rewrite on_required_vaccinations_run. simpl.
  split; [exact H1 | split; [exact H2 | now apply Hf]].
Qed.

Lemma keeps_lowered_loops (categories : list string) (x : string) :
  keeps lowered (require_documents categories x)
  /\ keeps lowered (require_vaccinations categories x)
  /\ keeps lowered (unrequire_documents categories x)
  /\ keeps lowered (unrequire_vaccinations categories x).
Proof.
  induction categories as [| c categories [I1 [I2 [I3 I4]]]]; simpl.
  - split; [| split; [| split]]; apply keeps_ret.
  - split; [| split; [| split]]; (apply keeps_bind; [| intros _; assumption]).
    + apply keeps_lowered_on_documents. intros d.
      apply lowered_map_add, lowered_key_lower.
    + apply keeps_lowered_on_vaccinations. intros d.
      apply lowered_map_add, lowered_key_lower.
    + apply keeps_lowered_on_documents. intros d.
      apply lowered_map_remove, lowered_key_lower.
    + apply keeps_lowered_on_vaccinations. intros d.
      apply lowered_map_remove, lowered_key_lower.
Qed.

Lemma keeps_lowered_allowed (f : PySet.t -> PySet.t) :
  (forall a, (forall c, In c a -> PyStr.lower c = c) ->
             forall c, In c (f a) -> PyStr.lower c = c) ->
  keeps lowered
    (allowed <- attr allowed_countries ;; assign set_allowed_countries (f allowed)).
Proof.
  intros Hf self [H1 [H2 H3]]. unfold bind, attr, assign. simpl.
  split; [now apply Hf | split; assumption].
Qed.

Lemma keeps_lowered_receive_entry (entry : string) :
  keeps lowered (receive_entry entry).
Proof.
  unfold receive_entry.
  generalize (expand (PyStr.strip entry)). intros s.
  destruct (keeps_lowered_loops
              (iter (categories_of s (PyStr.find " no longer require" s)))
              (requirement_of s)) as [_ [_ [U1 _]]].
  destruct (keeps_lowered_loops
              (iter (categories_of s (PyStr.find " no longer require" s)))
              (disease_of (requirement_of s))) as [_ [_ [_ U2]]].
  destruct (keeps_lowered_loops
              (iter (categories_of s (PyStr.find " require" s)))
              (requirement_of s)) as [R1 _].
  destruct (keeps_lowered_loops
              (iter (categories_of s (PyStr.find " require" s)))
              (disease_of (requirement_of s))) as [_ [R2 _]].
  repeat match goal with
         | |- context [if ?c then _ else _] => destruct c
         end;
    try assumption; try apply keeps_raise;
    try (intros self [H1 [H2 H3]]; repeat split; assumption).
  - apply keeps_lowered_allowed. intros a Ha c Hc.
    apply union_In in Hc. destruct Hc as [Hc | Hc]; [now apply Ha |].
    apply of_list_In, in_map_iff in Hc. destruct Hc as [x [<- _]].
    apply lower_idempotent.
  - apply keeps_lowered_allowed. intros a Ha c Hc.
    unfold PySet.difference in Hc. apply filter_In in Hc. now apply Ha.
  - destruct (PyStr.split " " _) as [| a [| b [| c l]]];
      try apply keeps_raise.
    intros self [H1 [H2 H3]]. repeat split; assumption.
Qed.

Lemma keeps_lowered_receive_bulletin (bulletin : string) :
  keeps lowered (receive_bulletin bulletin).
Proof.
  unfold receive_bulletin. induction (PyStr.split NL bulletin) as [| e l IH]; simpl.
  - apply keeps_ret.
  - apply keeps_bind; [apply keeps_lowered_receive_entry | intros _; exact IH].
Qed.

Lemma keeps_lowered_inspect (entrant : list (string * string)) :
  keeps lowered (inspect entrant).
Proof.
  intros self [H1 [H2 H3]].
  pose proof (frame_but_inspect entrant self) as H.
  destruct (parse_entrant entrant) as [e | documents].
  - rewrite H. repeat split; assumption.
  - destruct H as [G1 [_ [_ [G4 G5]]]].
    pose proof (lowered_resolved_nationality documents) as Hk.
    split; [now rewrite G1 | split].
    + exact (lowered_map_grows_by _ _ _ Hk G4 H2).
    + exact (lowered_map_grows_by _ _ _ Hk G5 H3).
Qed.

(** X8. Every country name in [allowed_countries] and every category of
    [required_documents] and [required_vaccinations] is in lower case, in
    every state an inspector goes through: a new inspector has this, and no
    bulletin and no inspection, failed or not, loses it. *)
Theorem stored_names_are_lowered (self : Inspector) :
  reachable self -> lowered self.
Proof.
  induction 1 as [| bulletin self _ IH | entrant self _ IH].
  - split; [| split].
    + intros c [<- | []]. reflexivity.
    + intros k s [].
    + intros k s [].
  - exact (keeps_lowered_receive_bulletin bulletin self IH).
  - exact (keeps_lowered_inspect entrant self IH).
Qed.

End LoweredFacts.

Lemma stored_names_are_lowered_witness :
  let self :=
    Examples.after_bulletin
      ("Allow citizens of Obristan, IMPOR" ++ NL
       ++ "Citizens of Kolechia require ID card")%string in
  reachable (ord := insertion_order) self
  /\ allowed_countries self = ["arstotzka"; "obristan"; "impor"]
  /\ PyDict.keys (required_documents self) = [Some "kolechia"]
  /\ lowered self.
Proof.
  cbv zeta.
  assert (Hr : reachable (ord := insertion_order)
                 (Examples.after_bulletin
                    ("Allow citizens of Obristan, IMPOR" ++ NL
                     ++ "Citizens of Kolechia require ID card")%string)).
  { unfold Examples.after_bulletin. apply reachable_bulletin, reachable_init. }
  split; [exact Hr | split; [reflexivity | split; [reflexivity |]]].
  exact (stored_names_are_lowered (ord := insertion_order) _ Hr).
Defined.

(** ** Lines that allow, deny and mark as wanted *)

Section LineFacts.
Context {ord : SetOrder}.

Lemma receive_entry_allow (line c : string) (self : Inspector) :
  PyStr.strip line = ("Allow citizens of " ++ c)%string ->
  PyStr.contains "Foreigners" c = false ->
  PyStr.contains "Entrants" c = false ->
  receive_entry line self
  = (Ok tt,
     set_allowed_countries
       (PySet.union (allowed_countries self)
          (PySet.of_list (map PyStr.lower (PyStr.split ", " c))))
       self).
Proof.
  intros Hs Hf He. unfold receive_entry. rewrite Hs.
  assert (Hx : expand ("Allow citizens of " ++ c)%string
               = ("Allow citizens of " ++ c)%string).
  { unfold expand.
    change (PyStr.contains "Foreigners" ("Allow citizens of " ++ c)%string)
      with (PyStr.contains "Foreigners" c).
    rewrite Hf.
    change (PyStr.contains "Entrants" ("Allow citizens of " ++ c)%string)
      with (PyStr.contains "Entrants" c).
    now rewrite He. }
  rewrite Hx.
  change (PyStr.startswith "Allow citizens of " ("Allow citizens of " ++ c)%string)
    with (prefix "" c).
  rewrite prefix_empty.
  rewrite (slice_from_append "Allow citizens of " c).
  reflexivity.
Qed.

(** X9. A line [Allow citizens of A, B, ...] is accepted and leaves in
    [allowed_countries] the countries that were there and the countries of
    the line in lower case, and nothing else; the rest of the policy is as
    it was. *)
Theorem allow_line (line countries : string) (self : Inspector) :
  PyStr.strip line = ("Allow citizens of " ++ countries)%string ->
  PyStr.contains "Foreigners" countries = false ->
  PyStr.contains "Entrants" countries = false ->
  let after := snd (receive_entry line self) in
  fst (receive_entry line self) = Ok tt
  /\ (forall c,
         In c (allowed_countries after) <->
         In c (allowed_countries self)
         \/ exists country,
             In country (PyStr.split ", " countries) /\ c = PyStr.lower country)
  /\ required_documents after = required_documents self
  /\ required_vaccinations after = required_vaccinations self
  /\ wanted_criminals after = wanted_criminals self
  /\ work_pass_required after = work_pass_required self.
Proof.
  intros Hs Hf He. rewrite (receive_entry_allow line countries self Hs Hf He).
  cbv zeta. simpl. repeat split; try reflexivity.
  - intros H. apply union_In in H. destruct H as [H | H]; [now left | right].
    apply of_list_In, in_map_iff in H. destruct H as [x [<- Hx]]. now exists x.
  - intros H. apply union_In. destruct H as [H | [x [Hx ->]]]; [now left | right].
    apply of_list_In, in_map_iff. now exists x.
Qed.

(** X10. A line [Deny citizens of A, B, ...] is accepted and leaves in
    [allowed_countries] the countries that were there other than those of
    the line in lower case, the home nation not excepted; the rest of the
    policy is as it was. *)
Theorem deny_line (line countries : string) (self : Inspector) :
  PyStr.strip line = ("Deny citizens of " ++ countries)%string ->
  PyStr.contains "Foreigners" countries = false ->
  PyStr.contains "Entrants" countries = false ->
  let after := snd (receive_entry line self) in
  fst (receive_entry line self) = Ok tt
  /\ (forall c,
         In c (allowed_countries after) <->
         In c (allowed_countries self)
         /\ ~ exists country,
               In country (PyStr.split ", " countries) /\ c = PyStr.lower country)
  /\ required_documents after = required_documents self
  /\ required_vaccinations after = required_vaccinations self
  /\ wanted_criminals after = wanted_criminals self
  /\ work_pass_required after = work_pass_required self.
Proof.
  intros Hs Hf He. rewrite (receive_entry_deny line countries self Hs Hf He).
  cbv zeta. simpl. repeat split; try reflexivity.
  - unfold PySet.difference in H. apply filter_In in H. tauto.
  - intros [x [Hx ->]].
    unfold PySet.difference in H. apply filter_In in H. destruct H as [_ H].
    apply negb_true_iff, mem_not_In in H. apply H.
    apply of_list_In, in_map_iff. now exists x.
  - intros [H1 H2]. unfold PySet.difference. apply filter_In. split; [exact H1 |].
    apply negb_true_iff, mem_not_In. intros H. apply H2.
    apply of_list_In, in_map_iff in H. destruct H as [x [<- Hx]]. now exists x.
Qed.

Lemma receive_entry_wanted (line name : string) (self : Inspector) :
  PyStr.strip line = ("Wanted by the State: " ++ name)%string ->
  PyStr.contains "Foreigners" name = false ->
  PyStr.contains "Entrants" name = false ->
  receive_entry line self
  = match PyStr.split " " name with
    | [first; last] =>
        (Ok tt,
         set_wanted_criminals
           (PySet.add (last ++ ", " ++ first)%string (wanted_criminals self)) self)
    | parts => (Err (UnpackError (List.length parts)), self)
    end.
Proof.
  intros Hs Hf He. unfold receive_entry. rewrite Hs.
  assert (Hx : expand ("Wanted by the State: " ++ name)%string
               = ("Wanted by the State: " ++ name)%string).
  { unfold expand.
    change (PyStr.contains "Foreigners" ("Wanted by the State: " ++ name)%string)
      with (PyStr.contains "Foreigners" name).
    rewrite Hf.
    change (PyStr.contains "Entrants" ("Wanted by the State: " ++ name)%string)
      with (PyStr.contains "Entrants" name).
    now rewrite He. }
  rewrite Hx.
  change (PyStr.startswith "Allow citizens of " ("Wanted by the State: " ++ name)%string)
    with false.
  change (PyStr.startswith "Deny citizens of " ("Wanted by the State: " ++ name)%string)
    with false.
  change (PyStr.startswith "Wanted by the State: "
            ("Wanted by the State: " ++ name)%string)
    with (prefix "" name).
  rewrite prefix_empty.
  rewrite (slice_from_append "Wanted by the State: " name).
  cbv iota beta.
  destruct (PyStr.split " " name) as [| a [| b [| c l]]]; reflexivity.
Qed.

Lemma receive_bulletin_one_line (line : string) (self : Inspector) :
  PyStr.contains NL line = false ->
  receive_bulletin line self
  = (fst (receive_entry line self), snd (receive_entry line self)).
Proof.
  intros H. unfold receive_bulletin, PyStr.split.
  rewrite (split_aux_no_sep NL "" line H). simpl.
  unfold bind, ret. destruct (receive_entry line self) as [[e | []] self']; reflexivity.
Qed.

(** X11. After a one-line bulletin [Wanted by the State: First Last], an
    entrant whose documents show no mismatch and give the name
    [Last, First] is detained as a wanted criminal. *)
Theorem wanted_then_detained (line first last : string) (self : Inspector)
  (entrant : list (string * string)) (documents : Documents) :
  PyStr.contains NL line = false ->
  PyStr.strip line = ("Wanted by the State: " ++ first ++ " " ++ last)%string ->
  PyStr.contains " " first = false ->
  PyStr.contains " " last = false ->
  PyStr.contains "Foreigners" (first ++ " " ++ last)%string = false ->
  PyStr.contains "Entrants" (first ++ " " ++ last)%string = false ->
  parse_entrant entrant = Ok documents ->
  check_mismatches documents MISMATCH_FIELDS = [] ->
  get_name documents = Some (last ++ ", " ++ first)%string ->
  let policy := snd (receive_bulletin line self) in
  fst (receive_bulletin line self) = Ok tt
  /\ In (last ++ ", " ++ first)%string (wanted_criminals policy)
  /\ inspect entrant policy
     = (Ok "Detainment: Entrant is a wanted criminal.", policy).
Proof.
  intros Hnl Hs Hfirst Hlast Hf He Hp Hm Hn.
  rewrite (receive_bulletin_one_line line self Hnl).
  rewrite (receive_entry_wanted line _ self Hs Hf He).
  assert (Hsplit : PyStr.split " " (first ++ " " ++ last)%string = [first; last]).
  { unfold PyStr.split. rewrite clean_sep_space by exact Hfirst.
    now rewrite split_aux_no_sep by exact Hlast. }
  rewrite Hsplit. cbv zeta. simpl fst. simpl snd.
  assert (Hin : In (last ++ ", " ++ first)%string
                  (PySet.add (last ++ ", " ++ first)%string (wanted_criminals self)))
    by (apply add_In; now left).
  split; [reflexivity | split; [exact Hin |]].
  rewrite (inspect_parsed _ _ _ Hp).
  apply (proj1 (inspect_documents_wanted documents _ Hm)).
  rewrite Hn. simpl. now apply mem_In.
Qed.

(** X12. A line [Wanted by the State: name] whose name is not two words
    with one space between them is refused with the [ValueError] of the
    unpacking, and changes nothing. *)
Theorem wanted_name_not_two_words (line name : string) (self : Inspector) :
  PyStr.strip line = ("Wanted by the State: " ++ name)%string ->
  PyStr.contains "Foreigners" name = false ->
  PyStr.contains "Entrants" name = false ->
  PyStr.count " " name <> 1 ->
  receive_entry line self = (Err (UnpackError (S (PyStr.count " " name))), self).
Proof.
  intros Hs Hf He Hc. rewrite (receive_entry_wanted line name self Hs Hf He).
  pose proof (split_length " " name) as Hl.
  destruct (PyStr.split " " name) as [| a [| b [| c l]]]; simpl in Hl.
  - discriminate.
  - now rewrite <- Hl.
  - exfalso. apply Hc. lia.
  - now rewrite <- Hl.
Qed.

Lemma keeps_wanted_loops (x : string) (categories : list string) (y : string) :
  keeps (fun s => In x (wanted_criminals s)) (require_documents categories y)
  /\ keeps (fun s => In x (wanted_criminals s)) (require_vaccinations categories y)
  /\ keeps (fun s => In x (wanted_criminals s)) (unrequire_documents categories y)
  /\ keeps (fun s => In x (wanted_criminals s)) (unrequire_vaccinations categories y).
Proof.
  induction categories as [| c categories [I1 [I2 [I3 I4]]]]; simpl.
  - split; [| split; [| split]]; apply keeps_ret.
  - split; [| split; [| split]]; (apply keeps_bind; [| intros _; assumption]);
      intros self H;
      first [rewrite on_required_documents_run | rewrite on_required_vaccinations_run];
      exact H.
Qed.

Lemma keeps_wanted_receive_entry (x entry : string) :
  keeps (fun s => In x (wanted_criminals s)) (receive_entry entry).
Proof.
  unfold receive_entry.
  generalize (expand (PyStr.strip entry)). intros s.
  destruct (keeps_wanted_loops x
              (iter (categories_of s (PyStr.find " no longer require" s)))
              (requirement_of s)) as [_ [_ [U1 _]]].
  destruct (keeps_wanted_loops x
              (iter (categories_of s (PyStr.find " no longer require" s)))
              (disease_of (requirement_of s))) as [_ [_ [_ U2]]].
  destruct (keeps_wanted_loops x
              (iter (categories_of s (PyStr.find " require" s)))
              (requirement_of s)) as [R1 _].
  destruct (keeps_wanted_loops x
              (iter (categories_of s (PyStr.find " require" s)))
              (disease_of (requirement_of s))) as [_ [R2 _]].
  repeat match goal with
         | |- context [if ?c then _ else _] => destruct c
         end;
    try assumption; try apply keeps_raise;
    try (intros self H; exact H).
  destruct (PyStr.split " " _) as [| a [| b [| c l]]];
    try apply keeps_raise.
  intros self H. unfold bind, attr, assign. simpl. apply add_In. now right.
Qed.

(** X13. No bulletin and no inspection takes a name off
    [wanted_criminals]: a name that is wanted stays wanted. *)
Theorem wanted_stays_wanted (name : string) (self : Inspector) :
  In name (wanted_criminals self) ->
  (forall bulletin,
      In name (wanted_criminals (snd (receive_bulletin bulletin self))))
  /\ (forall entrant,
         In name (wanted_criminals (snd (inspect entrant self)))).
Proof.
  intros H. split.
  - intros bulletin. unfold receive_bulletin.
    revert self H. induction (PyStr.split NL bulletin) as [| e l IH]; intros self H.
    + exact H.
    + simpl. apply (keeps_bind (fun s => In name (wanted_criminals s)));
        [apply keeps_wanted_receive_entry | intros _; exact IH | exact H].
  - intros entrant.
    destruct (frame_inspect entrant self) as [_ [Hw _]]. now rewrite Hw.
Qed.

End LineFacts.

(** ** Requirements added and removed *)

Lemma default_add_ok (k : option string) (x : string) (d : PolicyMap) :
  fst (default_add k x d) = Ok tt.
Proof. unfold default_add. now destruct (default_getitem k d). Qed.

Lemma default_add_lookup (k : option string) (x : string) (d : PolicyMap)
  (k0 : option string) :
  lookup k0 (snd (default_add k x d))
  = if key_eqb k0 k then PySet.add x (lookup k d) else lookup k0 d.
Proof.
  unfold default_add.
  pose proof (default_getitem_value k d) as Hv.
  pose proof (default_getitem_lookup k k0 d) as Hl.
  destruct (default_getitem k d) as [s d']. simpl in *. subst s.
  unfold lookup at 1. destruct (key_eqb k0 k) eqn:Ek.
  - apply key_eqb_eq in Ek. subst k0.
    now rewrite (get_set_same key_eqb key_eqb_eq).
  - rewrite (get_set_other key_eqb key_eqb_eq); [exact Hl |].
    intros ->. now rewrite (keq_refl key_eqb key_eqb_eq) in Ek.
Qed.

Lemma add_all_lookup (keys : list (option string)) (x : string) (d : PolicyMap)
  (k : option string) (y : string) :
  In y (lookup k (add_all keys x d)) <->
  In y (lookup k d) \/ (y = x /\ In k keys).
Proof.
  revert d. induction keys as [| k1 keys IH]; intros d; simpl.
  - tauto.
  - rewrite IH, default_add_lookup.
    destruct (key_eqb k k1) eqn:E.
    + apply key_eqb_eq in E. subst k1. rewrite add_In. intuition.
    + assert (k1 <> k) by (intros ->; now rewrite (keq_refl key_eqb key_eqb_eq) in E).
      intuition.
Qed.

Lemma remove_all_present (keys : list (option string)) (x : string) (d : PolicyMap) :
  NoDup keys ->
  (forall k, In k keys -> In x (lookup k d)) ->
  fst (remove_all keys x d) = Ok tt
  /\ forall k y,
      In y (lookup k (snd (remove_all keys x d))) <->
      In y (lookup k d) /\ ~ (y = x /\ In k keys).
Proof.
  revert d. induction keys as [| k1 keys IH]; intros d Hnd Hall; simpl.
  - split; [reflexivity | intros k y; tauto].
  - inversion Hnd as [| ? ? Hnotin Hnd']. subst.
    assert (Hm : PySet.mem x (lookup k1 d) = true)
      by (apply mem_In, Hall; now left).
    destruct (default_remove_ok k1 x d Hm) as [Hok Hlk].
    destruct (default_remove k1 x d) as [[e | []] d'];
      simpl in Hok, Hlk; [discriminate |].
    destruct (IH d' Hnd') as [H1 H2].
    { intros k Hk. rewrite Hlk.
      destruct (key_eqb k k1) eqn:E.
      - apply key_eqb_eq in E. subst k. contradiction.
      - apply Hall. now right. }
    split; [exact H1 |]. intros k y. rewrite H2, Hlk.
    destruct (key_eqb k k1) eqn:E.
    + apply key_eqb_eq in E. subst k1. rewrite discard_In. intuition.
    + assert (k1 <> k) by (intros ->; now rewrite (keq_refl key_eqb key_eqb_eq) in E).
      intuition.
Qed.

Section RequirementFacts.
Context {ord : SetOrder}.

Lemma require_documents_run (categories : list string) (x : string)
  (self : Inspector) :
  require_documents categories x self
  = (Ok tt,
     set_required_documents
       (add_all (category_keys categories) x (required_documents self)) self).
Proof.
  revert self. induction categories as [| c categories IH]; intros self; simpl.
  - now destruct self.
  - rewrite (bind_ok _ _ _ tt)
      by (rewrite on_required_documents_run; apply default_add_ok).
    rewrite on_required_documents_run. simpl snd. rewrite IH. reflexivity.
Qed.

Lemma require_vaccinations_run (categories : list string) (x : string)
  (self : Inspector) :
  require_vaccinations categories x self
  = (Ok tt,
     set_required_vaccinations
       (add_all (category_keys categories) x (required_vaccinations self)) self).
Proof.
  revert self. induction categories as [| c categories IH]; intros self; simpl.
  - now destruct self.
  - rewrite (bind_ok _ _ _ tt)
      by (rewrite on_required_vaccinations_run; apply default_add_ok).
    rewrite on_required_vaccinations_run. simpl snd. rewrite IH. reflexivity.
Qed.

Lemma unrequire_documents_run (categories : list string) (x : string)
  (self : Inspector) :
  unrequire_documents categories x self
  = (fst (remove_all (category_keys categories) x (required_documents self)),
     set_required_documents
       (snd (remove_all (category_keys categories) x (required_documents self)))
       self).
Proof.
  revert self. induction categories as [| c categories IH]; intros self; simpl.
  - now destruct self.
  - unfold bind. rewrite on_required_documents_run.
    destruct (default_remove (Some (PyStr.lower c)) x (required_documents self))
      as [[e | []] d']; simpl; [reflexivity |].
    rewrite IH. reflexivity.
Qed.

Lemma unrequire_vaccinations_run (categories : list string) (x : string)
  (self : Inspector) :
  unrequire_vaccinations categories x self
  = (fst (remove_all (category_keys categories) x (required_vaccinations self)),
     set_required_vaccinations
       (snd (remove_all (category_keys categories) x (required_vaccinations self)))
       self).
Proof.
  revert self. induction categories as [| c categories IH]; intros self; simpl.
  - now destruct self.
  - unfold bind. rewrite on_required_vaccinations_run.
    destruct (default_remove (Some (PyStr.lower c)) x (required_vaccinations self))
      as [[e | []] d']; simpl; [reflexivity |].
    rewrite IH. reflexivity.
Qed.

Lemma In_category_keys (categories : PySet.t) (k : option string) :
  In k (category_keys (iter categories)) <->
  exists c, In c categories /\ k = Some (PyStr.lower c).
Proof.
  unfold category_keys. rewrite in_map_iff. split.
  - intros [c [<- Hc]]. exists c. split; [| reflexivity].
    apply Permutation_in with (l := iter categories); [apply iter_perm | exact Hc].
  - intros [c [Hc ->]]. exists c. split; [reflexivity |].
    apply Permutation_in with (l := categories);
      [apply Permutation_sym, iter_perm | exact Hc].
Qed.

Lemma NoDup_category_keys (categories : PySet.t) :
  NoDup (map PyStr.lower categories) -> NoDup (category_keys (iter categories)).
Proof.
  intros H. unfold category_keys.
  assert (Hp : NoDup (map PyStr.lower (iter categories))).
  { apply Permutation_NoDup with (l := map PyStr.lower categories); [| exact H].
    apply Permutation_map, Permutation_sym, iter_perm. }
  rewrite <- (map_map PyStr.lower Some).
  induction Hp as [| a l Ha _ IH]; simpl; constructor; [| exact IH].
  intros Hin. apply in_map_iff in Hin. destruct Hin as [b [[= ->] Hb]].
  exact (Ha Hb).
Qed.

(** X14. The loops that add a requirement never fail, and in whatever order
    the categories are visited they leave, for every category, the set it
    had, with the requirement added if the category, in lower case, is one
    of those of the line; nothing else of the policy changes.  This for
    documents and for vaccinations. *)
Theorem require_loops (categories : PySet.t) (x : string) (self : Inspector) :
  let documents_after := snd (require_documents (iter categories) x self) in
  let vaccinations_after := snd (require_vaccinations (iter categories) x self) in
  (fst (require_documents (iter categories) x self) = Ok tt
   /\ (forall k y,
          In y (lookup k (required_documents documents_after)) <->
          In y (lookup k (required_documents self))
          \/ (y = x /\ exists c, In c categories /\ k = Some (PyStr.lower c)))
   /\ same_but_documents self documents_after)
  /\ (fst (require_vaccinations (iter categories) x self) = Ok tt
      /\ (forall k y,
             In y (lookup k (required_vaccinations vaccinations_after)) <->
             In y (lookup k (required_vaccinations self))
             \/ (y = x /\ exists c, In c categories /\ k = Some (PyStr.lower c)))
      /\ same_but_vaccinations self vaccinations_after).
Proof.
  cbv zeta. rewrite require_documents_run, require_vaccinations_run. simpl.
  split; (split; [reflexivity | split; [| repeat split]]);
    intros k y; rewrite add_all_lookup, In_category_keys; reflexivity.
Qed.

(** X15. The loops that remove a requirement: when the categories of the
    line are distinct once in lower case and each has the requirement in
    its set, the removal succeeds and leaves, for every category, the set
    it had, without the requirement if the category is one of those of the
    line.  This for documents and for vaccinations. *)
Theorem unrequire_loops (categories : PySet.t) (x : string) (self : Inspector) :
  NoDup (map PyStr.lower categories) ->
  let documents_after := snd (unrequire_documents (iter categories) x self) in
  let vaccinations_after := snd (unrequire_vaccinations (iter categories) x self) in
  ((forall c, In c categories ->
              In x (lookup (Some (PyStr.lower c)) (required_documents self))) ->
   fst (unrequire_documents (iter categories) x self) = Ok tt
   /\ (forall k y,
          In y (lookup k (required_documents documents_after)) <->
          In y (lookup k (required_documents self))
          /\ ~ (y = x /\ exists c, In c categories /\ k = Some (PyStr.lower c))))
  /\ ((forall c, In c categories ->
                 In x (lookup (Some (PyStr.lower c)) (required_vaccinations self))) ->
      fst (unrequire_vaccinations (iter categories) x self) = Ok tt
      /\ (forall k y,
             In y (lookup k (required_vaccinations vaccinations_after)) <->
             In y (lookup k (required_vaccinations self))
             /\ ~ (y = x /\ exists c, In c categories /\ k = Some (PyStr.lower c)))).
Proof.
  intros Hnd. cbv zeta.
  rewrite unrequire_documents_run, unrequire_vaccinations_run. simpl.
  pose proof (NoDup_category_keys categories Hnd) as Hk.
  split; intros Hall.
  - destruct (remove_all_present (category_keys (iter categories)) x
                (required_documents self) Hk) as [H1 H2].
    { intros k Hin. apply In_category_keys in Hin. destruct Hin as [c [Hc ->]].
      now apply Hall. }
    split; [exact H1 |]. intros k y. rewrite H2, In_category_keys. reflexivity.
  - destruct (remove_all_present (category_keys (iter categories)) x
                (required_vaccinations self) Hk) as [H1 H2].
    { intros k Hin. apply In_category_keys in Hin. destruct Hin as [c [Hc ->]].
      now apply Hall. }
    split; [exact H1 |]. intros k y. rewrite H2, In_category_keys. reflexivity.
Qed.

(** X16. Adding a document requirement for a set of categories and removing
    it for the same set, the categories distinct once in lower case, always
    succeeds, and leaves for every category the set it had at first,
    without the requirement if the category is one of the set. *)
Theorem require_then_unrequire (categories : PySet.t) (x : string)
  (self : Inspector) :
  NoDup (map PyStr.lower categories) ->
  let required := snd (require_documents (iter categories) x self) in
  let final := snd (unrequire_documents (iter categories) x required) in
  fst (unrequire_documents (iter categories) x required) = Ok tt
  /\ (forall k y,
         In y (lookup k (required_documents final)) <->
         In y (lookup k (required_documents self))
         /\ ~ (y = x /\ exists c, In c categories /\ k = Some (PyStr.lower c)))
  /\ same_but_documents self final.
Proof.
  intros Hnd. cbv zeta.
  rewrite require_documents_run. simpl snd.
  rewrite unrequire_documents_run. simpl.
  pose proof (NoDup_category_keys categories Hnd) as Hk.
  destruct (remove_all_present (category_keys (iter categories)) x
              (add_all (category_keys (iter categories)) x (required_documents self))
              Hk) as [H1 H2].
  { intros k Hin. apply add_all_lookup. right. auto. }
  split; [exact H1 | split; [| repeat split]].
  intros k y. rewrite H2, add_all_lookup, In_category_keys. intuition.
Qed.

End RequirementFacts.

Lemma unrequire_loops_witness :
  let self := Examples.after_bulletin "Citizens of Impor, Obristan require passport" in
  NoDup (map PyStr.lower ["Impor"; "Obristan"])
  /\ fst (unrequire_documents
            (iter (SetOrder := insertion_order) ["Impor"; "Obristan"]) "passport" self)
     = Ok tt.
Proof.
  cbv zeta.
  assert (Hnd : NoDup (map PyStr.lower ["Impor"; "Obristan"])).
  { simpl. repeat constructor; simpl; intuition discriminate. }
  split; [exact Hnd |].
  assert (Hall : forall c,
             In c ["Impor"; "Obristan"] ->
             In "passport"
               (lookup (Some (PyStr.lower c))
                  (required_documents
                     (Examples.after_bulletin
                        "Citizens of Impor, Obristan require passport")))).
  { intros c [<- | [<- | []]]; vm_compute; auto. }
  exact (proj1 (proj1 (unrequire_loops (ord := insertion_order)
                         ["Impor"; "Obristan"] "passport" _ Hnd) Hall)).
Defined.

Lemma require_then_unrequire_witness :
  NoDup (map PyStr.lower ["Impor"; "Obristan"])
  /\ fst (unrequire_documents
            (iter (SetOrder := insertion_order) ["Impor"; "Obristan"]) "passport"
            (snd (require_documents
                    (iter (SetOrder := insertion_order) ["Impor"; "Obristan"])
                    "passport" init)))
     = Ok tt.
Proof.
  assert (Hnd : NoDup (map PyStr.lower ["Impor"; "Obristan"])).
  { simpl. repeat constructor; simpl; intuition discriminate. }
  split; [exact Hnd |].
  exact (proj1 (require_then_unrequire (ord := insertion_order)
                  ["Impor"; "Obristan"] "passport" init Hnd)).
Defined.

(** ** Lines that add and remove requirements *)

Lemma prefix_self_append (p x : string) : prefix p (p ++ x)%string = true.
Proof.
  induction p as [| a p IH]; [apply prefix_empty |].
  cbn [append prefix]. destruct (ascii_dec a a); [exact IH | congruence].
Qed.

Lemma contains_of_prefix (p s : string) : prefix p s = true -> PyStr.contains p s = true.
Proof. intros H. destruct s; cbn [PyStr.contains]; now rewrite H. Qed.

Lemma contains_append_r (sub a b : string) :
  PyStr.contains sub b = true -> PyStr.contains sub (a ++ b)%string = true.
Proof.
  intros H. induction a as [| c a IH]; [exact H |].
  cbn [append PyStr.contains]. rewrite IH. apply orb_true_r.
Qed.

Lemma len_append (a b : string) :
  PyStr.len (a ++ b)%string = (PyStr.len a + PyStr.len b)%Z.
Proof. unfold PyStr.len. rewrite string_length_append. lia. Qed.

Lemma substring_prefix (c r : string) :
  substring 0 (String.length c) (c ++ r)%string = c.
Proof. induction c as [| a c IH]; simpl; [now destruct r | now rewrite IH]. Qed.

Lemma substring_middle (p c r : string) :
  substring (String.length p) (String.length c) (p ++ c ++ r)%string = c.
Proof. induction p as [| a p IH]; simpl; [apply substring_prefix | exact IH]. Qed.

(** [(p + c + r)[len(p):len(p + c)]] is [c]. *)
Lemma slice_middle (p c r : string) :
  PyStr.slice (p ++ c ++ r)%string (PyStr.len p) (PyStr.len (p ++ c)%string) = c.
Proof.
  unfold PyStr.slice, PyStr.clamp, PyStr.len.
  rewrite !string_length_append.
  destruct (Z.ltb_spec (Z.of_nat (String.length p)) 0); [lia |].
  destruct (Z.ltb_spec (Z.of_nat (String.length p + String.length c)) 0); [lia |].
  rewrite !Z.min_l by lia. rewrite Nat2Z.id.
  replace (Z.to_nat (Z.of_nat (String.length p + String.length c)
                     - Z.of_nat (String.length p)))
    with (String.length c) by lia.
  apply substring_middle.
Qed.

(** A text that ends with a space and a word without space has that word
    for last piece. *)
Lemma split_last_word (cur s w : string) :
  PyStr.contains " " w = false ->
  PyStr.split_aux " " 0 cur (s ++ " " ++ w)%string
  = PyStr.split_aux " " 0 cur s ++ [w].
Proof.
  intros Hw. revert cur. induction s as [| c s IH]; intros cur.
  - rewrite (clean_sep_space cur "" w) by reflexivity.
    rewrite split_aux_no_sep by exact Hw.
    now rewrite string_append_nil_r.
  - cbn [append PyStr.split_aux String.length Nat.sub].
    assert (Hq : prefix " " (String c (s ++ String " " w)) = prefix " " (String c s))
      by (now rewrite !prefix_one).
    cbn [append] in IH. rewrite Hq. destruct (prefix " " (String c s)).
    + rewrite IH. reflexivity.
    + apply IH.
Qed.

(** The disease of a requirement [<disease> vaccination]. *)
Lemma disease_of_vaccination (disease : string) :
  disease_of (disease ++ " vaccination")%string = disease.
Proof.
  unfold disease_of, PyStr.split.
  change (disease ++ " vaccination")%string
    with (disease ++ " " ++ "vaccination")%string.
  rewrite (split_last_word "" disease "vaccination") by reflexivity.
  rewrite removelast_last. apply split_join. discriminate.
Qed.

Section RequirementLines.
Context {ord : SetOrder}.

Lemma find_of (x : string) : PyStr.find "of " ("Citizens of " ++ x)%string = 9%Z.
Proof. destruct x; reflexivity. Qed.

Lemma categories_of_line (cats rest : string) :
  categories_of ("Citizens of " ++ cats ++ rest)%string
    (PyStr.len ("Citizens of " ++ cats)%string)
  = PySet.of_list (PyStr.split ", " cats).
Proof.
  unfold categories_of. rewrite find_of.
  change (9 + 3)%Z with (PyStr.len "Citizens of ").
  now rewrite slice_middle.
Qed.

Lemma expand_plain (entry : string) :
  PyStr.contains "Foreigners" entry = false ->
  PyStr.contains "Entrants" entry = false ->
  expand entry = entry.
Proof. intros Hf He. unfold expand. rewrite Hf. cbv zeta. now rewrite He. Qed.

(** A line [Citizens of <categories> require <requirement>] runs the loop
    that adds the requirement, for documents or for vaccinations. *)
Lemma receive_entry_require (line cats req : string) :
  let entry := ("Citizens of " ++ cats ++ " require " ++ req)%string in
  PyStr.strip line = entry ->
  PyStr.contains "Foreigners" entry = false ->
  PyStr.contains "Entrants" entry = false ->
  PyStr.contains "no longer require" entry = false ->
  PyStr.find " require" entry = PyStr.len ("Citizens of " ++ cats)%string ->
  receive_entry line
  = if PyStr.contains "vaccination" req
    then require_vaccinations (iter (PySet.of_list (PyStr.split ", " cats)))
           (disease_of req)
    else require_documents (iter (PySet.of_list (PyStr.split ", " cats))) req.
Proof.
  intros entry Hs Hf He Hno Hfind. unfold receive_entry. rewrite Hs.
  rewrite (expand_plain entry Hf He). unfold entry in *.
  change (PyStr.startswith "Allow citizens of "
            ("Citizens of " ++ cats ++ " require " ++ req)%string) with false.
  change (PyStr.startswith "Deny citizens of "
            ("Citizens of " ++ cats ++ " require " ++ req)%string) with false.
  change (PyStr.startswith "Wanted by the State: "
            ("Citizens of " ++ cats ++ " require " ++ req)%string) with false.
  cbv iota. rewrite Hno.
  assert (Hreq : PyStr.contains "require"
                   ("Citizens of " ++ cats ++ " require " ++ req)%string = true).
  { apply contains_append_r, contains_append_r.
    change (" require " ++ req)%string with (" " ++ "require" ++ " " ++ req)%string.
    apply contains_append_r, contains_of_prefix, prefix_self_append. }
  rewrite Hreq.
  rewrite (contains_of_prefix "Citizens of " _ (prefix_self_append "Citizens of " _)).
  cbv zeta. rewrite Hfind.
  rewrite (categories_of_line cats (" require " ++ req)).
  assert (Hr : requirement_of ("Citizens of " ++ cats ++ " require " ++ req)%string
               = req).
  { unfold requirement_of. rewrite Hfind.
    rewrite <- len_append.
    replace ("Citizens of " ++ cats ++ " require " ++ req)%string
      with ((("Citizens of " ++ cats) ++ " require ") ++ req)%string
      by (now rewrite !string_append_assoc).
    apply slice_from_append. }
  rewrite Hr. reflexivity.
Qed.

(** A line [Citizens of <categories> no longer require <requirement>] runs
    the loop that removes the requirement. *)
Lemma receive_entry_unrequire (line cats req : string) :
  let entry := ("Citizens of " ++ cats ++ " no longer require " ++ req)%string in
  PyStr.strip line = entry ->
  PyStr.contains "Foreigners" entry = false ->
  PyStr.contains "Entrants" entry = false ->
  PyStr.find " no longer require" entry = PyStr.len ("Citizens of " ++ cats)%string ->
  PyStr.find " require" entry
  = PyStr.len ("Citizens of " ++ cats ++ " no longer")%string ->
  receive_entry line
  = if PyStr.contains "vaccination" req
    then unrequire_vaccinations (iter (PySet.of_list (PyStr.split ", " cats)))
           (disease_of req)
    else unrequire_documents (iter (PySet.of_list (PyStr.split ", " cats))) req.
Proof.
  intros entry Hs Hf He Hend Hfind. unfold receive_entry. rewrite Hs.
  rewrite (expand_plain entry Hf He). unfold entry in *.
  change (PyStr.startswith "Allow citizens of "
            ("Citizens of " ++ cats ++ " no longer require " ++ req)%string)
    with false.
  change (PyStr.startswith "Deny citizens of "
            ("Citizens of " ++ cats ++ " no longer require " ++ req)%string)
    with false.
  change (PyStr.startswith "Wanted by the State: "
            ("Citizens of " ++ cats ++ " no longer require " ++ req)%string)
    with false.
  cbv iota.
  assert (Hno : PyStr.contains "no longer require"
                  ("Citizens of " ++ cats ++ " no longer require " ++ req)%string
                = true).
  { apply contains_append_r, contains_append_r.
    change (" no longer require " ++ req)%string
      with (" " ++ "no longer require" ++ " " ++ req)%string.
    apply contains_append_r, contains_of_prefix, prefix_self_append. }
  rewrite Hno.
  rewrite (contains_of_prefix "Citizens of " _ (prefix_self_append "Citizens of " _)).
  cbv zeta. rewrite Hend.
  rewrite (categories_of_line cats (" no longer require " ++ req)).
  assert (Hr : requirement_of
                 ("Citizens of " ++ cats ++ " no longer require " ++ req)%string
               = req).
  { unfold requirement_of. rewrite Hfind.
    rewrite <- len_append.
    replace ("Citizens of " ++ cats ++ " no longer require " ++ req)%string
      with ((("Citizens of " ++ cats ++ " no longer") ++ " require ") ++ req)%string
      by (now rewrite !string_append_assoc).
    apply slice_from_append. }
  rewrite Hr. reflexivity.
Qed.

End RequirementLines.

Section RequirementLineTheorems.
Context {ord : SetOrder}.

(** X17. A line [Citizens of <categories> require <requirement>], where
    this [ require] is the first of the line, is accepted.  When the
    requirement does not contain [vaccination], each category of the line,
    in lower case, gets the requirement among its required documents; when
    it does, wherever in the requirement, each gets among its required
    vaccinations the requirement without its last word, which for
    [<disease> vaccination] is the disease.  Nothing else of the policy
    changes. *)
Theorem require_line (line cats req : string) (self : Inspector) :
  let entry := ("Citizens of " ++ cats ++ " require " ++ req)%string in
  PyStr.strip line = entry ->
  PyStr.contains "Foreigners" entry = false ->
  PyStr.contains "Entrants" entry = false ->
  PyStr.contains "no longer require" entry = false ->
  PyStr.find " require" entry = PyStr.len ("Citizens of " ++ cats)%string ->
  let after := snd (receive_entry line self) in
  fst (receive_entry line self) = Ok tt
  /\ (PyStr.contains "vaccination" req = false ->
      (forall k y,
          In y (lookup k (required_documents after)) <->
          In y (lookup k (required_documents self))
          \/ (y = req
              /\ exists c, In c (PyStr.split ", " cats) /\ k = Some (PyStr.lower c)))
      /\ same_but_documents self after)
  /\ (PyStr.contains "vaccination" req = true ->
      (forall k y,
          In y (lookup k (required_vaccinations after)) <->
          In y (lookup k (required_vaccinations self))
          \/ (y = disease_of req
              /\ exists c, In c (PyStr.split ", " cats) /\ k = Some (PyStr.lower c)))
      /\ same_but_vaccinations self after)
  /\ (forall disease,
         req = (disease ++ " vaccination")%string ->
         PyStr.contains "vaccination" req = true /\ disease_of req = disease).
Proof.
  intros entry Hs Hf He Hno Hfind after. unfold after.
  rewrite (receive_entry_require line cats req Hs Hf He Hno Hfind).
  assert (Hcat : forall k,
             In k (category_keys (iter (PySet.of_list (PyStr.split ", " cats)))) <->
             exists c, In c (PyStr.split ", " cats) /\ k = Some (PyStr.lower c)).
  { intros k. rewrite In_category_keys. split; intros [c [Hc ->]]; exists c;
      (split; [| reflexivity]); now apply of_list_In. }
  split; [| split; [| split]].
  - destruct (PyStr.contains "vaccination" req);
      [now rewrite require_vaccinations_run | now rewrite require_documents_run].
  - intros Hv. rewrite Hv, require_documents_run. simpl. split; [| repeat split].
    intros k y. now rewrite add_all_lookup, Hcat.
  - intros Hv. rewrite Hv, require_vaccinations_run. simpl. split; [| repeat split].
    intros k y. now rewrite add_all_lookup, Hcat.
  - intros disease ->. split; [| apply disease_of_vaccination].
    change (disease ++ " vaccination")%string
      with (disease ++ " " ++ "vaccination")%string.
    apply contains_append_r, contains_append_r. reflexivity.
Qed.

(** X18. A line [Citizens of <categories> no longer require <document>],
    where this [ no longer require] and its [ require] are the first of the
    line.  If one of the categories does not have the document among its
    required documents, the line fails with [KeyError] of the document.
    If all have it, and are distinct once in lower case, the line is
    accepted and takes the document off the required documents of each. *)
Theorem unrequire_line (line cats req : string) (self : Inspector) :
  let entry := ("Citizens of " ++ cats ++ " no longer require " ++ req)%string in
  PyStr.strip line = entry ->
  PyStr.contains "Foreigners" entry = false ->
  PyStr.contains "Entrants" entry = false ->
  PyStr.find " no longer require" entry = PyStr.len ("Citizens of " ++ cats)%string ->
  PyStr.find " require" entry
  = PyStr.len ("Citizens of " ++ cats ++ " no longer")%string ->
  PyStr.contains "vaccination" req = false ->
  let after := snd (receive_entry line self) in
  ((exists c, In c (PyStr.split ", " cats)
              /\ ~ In req (lookup (Some (PyStr.lower c)) (required_documents self))) ->
   fst (receive_entry line self) = Err (KeyError req))
  /\ (NoDup (map PyStr.lower (PySet.of_list (PyStr.split ", " cats))) ->
      (forall c, In c (PyStr.split ", " cats) ->
                 In req (lookup (Some (PyStr.lower c)) (required_documents self))) ->
      fst (receive_entry line self) = Ok tt
      /\ (forall k y,
             In y (lookup k (required_documents after)) <->
             In y (lookup k (required_documents self))
             /\ ~ (y = req
                   /\ exists c, In c (PyStr.split ", " cats)
                                /\ k = Some (PyStr.lower c)))
      /\ same_but_documents self after).
Proof.
  intros entry Hs Hf He Hend Hfind Hv after. unfold after.
  rewrite (receive_entry_unrequire line cats req Hs Hf He Hend Hfind), Hv.
  assert (Hcat : forall k,
             In k (category_keys (iter (PySet.of_list (PyStr.split ", " cats)))) <->
             exists c, In c (PyStr.split ", " cats) /\ k = Some (PyStr.lower c)).
  { intros k. rewrite In_category_keys. split; intros [c [Hc ->]]; exists c;
      (split; [| reflexivity]); now apply of_list_In. }
  split.
  - intros [c [Hc Habs]].
    apply unrequire_documents_absent with (c := c); [| now apply mem_not_In].
    apply Permutation_in with (l := PySet.of_list (PyStr.split ", " cats));
      [apply Permutation_sym, iter_perm | now apply of_list_In].
  - intros Hnd Hall. rewrite unrequire_documents_run. simpl.
    destruct (remove_all_present
                (category_keys (iter (PySet.of_list (PyStr.split ", " cats)))) req
                (required_documents self) (NoDup_category_keys _ Hnd)) as [H1 H2].
    { intros k Hk. apply Hcat in Hk. destruct Hk as [c [Hc ->]]. now apply Hall. }
    split; [exact H1 | split; [| repeat split]].
    intros k y. now rewrite H2, Hcat.
Qed.

Lemma receive_entry_empty (self : Inspector) :
  receive_entry "" self = (Err (ValueError "Could not parse entry : "), self).
Proof. reflexivity. Qed.

(** X19. A bulletin text that ends with a newline, all of whose lines are
    accepted, is applied in full and then fails: its last line is empty,
    and the empty line is no directive.  The empty bulletin fails in the
    same way and changes nothing. *)
Theorem bulletin_trailing_newline (bulletin : string) (self : Inspector) :
  fst (receive_bulletin bulletin self) = Ok tt ->
  receive_bulletin (bulletin ++ NL)%string self
  = (Err (ValueError "Could not parse entry : "),
     snd (receive_bulletin bulletin self))
  /\ receive_bulletin "" self = (Err (ValueError "Could not parse entry : "), self).
Proof.
  intros Hok. split; [| reflexivity].
  unfold receive_bulletin, PyStr.split, NL in *. rewrite split_trailing.
  rewrite (receive_entries_failing _ [] "" self
             (ValueError "Could not parse entry : ") Hok)
    by (now rewrite receive_entry_empty).
  now rewrite receive_entry_empty.
Qed.

End RequirementLineTheorems.

Lemma require_line_witness :
  let line := "Citizens of Antegria, United Federation require polio vaccination" in
  let after := snd (receive_entry (ord := insertion_order) line init) in
  PyStr.strip line
  = ("Citizens of " ++ "Antegria, United Federation" ++ " require "
     ++ "polio vaccination")%string
  /\ PyStr.find " require" line
     = PyStr.len ("Citizens of " ++ "Antegria, United Federation")%string
  /\ fst (receive_entry (ord := insertion_order) line init) = Ok tt
  /\ (forall y,
         In y (lookup (Some "united federation") (required_vaccinations after)) <->
         y = "polio").
Proof.
  cbv zeta.
  assert (Hs : PyStr.strip
                 "Citizens of Antegria, United Federation require polio vaccination"
               = ("Citizens of " ++ "Antegria, United Federation" ++ " require "
                  ++ "polio vaccination")%string) by (vm_compute; reflexivity).
  assert (Hf : PyStr.contains "Foreigners"
                 ("Citizens of " ++ "Antegria, United Federation" ++ " require "
                  ++ "polio vaccination")%string = false) by (vm_compute; reflexivity).
  assert (He : PyStr.contains "Entrants"
                 ("Citizens of " ++ "Antegria, United Federation" ++ " require "
                  ++ "polio vaccination")%string = false) by (vm_compute; reflexivity).
  assert (Hno : PyStr.contains "no longer require"
                  ("Citizens of " ++ "Antegria, United Federation" ++ " require "
                   ++ "polio vaccination")%string = false) by (vm_compute; reflexivity).
  assert (Hfind : PyStr.find " require"
                    ("Citizens of " ++ "Antegria, United Federation" ++ " require "
                     ++ "polio vaccination")%string
                  = PyStr.len ("Citizens of " ++ "Antegria, United Federation")%string)
    by (vm_compute; reflexivity).
  assert (Hv : PyStr.contains "vaccination" "polio vaccination" = true)
    by (vm_compute; reflexivity).
  destruct (require_line (ord := insertion_order) _ _ _ init Hs Hf He Hno Hfind)
    as [Hok [_ [Hvac _]]].
  split; [exact Hs | split; [exact Hfind | split; [exact Hok |]]].
  destruct (Hvac Hv) as [Hl _]. intros y. rewrite Hl.
  change (disease_of "polio vaccination") with "polio". split.
  - intros [[] | [-> _]]. reflexivity.
  - intros ->. right. split; [reflexivity |].
    exists "United Federation". split; [| reflexivity].
    vm_compute. right. now left.
Defined.

Lemma unrequire_line_witness :
  let line := "Citizens of Impor no longer require passport" in
  let self := Examples.after_bulletin "Citizens of Impor, Obristan require passport" in
  PyStr.strip line
  = ("Citizens of " ++ "Impor" ++ " no longer require " ++ "passport")%string
  /\ fst (receive_entry (ord := insertion_order) line init) = Err (KeyError "passport")
  /\ fst (receive_entry (ord := insertion_order) line self) = Ok tt.
Proof.
  cbv zeta.
  assert (Hs : PyStr.strip "Citizens of Impor no longer require passport"
               = ("Citizens of " ++ "Impor" ++ " no longer require " ++ "passport")%string)
    by (vm_compute; reflexivity).
  assert (Hf : PyStr.contains "Foreigners"
                 ("Citizens of " ++ "Impor" ++ " no longer require " ++ "passport")%string
               = false) by (vm_compute; reflexivity).
  assert (He : PyStr.contains "Entrants"
                 ("Citizens of " ++ "Impor" ++ " no longer require " ++ "passport")%string
               = false) by (vm_compute; reflexivity).
  assert (Hend : PyStr.find " no longer require"
                   ("Citizens of " ++ "Impor" ++ " no longer require " ++ "passport")%string
                 = PyStr.len ("Citizens of " ++ "Impor")%string)
    by (vm_compute; reflexivity).
  assert (Hfind : PyStr.find " require"
                    ("Citizens of " ++ "Impor" ++ " no longer require " ++ "passport")%string
                  = PyStr.len ("Citizens of " ++ "Impor" ++ " no longer")%string)
    by (vm_compute; reflexivity).
  assert (Hv : PyStr.contains "vaccination" "passport" = false)
    by (vm_compute; reflexivity).
  assert (Habs : exists c,
             In c (PyStr.split ", " "Impor")
             /\ ~ In "passport"
                    (lookup (Some (PyStr.lower c)) (required_documents init))).
  { exists "Impor". split; [vm_compute; now left | intros []]. }
  assert (Hnd : NoDup (map PyStr.lower (PySet.of_list (PyStr.split ", " "Impor")))).
  { vm_compute. constructor; [intros [] | constructor]. }
  assert (Hall : forall c,
             In c (PyStr.split ", " "Impor") ->
             In "passport"
               (lookup (Some (PyStr.lower c))
                  (required_documents
                     (Examples.after_bulletin
                        "Citizens of Impor, Obristan require passport")))).
  { intros c Hc. vm_compute in Hc. destruct Hc as [<- | []]. vm_compute. now left. }
  split; [exact Hs | split].
  - exact (proj1 (unrequire_line (ord := insertion_order) _ _ _
                    init Hs Hf He Hend Hfind Hv) Habs).
  - exact (proj1 (proj2 (unrequire_line (ord := insertion_order) _ _ _
                           (Examples.after_bulletin
                              "Citizens of Impor, Obristan require passport")
                           Hs Hf He Hend Hfind Hv) Hnd Hall)).
Defined.

Lemma bulletin_trailing_newline_witness :
  fst (receive_bulletin (ord := insertion_order) "Allow citizens of Obristan" init)
  = Ok tt
  /\ receive_bulletin (ord := insertion_order)
       ("Allow citizens of Obristan" ++ NL)%string init
     = (Err (ValueError "Could not parse entry : "),
        Examples.after_bulletin "Allow citizens of Obristan").
Proof.
  split; [reflexivity |].
  exact (proj1 (bulletin_trailing_newline (ord := insertion_order)
                  "Allow citizens of Obristan" init eq_refl)).
Defined.

(** ** What an admission implies *)

Lemma returns_bind {A B} (m : M A) (f : A -> M B) (self : Inspector)
  (P : A -> Inspector -> Prop) (Q : B -> Inspector -> Prop) :
  returns m self P ->
  (forall a self', P a self' -> returns (f a) self' Q) ->
  returns (bind m f) self Q.
Proof.
  intros Hm Hf. unfold returns in *. unfold bind.
  destruct (m self) as [[e | a] self']; [exact I | exact (Hf a self' Hm)].
Qed.

Lemma returns_getitem_documents (k : option string) (self : Inspector) :
  returns (required_documents_getitem k) self
    (fun v self' => v = lookup k (required_documents self) /\ same_policy self self').
Proof.
  unfold returns.
  pose proof (post_getitem_documents k self (fun _ => True)) as Hv.
  pose proof (frame_getitem_documents k self) as Hf.
  unfold post in Hv.
  destruct (required_documents_getitem k self) as [[e | v] self']; [exact I |].
  split; [exact Hv | exact Hf].
Qed.

Lemma returns_getitem_vaccinations (k : option string) (self : Inspector) :
  returns (required_vaccinations_getitem k) self
    (fun v self' => v = lookup k (required_vaccinations self) /\ same_policy self self').
Proof.
  unfold returns.
  pose proof (post_getitem_vaccinations k self (fun _ => True)) as Hv.
  pose proof (frame_getitem_vaccinations k self) as Hf.
  unfold post in Hv.
  destruct (required_vaccinations_getitem k self) as [[e | v] self']; [exact I |].
  split; [exact Hv | exact Hf].
Qed.

Lemma same_policy_lookups (a b : Inspector) (k : option string) :
  same_policy a b ->
  lookup k (required_documents b) = lookup k (required_documents a)
  /\ lookup k (required_vaccinations b) = lookup k (required_vaccinations a).
Proof. intros [_ [_ [_ [H1 H2]]]]. split; now apply grows_lookup. Qed.

Lemma returns_access (documents : Documents) (nationality : option string)
  (self : Inspector) :
  returns (check_access_permits documents nationality) self
    (fun denial self' =>
       same_policy self self'
       /\ (denial = None ->
           nationality <> Some "arstotzka" ->
           In "access permit" (lookup nationality (required_documents self)) ->
           access_granted documents self)
       /\ (forall s, denial = Some s -> ~ admission s)).
Proof.
  unfold check_access_permits.
  assert (Hno : forall s : string, @None string = Some s -> ~ admission s)
    by discriminate.
  assert (Hden : forall x s : string,
             Some ("Entry denied: " ++ x)%string = Some s -> ~ admission s).
  { intros x s [= <-] [H | H]; discriminate H. }
  destruct (key_eqb nationality (Some "arstotzka")) eqn:Ek; simpl.
  { apply key_eqb_eq in Ek. unfold returns, ret. simpl.
    split; [apply same_policy_refl | split; [congruence | exact Hno]]. }
  eapply returns_bind; [apply returns_getitem_documents |].
  intros required self' [-> Hsame].
  assert (Hwork : work_pass_required self' = work_pass_required self)
    by (destruct Hsame as [_ [_ [H _]]]; exact H).
  destruct (PySet.mem "access permit" (lookup nationality (required_documents self)))
    eqn:Em.
  2: { unfold returns, ret. simpl. split; [exact Hsame | split; [| exact Hno]].
       intros _ _ Hin. apply mem_In in Hin. congruence. }
  unfold access_granted.
  destruct (PyDict.get String.eqb "access permit" documents) as [permit |].
  - unfold returns, bind, attr, lift, getitem. simpl. rewrite Hwork.
    destruct (work_pass_required self); simpl.
    + destruct (PyDict.get String.eqb "PURPOSE" permit) as [purpose |]; simpl;
        [| exact I].
      destruct (String.eqb purpose "WORK") eqn:Ew.
      * destruct (PyDict.has String.eqb "work pass" documents); simpl.
        -- split; [exact Hsame | split; [auto | exact Hno]].
        -- split; [exact Hsame | split; [discriminate |]].
           exact (Hden "missing required work pass.").
      * split; [exact Hsame | split; [| exact Hno]]. intros _ _ _ _ [= H].
        subst purpose. now rewrite String.eqb_refl in Ew.
    + split; [exact Hsame | split; [intros; discriminate | exact Hno]].
  - destruct (PyDict.has String.eqb "grant of asylum" documents).
    + unfold returns, ret. simpl. split; [exact Hsame | split; [auto | exact Hno]].
    + destruct (PyDict.get String.eqb "diplomatic authorization" documents)
        as [authorization |] eqn:Ed.
      * unfold returns, bind, lift, getitem. simpl.
        destruct (PyDict.get String.eqb "ACCESS" authorization) as [access |] eqn:Eacc;
          simpl; [| exact I].
        destruct (PySet.mem "Arstotzka" (PySet.of_list (PyStr.split ", " access)))
          eqn:Ea; simpl.
        -- split; [exact Hsame | split; [| exact Hno]]. intros _ _ _. right.
           exists authorization, access.
           split; [reflexivity | split; [exact Eacc |]].
           now apply of_list_In, mem_In.
        -- split; [exact Hsame | split; [discriminate |]].
           exact (Hden "invalid diplomatic authorization.").
      * unfold returns, ret. simpl. split; [exact Hsame | split; [discriminate |]].
        exact (Hden "missing required access permit.").
Qed.

Lemma returns_vaccinations (documents : Documents) (nationality : option string)
  (self : Inspector) :
  returns (check_vaccinations documents nationality) self
    (fun s _ =>
       admission s ->
       vaccinated documents (lookup nationality (required_vaccinations self))
       /\ (s = "Glory to Arstotzka." <-> nationality = Some "arstotzka")).
Proof.
  unfold check_vaccinations. cbv zeta.
  assert (Hf : forall required,
             admission (if key_eqb nationality (Some "arstotzka")
                       then "Glory to Arstotzka." else "Cause no trouble.") ->
             vaccinated documents required ->
             vaccinated documents required
             /\ ((if key_eqb nationality (Some "arstotzka")
                  then "Glory to Arstotzka." else "Cause no trouble.")
                 = "Glory to Arstotzka." <-> nationality = Some "arstotzka")).
  { intros required _ Hv. split; [exact Hv |].
    destruct (key_eqb nationality (Some "arstotzka")) eqn:Ek.
    - apply key_eqb_eq in Ek. tauto.
    - split; [discriminate |]. intros ->. discriminate. }
  eapply returns_bind; [apply returns_getitem_vaccinations |].
  intros required self' [-> _].
  destruct (lookup nationality (required_vaccinations self)) as [| r required] eqn:El.
  - unfold returns, ret. simpl. intros Ha. apply (Hf []); [exact Ha | now left].
  - destruct (PyDict.get String.eqb "certificate of vaccination" documents)
      as [certificate |] eqn:Ec.
    + unfold returns, bind, lift, getitem.
      destruct (PyDict.get String.eqb "VACCINES" certificate) as [vaccines |] eqn:Ev;
        unfold Ok, Err; cbv beta iota; [| exact I].
      destruct (PySet.issubset (r :: required)
                  (PySet.of_list (PyStr.split ", " vaccines))) eqn:Es.
      * change (negb true) with false. cbv iota. unfold ret. cbv beta iota.
        intros Ha. apply (Hf (r :: required)); [exact Ha |]. right.
        exists certificate, vaccines.
        split; [exact Ec | split; [exact Ev |]].
        intros disease Hd. unfold PySet.issubset in Es.
        rewrite forallb_forall in Es. apply of_list_In, mem_In, Es, Hd.
      * change (negb false) with true. cbv iota. unfold ret. cbv beta iota.
        intros [H | H]; discriminate H.
    + unfold returns, ret. simpl. intros [H | H]; discriminate H.
Qed.

Lemma returns_weaken {A} (m : M A) (self : Inspector)
  (P Q : A -> Inspector -> Prop) :
  returns m self P -> (forall a self', P a self' -> Q a self') -> returns m self Q.
Proof.
  unfold returns. destruct (m self) as [[e | a] self']; [auto |].
  intros H HPQ. now apply HPQ.
Qed.

Lemma access_granted_same (documents : Documents) (a b : Inspector) :
  work_pass_required b = work_pass_required a ->
  access_granted documents b -> access_granted documents a.
Proof. unfold access_granted. intros ->. auto. Qed.

Section AdmissionFacts.
Context {ord : SetOrder}.

(** The checks an admission has gone through. *)
Lemma inspect_documents_admission (documents : Documents) (self : Inspector) :
  returns (inspect_documents documents) self
    (fun s _ =>
       admission s ->
       exists n,
         resolved_nationality documents = Some n
         /\ passed_checks documents self n s).
Proof.
  unfold inspect_documents. fold (resolved_nationality documents). cbv zeta.
  destruct (check_mismatches documents MISMATCH_FIELDS) as [| [f vs] rest] eqn:Em.
  2: { destruct (check_mismatches_fields _ _ _ _ _ Em) as [Hin _].
       destruct (fields_to_str_label f Hin) as [label [Hget _]].
       unfold returns, bind, lift, getitem, ret. cbn [fst]. rewrite Hget. simpl.
       intros [H | H]; discriminate H. }
  unfold returns at 1, bind at 1, attr at 1, Ok at 1. cbv beta iota.
  destruct (mem_value (get_name documents) (wanted_criminals self)) eqn:Ew.
  { unfold ret. simpl. intros [H | H]; discriminate H. }
  generalize (eq_refl (resolved_nationality documents)).
  generalize (resolved_nationality documents) at 2 3 4 5 6.
  intros nationality Hnat.
  match goal with
  | |- match ?m self with _ => _ end =>
      change (returns m self
                (fun s _ =>
                   admission s ->
                   exists n,
                     resolved_nationality documents = Some n
                     /\ passed_checks documents self n s))
  end.
  eapply returns_bind
    with (P := fun required self' =>
                 same_policy self self'
                 /\ (forall n, nationality = Some n ->
                               required = lookup (Some n) (required_documents self))).
  { destruct nationality as [n |].
    - eapply returns_weaken; [apply returns_getitem_documents |].
      intros a s' [-> Hs]. split; [exact Hs |]. now intros n' [= <-].
    - unfold returns, bind, attr, ret. simpl.
      split; [apply same_policy_refl | discriminate]. }
  intros required self1 [Hs1 Hreq].
  destruct (missing_document (iter required) documents) as [t |] eqn:Emiss.
  { unfold returns, ret. simpl. intros [H | H]; discriminate H. }
  unfold returns at 1, bind at 1, lift at 1.
  destruct (check_expirations documents TODAY) as [e | [| t ex]] eqn:Ee;
    unfold Ok, Err; cbv beta iota; [exact I | | ].
  2: { unfold ret. cbv beta iota. intros [H | H]; discriminate H. }
  match goal with
  | |- match ?m self1 with _ => _ end =>
      change (returns m self1
                (fun s _ =>
                   admission s ->
                   exists n,
                     resolved_nationality documents = Some n
                     /\ passed_checks documents self n s))
  end.
  eapply returns_bind; [apply returns_access |].
  intros denial self2 [Hs2 [Hacc Hden]].
  destruct denial as [d |].
  { unfold returns, ret. simpl. intros Ha. exfalso. exact (Hden d eq_refl Ha). }
  unfold returns at 1, bind at 1, attr at 1, Ok at 1. cbv beta iota.
  pose proof (same_policy_trans _ _ _ Hs1 Hs2) as Hs12.
  assert (Hallowed : allowed_countries self2 = allowed_countries self)
    by (destruct Hs12 as [H _]; exact H).
  rewrite Hallowed.
  destruct (mem_value nationality (allowed_countries self)) eqn:Eal; simpl.
  2: { unfold ret. simpl. intros [H | H]; discriminate H. }
  destruct nationality as [n |]; [| discriminate].
  simpl in Eal. apply mem_In in Eal.
  eapply returns_weaken; [apply returns_vaccinations |].
  intros s self3 Hv Ha. destruct (Hv Ha) as [Hvac Hglory].
  exists n. split; [now symmetry |].
  destruct (same_policy_lookups self self2 (Some n) Hs12) as [_ Hlv].
  destruct (same_policy_lookups self self1 (Some n) Hs1) as [Hld _].
  rewrite Hnat in Hvac, Hglory. rewrite Hlv in Hvac. rewrite Hld in Hacc.
  split; [exact Em | split; [exact Ew | split; [| split; [exact Ee | split;
    [| split; [exact Eal | split; [exact Hvac |]]]]]]].
  - intros type Ht. rewrite <- (Hreq n eq_refl) in Ht.
    apply (missing_document_none _ _ Emiss).
    apply Permutation_in with (l := required);
      [apply Permutation_sym, iter_perm | exact Ht].
  - intros Hn Hin. apply (access_granted_same documents self self1).
    + destruct Hs1 as [_ [_ [H _]]]. exact H.
    + apply Hacc; [reflexivity | congruence | exact Hin].
  - rewrite Hglory. split; congruence.
Qed.

End AdmissionFacts.

Section Admission.
Context {ord : SetOrder}.

Lemma inspect_admission (entrant : list (string * string))
  (documents : Documents) (self : Inspector) (s : string) :
  parse_entrant entrant = Ok documents ->
  fst (inspect entrant self) = Ok s ->
  admission s ->
  exists n,
    resolved_nationality documents = Some n /\ passed_checks documents self n s.
Proof.
  intros Hp Hi Ha. unfold inspect, bind, lift in Hi. rewrite Hp in Hi.
  unfold Ok in Hi. cbv beta iota in Hi.
  pose proof (inspect_documents_admission documents self) as H.
  unfold returns in H.
  destruct (inspect_documents documents self) as [[e | a] self'];
    simpl in Hi; [discriminate |].
  injection Hi as ->. exact (H Ha).
Qed.

(** X20. An entrant is let in only with a nationality: some document has a
    non-empty [NATION], its value in lower case is in [allowed_countries],
    and the greeting is [Glory to Arstotzka.] exactly when that value is
    [arstotzka].  An entrant without [NATION] is never let in, whatever
    the bulletins. *)
Theorem admission_nationality (entrant : list (string * string))
  (documents : Documents) (self : Inspector) (s : string) :
  parse_entrant entrant = Ok documents ->
  fst (inspect entrant self) = Ok s ->
  admission s ->
  exists n,
    resolved_nationality documents = Some n
    /\ In n (allowed_countries self)
    /\ (s = "Glory to Arstotzka." <-> n = "arstotzka").
Proof.
  intros Hp Hi Ha.
  destruct (inspect_admission entrant documents self s Hp Hi Ha)
    as [n [Hn [_ [_ [_ [_ [_ [Hal [_ Hg]]]]]]]]].
  exists n. auto.
Qed.

(** X21. An entrant who is let in has passed the first stages: no field
    of [MISMATCH_FIELDS] has two values, the name is not in
    [wanted_criminals], no document is expired on the reference date, and
    every document type required of the nationality, [access permit]
    apart, is there under its name in lower case. *)
Theorem admission_papers (entrant : list (string * string))
  (documents : Documents) (self : Inspector) (s : string) :
  parse_entrant entrant = Ok documents ->
  fst (inspect entrant self) = Ok s ->
  admission s ->
  check_mismatches documents MISMATCH_FIELDS = []
  /\ mem_value (get_name documents) (wanted_criminals self) = false
  /\ check_expirations documents TODAY = Ok []
  /\ (forall n type,
         resolved_nationality documents = Some n ->
         In type (lookup (Some n) (required_documents self)) ->
         type = "access permit"
         \/ PyDict.has String.eqb (PyStr.lower type) documents = true).
Proof.
  intros Hp Hi Ha.
  destruct (inspect_admission entrant documents self s Hp Hi Ha)
    as [n [Hn [Hm [Hw [Hd [He _]]]]]].
  split; [exact Hm | split; [exact Hw | split; [exact He |]]].
  intros n' type Hn'. rewrite Hn in Hn'. injection Hn' as <-. apply Hd.
Qed.

(** X22. A foreigner of whose nationality an access permit is required is
    let in only with the permit, and then with a work pass if work passes
    are required and the permit is for [WORK]; or, without the permit, with
    a grant of asylum or with a diplomatic authorization whose [ACCESS]
    lists [Arstotzka]. *)
Theorem admission_access (entrant : list (string * string))
  (documents : Documents) (self : Inspector) (s n : string) :
  parse_entrant entrant = Ok documents ->
  fst (inspect entrant self) = Ok s ->
  admission s ->
  resolved_nationality documents = Some n ->
  n <> "arstotzka" ->
  In "access permit" (lookup (Some n) (required_documents self)) ->
  access_granted documents self.
Proof.
  intros Hp Hi Ha Hn Hne Hin.
  destruct (inspect_admission entrant documents self s Hp Hi Ha)
    as [n' [Hn' [_ [_ [_ [_ [Hacc _]]]]]]].
  rewrite Hn in Hn'. injection Hn' as <-. exact (Hacc Hne Hin).
Qed.

(** X23. An entrant of whose nationality vaccinations are required is let
    in only with a certificate of vaccination whose [VACCINES] lists every
    one of them. *)
Theorem admission_vaccinations (entrant : list (string * string))
  (documents : Documents) (self : Inspector) (s n : string) :
  parse_entrant entrant = Ok documents ->
  fst (inspect entrant self) = Ok s ->
  admission s ->
  resolved_nationality documents = Some n ->
  vaccinated documents (lookup (Some n) (required_vaccinations self)).
Proof.
  intros Hp Hi Ha Hn.
  destruct (inspect_admission entrant documents self s Hp Hi Ha)
    as [n' [Hn' [_ [_ [_ [_ [_ [_ [Hv _]]]]]]]]].
  rewrite Hn in Hn'. injection Hn' as <-. exact Hv.
Qed.

End Admission.

Lemma crossing_parsed : parse_entrant Crossing.entrant = Ok Crossing.documents.
Proof. vm_compute. reflexivity. Qed.

Lemma crossing_let_in :
  fst (inspect (ord := insertion_order) Crossing.entrant Crossing.policy)
  = Ok "Cause no trouble.".
Proof. vm_compute. reflexivity. Qed.

Lemma crossing_nationality :
  resolved_nationality Crossing.documents = Some "obristan".
Proof. vm_compute. reflexivity. Qed.

Lemma crossing_permit_required :
  In "access permit" (lookup (Some "obristan") (required_documents Crossing.policy)).
Proof. vm_compute. left. reflexivity. Qed.

Lemma admission_nationality_witness :
  exists n,
    resolved_nationality Crossing.documents = Some n
    /\ In n (allowed_countries Crossing.policy)
    /\ ("Cause no trouble." = "Glory to Arstotzka." <-> n = "arstotzka").
Proof.
  exact (admission_nationality (ord := insertion_order)
           Crossing.entrant Crossing.documents Crossing.policy "Cause no trouble."
           crossing_parsed crossing_let_in (or_intror eq_refl)).
Defined.

Lemma admission_papers_witness :
  check_mismatches Crossing.documents MISMATCH_FIELDS = []
  /\ mem_value (get_name Crossing.documents) (wanted_criminals Crossing.policy) = false
  /\ check_expirations Crossing.documents TODAY = Ok []
  /\ (forall n type,
         resolved_nationality Crossing.documents = Some n ->
         In type (lookup (Some n) (required_documents Crossing.policy)) ->
         type = "access permit"
         \/ PyDict.has String.eqb (PyStr.lower type) Crossing.documents = true).
Proof.
  exact (admission_papers (ord := insertion_order)
           Crossing.entrant Crossing.documents Crossing.policy "Cause no trouble."
           crossing_parsed crossing_let_in (or_intror eq_refl)).
Defined.

Lemma admission_access_witness :
  access_granted Crossing.documents Crossing.policy.
Proof.
  assert (Hne : "obristan" <> "arstotzka") by discriminate.
  exact (admission_access (ord := insertion_order)
           Crossing.entrant Crossing.documents Crossing.policy "Cause no trouble."
           "obristan" crossing_parsed crossing_let_in (or_intror eq_refl)
           crossing_nationality Hne crossing_permit_required).
Defined.

Lemma admission_vaccinations_witness :
  vaccinated Crossing.documents
    (lookup (Some "obristan") (required_vaccinations Crossing.policy)).
Proof.
  exact (admission_vaccinations (ord := insertion_order)
           Crossing.entrant Crossing.documents Crossing.policy "Cause no trouble."
           "obristan" crossing_parsed crossing_let_in (or_intror eq_refl)
           crossing_nationality).
Defined.

Lemma allow_line_witness :
  let after :=
    snd (receive_entry (ord := insertion_order)
           "  Allow citizens of Obristan, United Federation" init) in
  fst (receive_entry (ord := insertion_order)
         "  Allow citizens of Obristan, United Federation" init) = Ok tt
  /\ (In "united federation" (allowed_countries after)
      /\ ~ In "United Federation" (allowed_countries after))
  /\ required_documents after = [].
Proof.
  cbv zeta.
  assert (Hs : PyStr.strip "  Allow citizens of Obristan, United Federation"
               = ("Allow citizens of " ++ "Obristan, United Federation")%string)
    by (vm_compute; reflexivity).
  assert (Hf : PyStr.contains "Foreigners" "Obristan, United Federation" = false)
    by (vm_compute; reflexivity).
  assert (He : PyStr.contains "Entrants" "Obristan, United Federation" = false)
    by (vm_compute; reflexivity).
  destruct (allow_line (ord := insertion_order) _ _ init Hs Hf He)
    as [Hok [Hin [Hd _]]].
  split; [exact Hok | split; [split | exact Hd]].
  - apply Hin. right. exists "United Federation".
    split; [vm_compute; auto | vm_compute; reflexivity].
  - intros H. apply Hin in H. destruct H as [[H | []] | [country [Hc H]]].
    + discriminate H.
    + vm_compute in Hc. destruct Hc as [<- | [<- | []]]; discriminate H.
Defined.

Lemma deny_line_witness :
  let after :=
    snd (receive_entry (ord := insertion_order) "Deny citizens of Arstotzka" init) in
  fst (receive_entry (ord := insertion_order) "Deny citizens of Arstotzka" init)
  = Ok tt
  /\ ~ In "arstotzka" (allowed_countries after).
Proof.
  cbv zeta.
  assert (Hs : PyStr.strip "Deny citizens of Arstotzka"
               = ("Deny citizens of " ++ "Arstotzka")%string)
    by (vm_compute; reflexivity).
  assert (Hf : PyStr.contains "Foreigners" "Arstotzka" = false)
    by (vm_compute; reflexivity).
  assert (He : PyStr.contains "Entrants" "Arstotzka" = false)
    by (vm_compute; reflexivity).
  destruct (deny_line (ord := insertion_order) _ _ init Hs Hf He) as [Hok [Hin _]].
  split; [exact Hok |].
  intros H. apply Hin in H. destruct H as [_ H]. apply H.
  exists "Arstotzka". split; [vm_compute; auto | vm_compute; reflexivity].
Defined.

Lemma wanted_then_detained_witness :
  let policy :=
    snd (receive_bulletin (ord := insertion_order) "Wanted by the State: John Doe"
           init) in
  fst (receive_bulletin (ord := insertion_order) "Wanted by the State: John Doe" init)
  = Ok tt
  /\ In "Doe, John" (wanted_criminals policy)
  /\ inspect (ord := insertion_order) [("passport", "NAME: Doe, John")] policy
     = (Ok "Detainment: Entrant is a wanted criminal.", policy).
Proof.
  assert (Hnl : PyStr.contains NL "Wanted by the State: John Doe" = false)
    by (vm_compute; reflexivity).
  assert (Hs : PyStr.strip "Wanted by the State: John Doe"
               = ("Wanted by the State: " ++ "John" ++ " " ++ "Doe")%string)
    by (vm_compute; reflexivity).
  assert (H1 : PyStr.contains " " "John" = false) by (vm_compute; reflexivity).
  assert (H2 : PyStr.contains " " "Doe" = false) by (vm_compute; reflexivity).
  assert (Hf : PyStr.contains "Foreigners" ("John" ++ " " ++ "Doe")%string = false)
    by (vm_compute; reflexivity).
  assert (He : PyStr.contains "Entrants" ("John" ++ " " ++ "Doe")%string = false)
    by (vm_compute; reflexivity).
  assert (Hp : parse_entrant [("passport", "NAME: Doe, John")]
               = Ok [("passport", [("NAME", "Doe, John")])])
    by (vm_compute; reflexivity).
  assert (Hm : check_mismatches [("passport", [("NAME", "Doe, John")])]
                 MISMATCH_FIELDS = []) by (vm_compute; reflexivity).
  assert (Hn : get_name [("passport", [("NAME", "Doe, John")])]
               = Some ("Doe" ++ ", " ++ "John")%string) by (vm_compute; reflexivity).
  exact (wanted_then_detained (ord := insertion_order)
           "Wanted by the State: John Doe" "John" "Doe" init
           [("passport", "NAME: Doe, John")] [("passport", [("NAME", "Doe, John")])]
           Hnl Hs H1 H2 Hf He Hp Hm Hn).
Defined.

Lemma wanted_name_not_two_words_witness :
  receive_entry (ord := insertion_order)
    "Wanted by the State: Jan van Eyck" init
  = (Err (UnpackError 3), init).
Proof.
  assert (Hs : PyStr.strip "Wanted by the State: Jan van Eyck"
               = ("Wanted by the State: " ++ "Jan van Eyck")%string)
    by (vm_compute; reflexivity).
  assert (Hf : PyStr.contains "Foreigners" "Jan van Eyck" = false)
    by (vm_compute; reflexivity).
  assert (He : PyStr.contains "Entrants" "Jan van Eyck" = false)
    by (vm_compute; reflexivity).
  assert (Hc : PyStr.count " " "Jan van Eyck" <> 1) by (vm_compute; discriminate).
  exact (wanted_name_not_two_words (ord := insertion_order)
           "Wanted by the State: Jan van Eyck" "Jan van Eyck" init Hs Hf He Hc).
Defined.

Lemma wanted_stays_wanted_witness :
  let policy := Examples.after_bulletin "Wanted by the State: John Doe" in
  (forall bulletin,
      In "Doe, John"
        (wanted_criminals
           (snd (receive_bulletin (ord := insertion_order) bulletin policy))))
  /\ (forall entrant,
         In "Doe, John"
           (wanted_criminals (snd (inspect (ord := insertion_order) entrant policy)))).
Proof.
  assert (H : In "Doe, John"
                (wanted_criminals
                   (Examples.after_bulletin "Wanted by the State: John Doe")))
    by (vm_compute; auto).
  exact (wanted_stays_wanted (ord := insertion_order) "Doe, John"
           (Examples.after_bulletin "Wanted by the State: John Doe") H).
Defined.

(** ** What is enough for an admission *)

Lemma runs_bind {A B} (m : M A) (f : A -> M B) (self : Inspector) (a : A) (b : B) :
  runs m self a ->
  (forall self', same_policy self self' -> runs (f a) self' b) ->
  runs (bind m f) self b.
Proof.
  intros [s1 [Hm Hs1]] Hf. destruct (Hf s1 Hs1) as [s2 [Hf2 Hs2]].
  exists s2. split; [| exact (same_policy_trans _ _ _ Hs1 Hs2)].
  unfold bind. rewrite Hm. exact Hf2.
Qed.

Lemma runs_ret {A} (a : A) (self : Inspector) : runs (ret a) self a.
Proof. exists self. split; [reflexivity | apply same_policy_refl]. Qed.

Lemma runs_attr {A} (g : Inspector -> A) (self : Inspector) :
  runs (attr g) self (g self).
Proof. exists self. split; [reflexivity | apply same_policy_refl]. Qed.

Lemma runs_lift {A} (r : result A) (a : A) (self : Inspector) :
  r = Ok a -> runs (lift r) self a.
Proof. intros ->. exists self. split; [reflexivity | apply same_policy_refl]. Qed.

Lemma runs_getitem_documents (k : option string) (self : Inspector) :
  runs (required_documents_getitem k) self (lookup k (required_documents self)).
Proof.
  pose proof (returns_getitem_documents k self) as H. unfold returns in H.
  unfold runs. revert H. unfold required_documents_getitem.
  destruct (default_getitem k (required_documents self)) as [v d].
  intros [-> Hs]. eexists. split; [reflexivity | exact Hs].
Qed.

Lemma runs_getitem_vaccinations (k : option string) (self : Inspector) :
  runs (required_vaccinations_getitem k) self (lookup k (required_vaccinations self)).
Proof.
  pose proof (returns_getitem_vaccinations k self) as H. unfold returns in H.
  unfold runs. revert H. unfold required_vaccinations_getitem.
  destruct (default_getitem k (required_vaccinations self)) as [v d].
  intros [-> Hs]. eexists. split; [reflexivity | exact Hs].
Qed.

Lemma missing_document_complete (required : list string) (documents : Documents) :
  (forall type, In type required ->
                type = "access permit"
                \/ PyDict.has String.eqb (PyStr.lower type) documents = true) ->
  missing_document required documents = None.
Proof.
  induction required as [| r required IH]; intros H; simpl; [reflexivity |].
  destruct (String.eqb r "access permit") eqn:Ea.
  - apply IH. intros type Ht. apply H. now right.
  - destruct (H r (or_introl eq_refl)) as [-> | Hh].
    + now rewrite String.eqb_refl in Ea.
    + rewrite Hh. simpl. apply IH. intros type Ht. apply H. now right.
Qed.

Lemma parsed_title_plain (entrant : list (string * string))
  (documents : Documents) (title : string) (document : list (string * string)) :
  parse_entrant entrant = Ok documents ->
  In (title, document) documents ->
  PyStr.replace "_" " " title = title.
Proof.
  intros Hp Hin.
  destruct (parse_entrant_loop_titles entrant [] documents Hp) as [_ Hk].
  assert (Ht : In title (PyDict.keys documents)).
  { unfold PyDict.keys. apply in_map_iff. now exists (title, document). }
  apply Hk in Ht. destruct Ht as [[] | [t [_ ->]]].
  apply normalise_normal.
Qed.

Section Sufficient.
Context {ord : SetOrder}.

Lemma runs_required (self : Inspector) (nationality : option string) :
  runs
    match nationality with
    | None =>
        d <- attr required_documents ;;
        ret (PySet.union_all (PyDict.values d))
    | Some _ => required_documents_getitem nationality
    end self (required_of self nationality).
Proof.
  destruct nationality as [n |].
  - apply runs_getitem_documents.
  - eapply runs_bind; [apply runs_attr |]. intros s _. apply runs_ret.
Qed.

Lemma access_granted_runs (documents : Documents) (nationality : option string)
  (self : Inspector) :
  (nationality <> Some "arstotzka" ->
   In "access permit" (lookup nationality (required_documents self)) ->
   access_granted documents self /\ purpose_stated documents self) ->
  runs (check_access_permits documents nationality) self None.
Proof.
  intros H. unfold check_access_permits.
  destruct (key_eqb nationality (Some "arstotzka")) eqn:Ek; simpl;
    [apply runs_ret |].
  assert (Hne : nationality <> Some "arstotzka").
  { intros ->. now rewrite (keq_refl key_eqb key_eqb_eq) in Ek. }
  eapply runs_bind; [apply runs_getitem_documents |].
  intros s1 Hs1.
  destruct (PySet.mem "access permit" (lookup nationality (required_documents self)))
    eqn:Em; [| apply runs_ret].
  apply mem_In in Em. destruct (H Hne Em) as [Hg Hp].
  unfold access_granted in Hg. unfold purpose_stated in Hp.
  destruct (PyDict.get String.eqb "access permit" documents) as [permit |].
  - eapply runs_bind; [apply runs_attr |]. intros s2 Hs2.
    assert (Hw : work_pass_required s1 = work_pass_required self)
      by (destruct Hs1 as [_ [_ [Hw _]]]; exact Hw).
    rewrite Hw.
    destruct (work_pass_required self); [| apply runs_ret].
    specialize (Hp eq_refl permit eq_refl).
    destruct (PyDict.get String.eqb "PURPOSE" permit) as [purpose |] eqn:Ep;
      [| congruence].
    eapply runs_bind; [apply runs_lift; unfold getitem; now rewrite Ep |].
    intros s3 Hs3.
    destruct (String.eqb purpose "WORK") eqn:Ew; [| apply runs_ret].
    apply String.eqb_eq in Ew. subst purpose.
    rewrite (Hg eq_refl eq_refl). apply runs_ret.
  - destruct (PyDict.has String.eqb "grant of asylum" documents); [apply runs_ret |].
    destruct Hg as [Hg | [authorization [access [Ha [Hacc Hin]]]]]; [discriminate |].
    rewrite Ha.
    eapply runs_bind; [apply runs_lift; unfold getitem; now rewrite Hacc |].
    intros s2 Hs2.
    assert (Hmem : PySet.mem "Arstotzka" (PySet.of_list (PyStr.split ", " access))
                   = true) by (now apply mem_In, of_list_In).
    rewrite Hmem. apply runs_ret.
Qed.

Lemma issubset_In (a b : PySet.t) :
  (forall x, In x a -> In x b) -> PySet.issubset a b = true.
Proof.
  intros H. unfold PySet.issubset. apply forallb_forall.
  intros x Hx. now apply mem_In, H.
Qed.

Lemma vaccinated_runs (documents : Documents) (nationality : option string)
  (self : Inspector) :
  vaccinated documents (lookup nationality (required_vaccinations self)) ->
  runs (check_vaccinations documents nationality) self
    (if key_eqb nationality (Some "arstotzka")
     then "Glory to Arstotzka." else "Cause no trouble.").
Proof.
  intros Hv. unfold check_vaccinations. cbv zeta.
  eapply runs_bind; [apply runs_getitem_vaccinations |].
  intros s1 Hs1.
  destruct (lookup nationality (required_vaccinations self)) as [| v required]
    eqn:El; [apply runs_ret |].
  destruct Hv as [Hv | [certificate [vaccines [Hc [Hvac Hall]]]]]; [discriminate |].
  rewrite Hc.
  eapply runs_bind; [apply runs_lift; unfold getitem; now rewrite Hvac |].
  intros s2 Hs2.
  rewrite issubset_In; [apply runs_ret |].
  intros x Hx. now apply of_list_In, Hall.
Qed.

(** After the mismatch, wanted and required-document stages have let the
    entrant pass, the inspection goes on with the expiration dates. *)
Lemma inspect_documents_papers (documents : Documents) (self : Inspector) :
  check_mismatches documents MISMATCH_FIELDS = [] ->
  mem_value (get_name documents) (wanted_criminals self) = false ->
  (forall type,
      In type (required_of self (resolved_nationality documents)) ->
      type = "access permit"
      \/ PyDict.has String.eqb (PyStr.lower type) documents = true) ->
  exists self',
    same_policy self self'
    /\ inspect_documents documents self
       = (expirations <- lift (check_expirations documents TODAY) ;;
          match expirations with
          | title :: _ =>
              ret ("Entry denied: " ++ PyStr.replace "_" " " title ++ " expired.")%string
          | [] =>
              denial <- check_access_permits documents
                          (resolved_nationality documents) ;;
              match denial with
              | Some decision => ret decision
              | None =>
                  allowed <- attr allowed_countries ;;
                  if negb (mem_value (resolved_nationality documents) allowed)
                  then ret "Entry denied: citizen of banned nation."
                  else check_vaccinations documents (resolved_nationality documents)
              end
          end) self'.
Proof.
  intros Hm Hw Hd. unfold inspect_documents.
  fold (resolved_nationality documents). cbv zeta. rewrite Hm.
  unfold bind at 1, attr at 1, Ok at 1. cbv beta iota. rewrite Hw. cbv iota.
  destruct (runs_required self (resolved_nationality documents))
    as [s1 [Hrun Hs1]].
  exists s1. split; [exact Hs1 |].
  unfold bind at 1. rewrite Hrun. unfold Ok at 1. cbv beta iota.
  rewrite missing_document_complete; [reflexivity |].
  intros type Ht. apply Hd.
  apply Permutation_in with (l := iter (required_of self (resolved_nationality documents)));
    [apply iter_perm | exact Ht].
Qed.

(** X24. What an admission implies is also enough for it: an entrant with
    a nationality who has passed every check, and whose access permit
    states its purpose when work passes are required, is let in, with the
    greeting of the nationality; no exception is raised. *)
Theorem admission_complete (entrant : list (string * string))
  (documents : Documents) (self : Inspector) (n s : string) :
  parse_entrant entrant = Ok documents ->
  resolved_nationality documents = Some n ->
  admission s ->
  passed_checks documents self n s ->
  purpose_stated documents self ->
  fst (inspect entrant self) = Ok s.
Proof.
  intros Hp Hn Ha [Hm [Hw [Hd [He [Hacc [Hal [Hv Hg]]]]]]] Hpur.
  rewrite (inspect_parsed _ _ _ Hp).
  destruct (inspect_documents_papers documents self Hm Hw) as [s1 [Hs1 Hrun]].
  { rewrite Hn. exact Hd. }
  rewrite Hrun, Hn. clear Hrun.
  assert (Hfinal :
    runs (expirations <- lift (check_expirations documents TODAY) ;;
          match expirations with
          | title :: _ =>
              ret ("Entry denied: " ++ PyStr.replace "_" " " title ++ " expired.")%string
          | [] =>
              denial <- check_access_permits documents (Some n) ;;
              match denial with
              | Some decision => ret decision
              | None =>
                  allowed <- attr allowed_countries ;;
                  if negb (mem_value (Some n) allowed)
                  then ret "Entry denied: citizen of banned nation."
                  else check_vaccinations documents (Some n)
              end
          end) s1 s).
  { destruct (same_policy_lookups self s1 (Some n) Hs1) as [Hld1 Hlv1].
    eapply runs_bind; [apply runs_lift; exact He |]. intros s2 Hs2.
    pose proof (same_policy_trans _ _ _ Hs1 Hs2) as Hs12.
    destruct (same_policy_lookups self s2 (Some n) Hs12) as [Hld2 Hlv2].
    eapply runs_bind.
    { apply access_granted_runs. rewrite Hld2. intros Hne Hin.
      assert (Hne' : n <> "arstotzka") by congruence.
      split.
      - apply (access_granted_same documents s2 self);
          [| exact (Hacc Hne' Hin)].
        destruct Hs12 as [_ [_ [H _]]]. now symmetry.
      - unfold purpose_stated in *. destruct Hs12 as [_ [_ [H _]]].
        rewrite H. exact Hpur. }
    intros s3 Hs3. pose proof (same_policy_trans _ _ _ Hs12 Hs3) as Hs13.
    eapply runs_bind; [apply runs_attr |]. intros s4 Hs4.
    pose proof (same_policy_trans _ _ _ Hs13 Hs4) as Hs14.
    assert (Hallowed : allowed_countries s3 = allowed_countries self)
      by (destruct Hs13 as [H _]; exact H).
    rewrite Hallowed. simpl mem_value.
    rewrite (proj2 (mem_In n (allowed_countries self)) Hal). simpl negb. cbv iota.
    assert (Hs_eq : s = if key_eqb (Some n) (Some "arstotzka")
                        then "Glory to Arstotzka." else "Cause no trouble.").
    { destruct (key_eqb (Some n) (Some "arstotzka")) eqn:Ek.
      - apply key_eqb_eq in Ek. apply Hg. congruence.
      - destruct Ha as [-> | ->]; [| reflexivity].
        assert (n = "arstotzka") by (now apply Hg). subst n.
        now rewrite (keq_refl key_eqb key_eqb_eq) in Ek. }
    rewrite Hs_eq. apply vaccinated_runs.
    destruct (same_policy_lookups self s4 (Some n) Hs14) as [_ Hlv4].
    rewrite Hlv4. exact Hv. }
  destruct Hfinal as [s' [Hf _]]. rewrite Hf. reflexivity.
Qed.

(** X25. An entrant without mismatch, not wanted and with the required
    documents, one of whose documents is expired, is denied with the title
    of the first title [check_expirations] lists, as the documents are
    filed: the title is normalised already, and the [replace] of [_] in it
    changes nothing.  That document has an [EXP] date before the
    reference date. *)
Theorem expired_document_denied (entrant : list (string * string))
  (documents : Documents) (self : Inspector) (title : string)
  (others : list string) :
  parse_entrant entrant = Ok documents ->
  check_mismatches documents MISMATCH_FIELDS = [] ->
  mem_value (get_name documents) (wanted_criminals self) = false ->
  (forall type,
      In type (required_of self (resolved_nationality documents)) ->
      type = "access permit"
      \/ PyDict.has String.eqb (PyStr.lower type) documents = true) ->
  check_expirations documents TODAY = Ok (title :: others) ->
  fst (inspect entrant self) = Ok ("Entry denied: " ++ title ++ " expired.")%string
  /\ exists document text d,
       In (title, document) documents
       /\ PyDict.get String.eqb "EXP" document = Some text
       /\ PyDate.strptime text = Some d
       /\ PyDate.ltb d TODAY = true.
Proof.
  intros Hp Hm Hw Hd He.
  destruct (check_expirations_sound documents (title :: others) title He
              (or_introl eq_refl)) as [document [text [d [Hin [Hexp [Hs Hlt]]]]]].
  split; [| now exists document, text, d].
  rewrite (inspect_parsed _ _ _ Hp).
  destruct (inspect_documents_papers documents self Hm Hw Hd) as [s1 [_ Hrun]].
  rewrite Hrun. unfold bind, lift. rewrite He. unfold Ok, ret. cbv beta iota.
  rewrite (parsed_title_plain entrant documents title document Hp Hin).
  reflexivity.
Qed.

End Sufficient.

Lemma crossing_passed_checks :
  passed_checks Crossing.documents Crossing.policy "obristan" "Cause no trouble.".
Proof.
  split; [vm_compute; reflexivity |].
  split; [vm_compute; reflexivity |].
  split.
  { intros type H. vm_compute in H. destruct H as [<- | [<- | []]].
    - now left.
    - right. vm_compute. reflexivity. }
  split; [vm_compute; reflexivity |].
  split.
  { intros _ _. unfold access_granted.
    change (PyDict.get String.eqb "access permit" Crossing.documents)
      with (Some [("NAME", "Doe, John"); ("NATION", "Obristan"); ("PURPOSE", "WORK");
                  ("EXP", "1983.01.01")]).
    intros _ _. vm_compute. reflexivity. }
  split; [vm_compute; auto |].
  split.
  { right. exists [("NAME", "Doe, John"); ("VACCINES", "polio, tetanus")],
      "polio, tetanus".
    split; [vm_compute; reflexivity |]. split; [vm_compute; reflexivity |].
    intros disease H. vm_compute in H. destruct H as [<- | []].
    vm_compute. auto. }
  split; [discriminate | discriminate].
Qed.

Lemma crossing_purpose_stated : purpose_stated Crossing.documents Crossing.policy.
Proof.
  intros _ permit H. vm_compute in H. injection H as <-. vm_compute. discriminate.
Qed.

Lemma admission_complete_witness :
  fst (inspect (ord := insertion_order) Crossing.entrant Crossing.policy)
  = Ok "Cause no trouble.".
Proof.
  exact (admission_complete (ord := insertion_order)
           Crossing.entrant Crossing.documents Crossing.policy "obristan"
           "Cause no trouble." crossing_parsed crossing_nationality
           (or_intror eq_refl) crossing_passed_checks crossing_purpose_stated).
Defined.

Lemma expired_document_denied_witness :
  fst (inspect (ord := insertion_order)
         [("ID_card", "NATION: Arstotzka
EXP: 1982.11.21")] init)
  = Ok "Entry denied: id card expired."
  /\ exists document text d,
       In ("id card", document)
         [("id card", [("NATION", "Arstotzka"); ("EXP", "1982.11.21")])]
       /\ PyDict.get String.eqb "EXP" document = Some text
       /\ PyDate.strptime text = Some d
       /\ PyDate.ltb d TODAY = true.
Proof.
  assert (Hp : parse_entrant [("ID_card", "NATION: Arstotzka
EXP: 1982.11.21")]
               = Ok [("id card", [("NATION", "Arstotzka"); ("EXP", "1982.11.21")])])
    by (vm_compute; reflexivity).
  assert (Hm : check_mismatches
                 [("id card", [("NATION", "Arstotzka"); ("EXP", "1982.11.21")])]
                 MISMATCH_FIELDS = []) by (vm_compute; reflexivity).
  assert (Hw : mem_value
                 (get_name
                    [("id card", [("NATION", "Arstotzka"); ("EXP", "1982.11.21")])])
                 (wanted_criminals init) = false) by (vm_compute; reflexivity).
  assert (Hd : forall type,
             In type
               (required_of init
                  (resolved_nationality
                     [("id card", [("NATION", "Arstotzka"); ("EXP", "1982.11.21")])])) ->
             type = "access permit"
             \/ PyDict.has String.eqb (PyStr.lower type)
                  [("id card", [("NATION", "Arstotzka"); ("EXP", "1982.11.21")])]
                = true)
    by (intros type H; vm_compute in H; destruct H).
  assert (He : check_expirations
                 [("id card", [("NATION", "Arstotzka"); ("EXP", "1982.11.21")])]
                 TODAY = Ok ["id card"]) by (vm_compute; reflexivity).
  exact (expired_document_denied (ord := insertion_order) _ _ init "id card" []
           Hp Hm Hw Hd He).
Defined.
